(** * The LSF job driver (src/clib/lib/job_queue/lsf_driver.cpp)

    A shallow embedding of the shell based LSF driver: the command
    builder, the submission path, the bjobs status cache, the bhist
    fallback and the status conversion, followed by the properties the
    design document states about them.

    Conventions of the embedding:
    - [char *] values that the code tests against NULL are [option string];
    - [int], [long] and [time_t] values are [Z];
    - the two hash tables of the driver are a [gset string] (my_jobs, whose
      values are all NULL) and a [gmap string Z] (bjobs_cache);
    - the driver is mutated through a pointer: the functions are written in
      a state monad over the driver and the outside world, whose outcome
      records process termination ([exit], [util_exit], [util_abort]) and
      C++ exceptions;
    - every effect on the outside world, and every write to the data shared
      between threads, is appended to a trace of events. *)

From Stdlib Require Import ZArith Lia Ascii String.
From stdpp Require Import base gmap sets list strings pretty.

Local Open Scope Z_scope.

(** ** C strings *)

Module CStr.

(** [is_prefix p s]: [strncmp(s, p, strlen(p)) == 0]. *)
Fixpoint is_prefix (p s : string) : bool :=
  match p, s with
  | EmptyString, _ => true
  | String a p', String b s' => if decide (a = b) then is_prefix p' s' else false
  | String _ _, EmptyString => false
  end.

(** [strstr haystack needle]: the offset of the first occurrence of
    [needle] in [haystack], [None] for the NULL pointer. *)
Fixpoint strstr (haystack needle : string) : option nat :=
  if is_prefix needle haystack then Some 0%nat
  else match haystack with
       | EmptyString => None
       | String _ h => S <$> strstr h needle
       end.

(** The first [n] characters, and what follows them. *)
Fixpoint take (n : nat) (s : string) : string :=
  match n, s with
  | S n', String c s' => String c (take n' s')
  | _, _ => EmptyString
  end.

Fixpoint drop (n : nat) (s : string) : string :=
  match n, s with
  | S n', String _ s' => drop n' s'
  | _, _ => s
  end.

(** [s[i] = c], for [i] inside the string. *)
Fixpoint set_char (i : nat) (c : ascii) (s : string) : string :=
  match s with
  | EmptyString => EmptyString
  | String a s' =>
      match i with
      | O => String c s'
      | S i' => String a (set_char i' c s')
      end
  end.

(** [ert::join(list, sep)]. *)
Fixpoint join (sep : string) (l : list string) : string :=
  match l with
  | [] => ""
  | [x] => x
  | x :: l' => x +:+ sep +:+ join sep l'
  end.

(** The double quote character. *)
Definition dquote : ascii := ascii_of_nat 34.

(** [isspace] in the C locale. *)
Definition isspace (c : ascii) : bool := Ascii.is_space c.

(** Number of occurrences of [needle] in [s] (overlapping ones counted). *)
Fixpoint count_occ (needle s : string) : nat :=
  ((if is_prefix needle s then 1 else 0) +
   match s with
   | EmptyString => 0
   | String _ s' => count_occ needle s'
   end)%nat.

End CStr.

(** ** Status codes and enumerations *)

(** The LSF status codes of [ert/job_queue/lsf_job_stat.hpp].  The header
    is not part of the sources at hand, so the codes are parameters of the
    development. *)
Class lsf_job_stat := {
  JOB_STAT_NULL : Z;
  JOB_STAT_PEND : Z;
  JOB_STAT_SSUSP : Z;
  JOB_STAT_USUSP : Z;
  JOB_STAT_PSUSP : Z;
  JOB_STAT_RUN : Z;
  JOB_STAT_EXIT : Z;
  JOB_STAT_DONE : Z;
  JOB_STAT_PDONE : Z;
  JOB_STAT_UNKWN : Z;
}.

(** The codes are pairwise different, and so is the sum that the conversion
    table lists. *)
Definition codes_distinct `{lsf_job_stat} : Prop :=
  NoDup [JOB_STAT_NULL; JOB_STAT_PEND; JOB_STAT_SSUSP; JOB_STAT_USUSP;
         JOB_STAT_PSUSP; JOB_STAT_RUN; JOB_STAT_EXIT; JOB_STAT_DONE;
         JOB_STAT_PDONE; JOB_STAT_UNKWN; JOB_STAT_DONE + JOB_STAT_PDONE].

(** The values LSF's lsbatch.h gives the codes. *)
Definition lsbatch_codes : lsf_job_stat := {|
  JOB_STAT_NULL := 0;
  JOB_STAT_PEND := 1;
  JOB_STAT_PSUSP := 2;
  JOB_STAT_RUN := 4;
  JOB_STAT_SSUSP := 8;
  JOB_STAT_USUSP := 16;
  JOB_STAT_EXIT := 32;
  JOB_STAT_DONE := 64;
  JOB_STAT_PDONE := 128;
  JOB_STAT_UNKWN := 65536;
|}.

(** [job_status_type], the values the conversion table produces. *)
Inductive job_status_type :=
  | JOB_QUEUE_NOT_ACTIVE
  | JOB_QUEUE_PENDING
  | JOB_QUEUE_RUNNING
  | JOB_QUEUE_DONE
  | JOB_QUEUE_EXIT
  | JOB_QUEUE_UNKNOWN.

Inductive lsf_submit_method_enum :=
  | LSF_SUBMIT_INVALID
  | LSF_SUBMIT_INTERNAL
  | LSF_SUBMIT_LOCAL_SHELL
  | LSF_SUBMIT_REMOTE_SHELL.

Global Instance lsf_submit_method_enum_eq_dec : EqDecision lsf_submit_method_enum.
Proof. solve_decision. Defined.

Global Instance job_status_type_eq_dec : EqDecision job_status_type.
Proof. solve_decision. Defined.

(** ** The driver, the job handle and the outside world *)

(** [struct lsf_job_struct].  [lsf_jobnr_char] is NULL only between
    [lsf_job_alloc] and the [sprintf] of [lsf_driver_submit_job], where
    nothing reads it: the handles the driver hands out always carry the
    key, so the field is a plain string. *)
Record lsf_job := {
  lsf_jobnr : Z;
  num_exec_host : Z;
  exec_host : list string;
  lsf_jobnr_char : string;
  job_name : string;
}.

(** [struct lsf_driver_struct], without its two mutexes, which only show in
    the trace. *)
Record lsf_driver := {
  queue_name : option string;
  resource_request : option string;
  exclude_hosts : list string;
  login_shell : option string;
  project_code : option string;
  submit_method : lsf_submit_method_enum;
  submit_sleep : Z;
  error_count : Z;
  max_error_count : Z;
  submit_error_sleep : Z;
  debug_output : bool;
  bjobs_refresh_interval : Z;
  last_bjobs_update : Z;
  my_jobs : gset string;
  bjobs_cache : gmap string Z;
  remote_lsf_server : option string;
  rsh_cmd : option string;
  bsub_cmd : option string;
  bjobs_cmd : option string;
  bkill_cmd : option string;
  bhist_cmd : option string;
}.

Inductive mutex := submit_lock | bjobs_mutex.

Global Instance mutex_eq_dec : EqDecision mutex.
Proof. solve_decision. Defined.

(** Writes to the data of the driver that several threads share. *)
Inductive shared_write :=
  | my_jobs_insert (key : string)
  | error_count_incr
  | bjobs_cache_clear
  | bjobs_cache_insert (key : string) (status : Z)
  | debug_output_on
  | last_bjobs_update_set (t : Z).

Inductive event :=
  | EvLock (m : mutex)
  | EvUnlock (m : mutex)
  | EvSpawn (cmd : option string) (argc : Z) (argv : list (option string))
  | EvSleep (seconds : Z)
  | EvUsleep (useconds : Z)
  | EvWrite (w : shared_write)
  | EvFile (path content : string).

Global Instance shared_write_eq_dec : EqDecision shared_write.
Proof. solve_decision. Defined.

Global Instance event_eq_dec : EqDecision event.
Proof. solve_decision. Defined.

(** The world outside the driver: a clock in microseconds, the batch system
    behind [spawn_blocking] (the [n]-th command run answers with what it
    writes to its stdout file and the time it takes), the files written so
    far, and the trace of what has happened. *)
Record world := {
  clock : Z;
  spawned : nat;
  respond : nat → option string → list (option string) → string * Z;
  files : gmap string string;
  trace : list event;
}.

Record state := { drv : lsf_driver; env : world }.

(** How a call ends: it returns, the process is terminated ([exit],
    [util_exit], [util_abort]), or a C++ exception leaves it. *)
Inductive outcome (A : Type) :=
  | Ret (a : A)
  | Exit (msg : string)
  | Throw (msg : string).
Arguments Ret {A} a.
Arguments Exit {A} msg.
Arguments Throw {A} msg.

Definition M (A : Type) : Type := state → outcome A * state.

Global Instance M_ret : MRet M := λ A a st, (Ret a, st).

Global Instance M_bind : MBind M := λ A B f c st,
  match c st with
  | (Ret a, st') => f a st'
  | (Exit msg, st') => (Exit msg, st')
  | (Throw msg, st') => (Throw msg, st')
  end.

Definition util_exit {A} (msg : string) : M A := λ st, (Exit msg, st).
Definition util_abort {A} (msg : string) : M A := λ st, (Exit msg, st).

Definition get_driver : M lsf_driver := λ st, (Ret (drv st), st).

Definition set_driver (d : lsf_driver) : M unit :=
  λ st, (Ret (), {| drv := d; env := env st |}).

Definition with_env (f : world → world) : M unit :=
  λ st, (Ret (), {| drv := drv st; env := f (env st) |}).

Definition log_event (e : event) (w : world) : world :=
  {| clock := clock w; spawned := spawned w; respond := respond w;
     files := files w; trace := trace w ++ [e] |}.

Definition advance (us : Z) (w : world) : world :=
  {| clock := clock w + us; spawned := spawned w; respond := respond w;
     files := files w; trace := trace w |}.

Definition emit (e : event) : M unit := with_env (log_event e).

Definition pthread_mutex_lock (m : mutex) : M unit := emit (EvLock m).
Definition pthread_mutex_unlock (m : mutex) : M unit := emit (EvUnlock m).

(** [time(NULL)], in seconds. *)
Definition time : M Z := λ st, (Ret (clock (env st) / 1000000), st).

Definition sleep (seconds : Z) : M unit :=
  with_env (λ w, advance (seconds * 1000000) (log_event (EvSleep seconds) w)).

(** The conversion of an [int] to [useconds_t], an unsigned int of 32
    bits. *)
Definition useconds (us : Z) : Z := us `mod` 2 ^ 32.

(** [usleep(us)] with an [int]: the event records the [int] the driver
    passes, the time that passes is its conversion to [useconds_t]. *)
Definition usleep (us : Z) : M unit :=
  with_env (λ w, advance (useconds us) (log_event (EvUsleep us) w)).

(** A write past the end of an array on the stack.  The language leaves
    open what follows; the process is taken to end there, killed by the
    stack protector or by the memory protection. *)
Definition stack_overrun {A} : M A := λ st, (Exit "SIGSEGV", st).

(** [spawn_blocking(cmd, argc, argv, stdout_file, ...)]: runs the command
    and returns what it has left in its stdout file. *)
Definition spawn_blocking (cmd : option string) (argc : Z)
    (argv : list (option string)) : M string := λ st,
  let w := env st in
  let '(out, us) := respond w (spawned w) cmd argv in
  (Ret out,
   {| drv := drv st;
      env := {| clock := clock w + us; spawned := S (spawned w);
                respond := respond w; files := files w;
                trace := trace w ++ [EvSpawn cmd argc argv] |} |}).

(** [fopen(path, "w"); fprintf(...); fclose]. *)
Definition write_file (path content : string) : M unit :=
  with_env (λ w,
    {| clock := clock w; spawned := spawned w; respond := respond w;
       files := <[path := content]> (files w);
       trace := trace w ++ [EvFile path content] |}).

(** Field updates of the driver. *)
Definition set_my_jobs (s : gset string) (d : lsf_driver) : lsf_driver :=
  {| queue_name := queue_name d; resource_request := resource_request d;
     exclude_hosts := exclude_hosts d; login_shell := login_shell d;
     project_code := project_code d; submit_method := submit_method d;
     submit_sleep := submit_sleep d; error_count := error_count d;
     max_error_count := max_error_count d;
     submit_error_sleep := submit_error_sleep d;
     debug_output := debug_output d;
     bjobs_refresh_interval := bjobs_refresh_interval d;
     last_bjobs_update := last_bjobs_update d; my_jobs := s;
     bjobs_cache := bjobs_cache d; remote_lsf_server := remote_lsf_server d;
     rsh_cmd := rsh_cmd d; bsub_cmd := bsub_cmd d; bjobs_cmd := bjobs_cmd d;
     bkill_cmd := bkill_cmd d; bhist_cmd := bhist_cmd d |}.

Definition set_bjobs_cache (c : gmap string Z) (d : lsf_driver) : lsf_driver :=
  {| queue_name := queue_name d; resource_request := resource_request d;
     exclude_hosts := exclude_hosts d; login_shell := login_shell d;
     project_code := project_code d; submit_method := submit_method d;
     submit_sleep := submit_sleep d; error_count := error_count d;
     max_error_count := max_error_count d;
     submit_error_sleep := submit_error_sleep d;
     debug_output := debug_output d;
     bjobs_refresh_interval := bjobs_refresh_interval d;
     last_bjobs_update := last_bjobs_update d; my_jobs := my_jobs d;
     bjobs_cache := c; remote_lsf_server := remote_lsf_server d;
     rsh_cmd := rsh_cmd d; bsub_cmd := bsub_cmd d; bjobs_cmd := bjobs_cmd d;
     bkill_cmd := bkill_cmd d; bhist_cmd := bhist_cmd d |}.

Definition set_error_count (n : Z) (d : lsf_driver) : lsf_driver :=
  {| queue_name := queue_name d; resource_request := resource_request d;
     exclude_hosts := exclude_hosts d; login_shell := login_shell d;
     project_code := project_code d; submit_method := submit_method d;
     submit_sleep := submit_sleep d; error_count := n;
     max_error_count := max_error_count d;
     submit_error_sleep := submit_error_sleep d;
     debug_output := debug_output d;
     bjobs_refresh_interval := bjobs_refresh_interval d;
     last_bjobs_update := last_bjobs_update d; my_jobs := my_jobs d;
     bjobs_cache := bjobs_cache d; remote_lsf_server := remote_lsf_server d;
     rsh_cmd := rsh_cmd d; bsub_cmd := bsub_cmd d; bjobs_cmd := bjobs_cmd d;
     bkill_cmd := bkill_cmd d; bhist_cmd := bhist_cmd d |}.

Definition set_debug_output (b : bool) (d : lsf_driver) : lsf_driver :=
  {| queue_name := queue_name d; resource_request := resource_request d;
     exclude_hosts := exclude_hosts d; login_shell := login_shell d;
     project_code := project_code d; submit_method := submit_method d;
     submit_sleep := submit_sleep d; error_count := error_count d;
     max_error_count := max_error_count d;
     submit_error_sleep := submit_error_sleep d;
     debug_output := b;
     bjobs_refresh_interval := bjobs_refresh_interval d;
     last_bjobs_update := last_bjobs_update d; my_jobs := my_jobs d;
     bjobs_cache := bjobs_cache d; remote_lsf_server := remote_lsf_server d;
     rsh_cmd := rsh_cmd d; bsub_cmd := bsub_cmd d; bjobs_cmd := bjobs_cmd d;
     bkill_cmd := bkill_cmd d; bhist_cmd := bhist_cmd d |}.

Definition set_last_bjobs_update (t : Z) (d : lsf_driver) : lsf_driver :=
  {| queue_name := queue_name d; resource_request := resource_request d;
     exclude_hosts := exclude_hosts d; login_shell := login_shell d;
     project_code := project_code d; submit_method := submit_method d;
     submit_sleep := submit_sleep d; error_count := error_count d;
     max_error_count := max_error_count d;
     submit_error_sleep := submit_error_sleep d;
     debug_output := debug_output d;
     bjobs_refresh_interval := bjobs_refresh_interval d;
     last_bjobs_update := t; my_jobs := my_jobs d;
     bjobs_cache := bjobs_cache d; remote_lsf_server := remote_lsf_server d;
     rsh_cmd := rsh_cmd d; bsub_cmd := bsub_cmd d; bjobs_cmd := bjobs_cmd d;
     bkill_cmd := bkill_cmd d; bhist_cmd := bhist_cmd d |}.

(** A write to shared driver data: the update, and its mark in the trace. *)
Definition store (w : shared_write) (f : lsf_driver → lsf_driver) : M unit :=
  λ st, (Ret (), {| drv := f (drv st); env := log_event (EvWrite w) (env st) |}).

(** [printf("%s", s)]: glibc prints a NULL string as "(null)". *)
Definition fmt_s (s : option string) : string := default "(null)" s.

(** [printf("%d", n)] and [printf("%ld", n)]. *)
Definition fmt_d (n : Z) : string := pretty n.

(** The pure functions of the driver fail through the same outcomes. *)
Global Instance outcome_ret : MRet outcome := λ A a, Ret a.

Global Instance outcome_bind : MBind outcome := λ A B f c,
  match c with
  | Ret a => f a
  | Exit msg => Exit msg
  | Throw msg => Throw msg
  end.

Global Instance outcome_fmap : FMap outcome := λ A B f c,
  match c with
  | Ret a => Ret (f a)
  | Exit msg => Exit msg
  | Throw msg => Throw msg
  end.

Global Instance M_fmap : FMap M := λ A B f c st,
  match c st with
  | (Ret a, st') => (Ret (f a), st')
  | (Exit msg, st') => (Exit msg, st')
  | (Throw msg, st') => (Throw msg, st')
  end.

Definition lift {A} (c : outcome A) : M A := λ st, (c, st).

(** ** Reading text: the scanf conversions *)

Module Scan.
Import CStr.

Fixpoint skip_ws (s : string) : string :=
  match s with
  | String c s' => if isspace c then skip_ws s' else s
  | EmptyString => EmptyString
  end.

(** The longest prefix without white space, and the rest. *)
Fixpoint span_token (s : string) : string * string :=
  match s with
  | String c s' =>
      if isspace c then (EmptyString, s)
      else let '(tok, rest) := span_token s' in (String c tok, rest)
  | EmptyString => (EmptyString, EmptyString)
  end.

(** The value of the longest prefix of decimal digits (with the number of
    digits read), and the rest. *)
Fixpoint span_digits (acc : Z) (n : nat) (s : string) : Z * nat * string :=
  match s with
  | String c s' =>
      match Ascii.is_nat c with
      | Some d => span_digits (10 * acc + Z.of_nat d) (S n) s'
      | None => (acc, n, s)
      end
  | EmptyString => (acc, n, EmptyString)
  end.

(** A [long] that saturates, as [strtol] does, cast to [int]. *)
Definition long_clamp (z : Z) : Z :=
  Z.max (- 2 ^ 63) (Z.min (2 ^ 63 - 1) z).

Definition int_cast (z : Z) : Z :=
  (z + 2 ^ 31) `mod` 2 ^ 32 - 2 ^ 31.

(** What [scanf] makes of its directives: the input matches, it does not,
    or a word read with [%s] does not fit the array it is stored in. *)
Inductive scanned (A : Type) :=
  | Matched (a : A)
  | Unmatched
  | Overrun.
Arguments Matched {A} a.
Arguments Unmatched {A}.
Arguments Overrun {A}.

Global Instance scanned_bind : MBind scanned := λ A B f r,
  match r with
  | Matched a => f a
  | Unmatched => Unmatched
  | Overrun => Overrun
  end.

Definition of_option {A} (o : option A) : scanned A :=
  match o with Some a => Matched a | None => Unmatched end.

Definition matched {A} (r : scanned A) : option A :=
  match r with Matched a => Some a | _ => None end.

Definition overruns {A} (r : scanned A) : bool :=
  match r with Overrun => true | _ => false end.

(** The conversion [%s] without a field width into [char buf[size]]: the
    word is stored with a NUL after it, so that a word of [size] characters
    or more is written past the end of the array. *)
Definition scan_s (size : nat) (s : string) : scanned (string * string) :=
  let '(tok, rest) := span_token (skip_ws s) in
  if decide (tok = EmptyString) then Unmatched
  else if decide (size ≤ String.length tok)%nat then Overrun
  else Matched (tok, rest).

(** The conversion [%d]. *)
Definition scan_d (s : string) : option (Z * string) :=
  let s := skip_ws s in
  let '(neg, s) :=
    match s with
    | String "-" s' => (true, s')
    | String "+" s' => (false, s')
    | _ => (false, s)
    end in
  let '(v, n, rest) := span_digits 0 0 s in
  if decide (n = 0%nat) then None
  else Some (int_cast (long_clamp (if neg then - v else v)), rest).

(** [sscanf(line, "%d %s %s", &job_id_int, user, status) == 3], with
    [char user[32]] and [char status[16]]. *)
Definition sscanf_d_s_s (line : string) : scanned (Z * string * string) :=
  '(id, r) ← of_option (scan_d line);
  '(user, r) ← scan_s 32 r;
  '(status, _) ← scan_s 16 r;
  Matched (id, user, status).

(** [fscanf(stream, "%s %s %s %d %d %d", job_id, user, job_name,
    pend_time, &psusp_time, run_time) == 6], with [char job_id[16]],
    [char user[32]] and [char job_name[32]], giving the two counters the
    driver keeps. *)
Definition fscanf_bhist (s : string) : scanned (Z * Z) :=
  '(_, r) ← scan_s 16 s;
  '(_, r) ← scan_s 32 r;
  '(_, r) ← scan_s 32 r;
  '(pend_time, r) ← of_option (scan_d r);
  '(_, r) ← of_option (scan_d r);
  '(run_time, _) ← of_option (scan_d r);
  Matched (pend_time, run_time).

Definition newline : ascii := ascii_of_nat 10.

(** [util_fskip_lines(stream, 1)]: what follows the first newline. *)
Fixpoint fskip_line (s : string) : string :=
  match s with
  | String c s' => if decide (c = newline) then s' else fskip_line s'
  | EmptyString => EmptyString
  end.

(** The lines [util_fscanf_alloc_line] returns until it reports the end
    of the file. *)
Fixpoint lines (s : string) : list string :=
  match s with
  | String c s' =>
      if decide (c = newline) then EmptyString :: lines s'
      else match lines s' with
           | l :: ls => String c l :: ls
           | [] => [String c EmptyString]
           end
  | EmptyString => [EmptyString]
  end.

(** Modelled from the spec: [util_sscanf_int] of the utility library, which
    reads the integer of the acknowledgment: an optional sign and decimal
    digits with nothing but white space after them. *)
Definition util_sscanf_int (s : string) : option Z :=
  match scan_d s with
  | Some (v, rest) =>
      if decide (skip_ws rest = EmptyString) then Some v else None
  | None => None
  end.

End Scan.

(** ** The driver *)

Section Driver.
Context `{codes : lsf_job_stat}.
Import CStr.

(** [status_map]: the status tokens of bjobs.  [std::map] keeps the first
    of two entries with one key, and so does [list_to_map]. *)
Definition status_map : gmap string Z :=
  list_to_map
    [("PEND", JOB_STAT_PEND); ("SSUSP", JOB_STAT_SSUSP);
     ("PSUSP", JOB_STAT_PSUSP); ("USUSP", JOB_STAT_USUSP);
     ("RUN", JOB_STAT_RUN); ("EXIT", JOB_STAT_EXIT);
     ("ZOMBI", JOB_STAT_EXIT); ("DONE", JOB_STAT_DONE);
     ("PDONE", JOB_STAT_PDONE); ("UNKWN", JOB_STAT_UNKWN)].

Definition convert_status_map : gmap Z job_status_type :=
  list_to_map
    [(JOB_STAT_NULL, JOB_QUEUE_NOT_ACTIVE);
     (JOB_STAT_PEND, JOB_QUEUE_PENDING);
     (JOB_STAT_SSUSP, JOB_QUEUE_RUNNING);
     (JOB_STAT_USUSP, JOB_QUEUE_RUNNING);
     (JOB_STAT_PSUSP, JOB_QUEUE_RUNNING);
     (JOB_STAT_RUN, JOB_QUEUE_RUNNING);
     (JOB_STAT_DONE, JOB_QUEUE_DONE);
     (JOB_STAT_EXIT, JOB_QUEUE_EXIT);
     (JOB_STAT_UNKWN, JOB_QUEUE_UNKNOWN);
     (JOB_STAT_DONE + JOB_STAT_PDONE, JOB_QUEUE_DONE);
     (JOB_STAT_NULL, JOB_QUEUE_NOT_ACTIVE);
     (JOB_STAT_NULL, JOB_QUEUE_NOT_ACTIVE);
     (JOB_STAT_NULL, JOB_QUEUE_NOT_ACTIVE)].

Definition lsf_job_alloc (job_name : string) : lsf_job :=
  {| lsf_jobnr := 0; num_exec_host := 0; exec_host := [];
     lsf_jobnr_char := ""; job_name := job_name |}.

(** Modelled from the spec: the job id is the integer between the first
    [<] of the acknowledgment and the [>] that follows it
    ([util_fseek_string], [util_fscanf_alloc_upto] of the utility
    library).  [stdout_file] is [None] for a file that does not exist. *)
Definition lsf_job_parse_bsub_stdout (bsub_cmd : option string)
    (stdout_file : option string) : outcome Z :=
  match stdout_file with
  | Some content =>
      if decide (content = "") then Ret 0
      else
        let jobid :=
          match strstr content "<" with
          | Some i =>
              let rest := drop (S i) content in
              match strstr rest ">" with
              | Some j => default 0 (Scan.util_sscanf_int (take j rest))
              | None => 0
              end
          | None => 0
          end in
        if decide (jobid = 0) then Exit "lsf_job_parse_bsub_stdout: "
        else Ret jobid
  | None => Ret 0
  end.

Definition lsf_driver_internal_error {A} : M A :=
  util_exit "attempt at submitting without setting a value for LSF_SERVER".

Definition lsf_driver_assert_submit_method : M unit :=
  driver ← get_driver;
  if decide (submit_method driver = LSF_SUBMIT_INVALID)
  then lsf_driver_internal_error
  else mret ().

(** [strstr] on the NULL pointer ends the process as well. *)
Definition alloc_composed_resource_request (driver : lsf_driver)
    (select_list : list string) : outcome string :=
  match resource_request driver with
  | None => Exit "SIGSEGV"
  | Some resreq =>
      let excludes_string := join " && " select_list in
      match strstr resreq "select[" with
      | None => Ret (resreq +:+ " select[" +:+ excludes_string +:+ "]")
      | Some pos =>
          match strstr (drop pos resreq) "]" with
          | None =>
              Exit "alloc_composed_resource_request could not find termination of select statement"
          | Some e =>
              let endpos := (pos + e)%nat in
              let resreq := set_char endpos " " resreq in
              let before_size := endpos in
              let before := take before_size resreq in
              let after := drop before_size resreq in
              Ret (before +:+ " && " +:+ excludes_string +:+ "]" +:+ after)
          end
      end
  end.

(** The first half of [alloc_quoted_resource_string]: its local [req],
    the composed resource request before any quoting. *)
Definition alloc_resource_string (driver : lsf_driver)
    : outcome (option string) :=
  match exclude_hosts driver with
  | [] => Ret (resource_request driver)
  | _ =>
      let select_list :=
        (λ host, "hname!='" +:+ host +:+ "'") <$> exclude_hosts driver in
      match resource_request driver with
      | Some _ => Some <$> alloc_composed_resource_request driver select_list
      | None => Ret (Some ("select[" +:+ join " && " select_list +:+ "]"))
      end
  end.

Definition alloc_quoted_resource_string (driver : lsf_driver)
    : outcome (option string) :=
  req ← alloc_resource_string driver;
  match req with
  | Some req =>
      if decide (submit_method driver = LSF_SUBMIT_REMOTE_SHELL)
      then Ret (Some (String dquote req +:+ String dquote ""))
      else Ret (Some req)
  | None => Ret None
  end.

Definition lsf_driver_alloc_cmd (driver : lsf_driver) (lsf_stdout : string)
    (job_name : string) (submit_cmd : string) (num_cpu : Z)
    (job_argv : list string) : outcome (list (option string)) :=
  let num_cpu_string := fmt_d num_cpu in
  quoted_resource_request ← alloc_quoted_resource_string driver;
  Ret
    ((if decide (submit_method driver = LSF_SUBMIT_REMOTE_SHELL)
      then [bsub_cmd driver] else [])
     ++ [Some "-o"; Some lsf_stdout]
     ++ match queue_name driver with
        | Some q => [Some "-q"; Some q]
        | None => []
        end
     ++ [Some "-J"; Some job_name; Some "-n"; Some num_cpu_string]
     ++ match quoted_resource_request with
        | Some r => [Some "-R"; Some r]
        | None => []
        end
     ++ match login_shell driver with
        | Some l => [Some "-L"; Some l]
        | None => []
        end
     ++ match project_code driver with
        | Some p => [Some "-P"; Some p]
        | None => []
        end
     ++ [Some submit_cmd] ++ (Some <$> job_argv)).

(** Returns the job id; the stdout file of the submit command exists only
    when a command was run. *)
Definition lsf_driver_submit_shell_job (lsf_stdout job_name submit_cmd : string)
    (num_cpu : Z) (job_argv : list string) : M Z :=
  driver ← get_driver;
  remote_argv ← lift (lsf_driver_alloc_cmd driver lsf_stdout job_name
                        submit_cmd num_cpu job_argv);
  tmp_file ←
    (if decide (submit_method driver = LSF_SUBMIT_REMOTE_SHELL) then
       let argv := [remote_lsf_server driver;
                    Some (join " " (fmt_s <$> remote_argv))] in
       Some <$> spawn_blocking (rsh_cmd driver) 2 argv
     else if decide (submit_method driver = LSF_SUBMIT_LOCAL_SHELL) then
       Some <$> spawn_blocking (bsub_cmd driver)
                  (Z.of_nat (length remote_argv)) remote_argv
     else mret None);
  lift (lsf_job_parse_bsub_stdout (bsub_cmd driver) tmp_file).

(** One line of the bjobs listing, inside the loop of
    [lsf_driver_update_bjobs_table].  The [else] of the source belongs to
    the inner [if]: [util_exit] is called only for a job of this instance.
    The user and the status are read into [char user[32]] and
    [char status[16]]. *)
Definition update_bjobs_line (line : string) : M unit :=
  match Scan.sscanf_d_s_s line with
  | Scan.Matched (job_id_int, user, status) =>
      let job_id := fmt_d job_id_int in
      driver ← get_driver;
      if decide (job_id ∈ my_jobs driver) then
        match status_map !! status with
        | Some found_status =>
            store (bjobs_cache_insert job_id found_status)
              (λ d, set_bjobs_cache (<[job_id := found_status]> (bjobs_cache d)) d)
        | None =>
            util_exit "The lsf_status for job is not recognized; call your LSF administrator"
        end
      else mret ()
  | Scan.Unmatched => mret ()
  | Scan.Overrun => stack_overrun
  end.

Fixpoint update_bjobs_lines (ls : list string) : M unit :=
  match ls with
  | [] => mret ()
  | line :: ls' => update_bjobs_line line;; update_bjobs_lines ls'
  end.

(** [util_fopen] of a file that no command has written aborts. *)
Definition lsf_driver_update_bjobs_table : M unit :=
  driver ← get_driver;
  tmp_file ←
    (if decide (submit_method driver = LSF_SUBMIT_REMOTE_SHELL) then
       let argv := [remote_lsf_server driver;
                    Some (fmt_s (bjobs_cmd driver) +:+ " -a")] in
       Some <$> spawn_blocking (rsh_cmd driver) 2 argv
     else if decide (submit_method driver = LSF_SUBMIT_LOCAL_SHELL) then
       Some <$> spawn_blocking (bjobs_cmd driver) 1 [Some "-a"]
     else mret None);
  match tmp_file with
  | None => util_abort "util_fopen: failed to open"
  | Some content =>
      store bjobs_cache_clear (set_bjobs_cache ∅);;
      update_bjobs_lines (Scan.lines (Scan.fskip_line content))
  end.

(** Returns the two counters [pend_time] and [run_time] when [bhist_ok],
    that is when [fscanf] has read all six fields. *)
Definition lsf_driver_run_bhist (job : lsf_job) : M (option (Z * Z)) :=
  driver ← get_driver;
  output_file ←
    (if decide (submit_method driver = LSF_SUBMIT_REMOTE_SHELL) then
       let argv := [remote_lsf_server driver;
                    Some (fmt_s (bhist_cmd driver) +:+ " " +:+ lsf_jobnr_char job)] in
       Some <$> spawn_blocking (rsh_cmd driver) 2 argv
     else if decide (submit_method driver = LSF_SUBMIT_LOCAL_SHELL) then
       Some <$> spawn_blocking (bjobs_cmd driver) 2 [Some (lsf_jobnr_char job)]
     else mret None);
  match output_file with
  | None => util_abort "util_fopen: failed to open"
  | Some content =>
      match Scan.fscanf_bhist (Scan.fskip_line (Scan.fskip_line content)) with
      | Scan.Matched sample => mret (Some sample)
      | Scan.Unmatched => mret None
      | Scan.Overrun => stack_overrun
      end
  end.

(** The three tests on the two samples, in the order of the source. *)
Definition bhist_status (pend_time1 run_time1 pend_time2 run_time2 : Z) : Z :=
  let status := JOB_STAT_UNKWN in
  let status :=
    if bool_decide (run_time1 = run_time2) && bool_decide (pend_time1 = pend_time2)
    then JOB_STAT_DONE else status in
  let status :=
    if bool_decide (pend_time2 > pend_time1) then JOB_STAT_PEND else status in
  let status :=
    if bool_decide (run_time2 > run_time1) then JOB_STAT_RUN else status in
  status.

Definition lsf_driver_get_bhist_status_shell (job : lsf_job) : M Z :=
  let status := JOB_STAT_UNKWN in
  let sleep_time := 4 in
  sample1 ← lsf_driver_run_bhist job;
  match sample1 with
  | None => mret status
  | Some (pend_time1, run_time1) =>
      sleep sleep_time;;
      sample2 ← lsf_driver_run_bhist job;
      match sample2 with
      | None => mret status
      | Some (pend_time2, run_time2) =>
          mret (bhist_status pend_time1 run_time1 pend_time2 run_time2)
      end
  end.

(** [__job] may be the NULL pointer. *)
Definition lsf_driver_get_job_status_shell (job : option lsf_job) : M Z :=
  match job with
  | None => mret JOB_STAT_NULL
  | Some job =>
      pthread_mutex_lock bjobs_mutex;;
      now ← time;
      driver ← get_driver;
      let update_cache :=
        bool_decide (now - last_bjobs_update driver > bjobs_refresh_interval driver)
        || negb (bool_decide (is_Some (bjobs_cache driver !! lsf_jobnr_char job))) in
      (if update_cache then
         lsf_driver_update_bjobs_table;;
         now ← time;
         store (last_bjobs_update_set now) (set_last_bjobs_update now)
       else mret ());;
      pthread_mutex_unlock bjobs_mutex;;
      driver ← get_driver;
      match bjobs_cache driver !! lsf_jobnr_char job with
      | Some status => mret status
      | None =>
          (if debug_output driver then mret ()
           else store debug_output_on (set_debug_output true));;
          status ← lsf_driver_get_bhist_status_shell job;
          store (bjobs_cache_insert (lsf_jobnr_char job) status)
            (λ d, set_bjobs_cache (<[lsf_jobnr_char job := status]> (bjobs_cache d)) d);;
          mret status
      end
  end.

Definition lsf_driver_convert_status (lsf_status : Z) : outcome job_status_type :=
  match convert_status_map !! lsf_status with
  | Some job_status => Ret job_status
  | None => Throw "lsf_driver_convert_status: unrecognized lsf status code"
  end.

Definition lsf_driver_get_job_status_lsf (job : option lsf_job) : M Z :=
  lsf_driver_get_job_status_shell job.

Definition lsf_driver_get_job_status (job : option lsf_job) : M job_status_type :=
  lsf_status ← lsf_driver_get_job_status_lsf job;
  lift (lsf_driver_convert_status lsf_status).

(** Modelled from the spec: [util_alloc_filename] of the utility library,
    the file [name] (with extension [ext], if any) in directory [path]. *)
Definition util_alloc_filename (path name : string) (ext : option string) : string :=
  path +:+ "/" +:+ name +:+
  match ext with Some e => "." +:+ e | None => "" end.

Definition LSF_JSON : string := "lsf_info.json".

(** Returns the job handle, or [None] for the NULL pointer. *)
Definition lsf_driver_submit_job (submit_cmd : string) (num_cpu : Z)
    (run_path job_name : string) (argv : list string) : M (option lsf_job) :=
  lsf_driver_assert_submit_method;;
  let job := lsf_job_alloc job_name in
  driver ← get_driver;
  usleep (submit_sleep driver);;
  let lsf_stdout := util_alloc_filename run_path job_name (Some "LSF-stdout") in
  pthread_mutex_lock submit_lock;;
  jobnr ← lsf_driver_submit_shell_job lsf_stdout job_name submit_cmd num_cpu argv;
  let job :=
    {| lsf_jobnr := jobnr; num_exec_host := num_exec_host job;
       exec_host := exec_host job; lsf_jobnr_char := fmt_d jobnr;
       job_name := job_name |} in
  store (my_jobs_insert (lsf_jobnr_char job))
    (λ d, set_my_jobs ({[lsf_jobnr_char job]} ∪ my_jobs d) d);;
  pthread_mutex_unlock submit_lock;;
  if decide (lsf_jobnr job > 0) then
    let json_file := util_alloc_filename run_path LSF_JSON None in
    write_file json_file
      ("{" +:+ String dquote "job_id" +:+ String dquote " : "
       +:+ fmt_d (lsf_jobnr job) +:+ "}" +:+ String Scan.newline "");;
    mret (Some job)
  else
    store error_count_incr (λ d, set_error_count (error_count d + 1) d);;
    driver ← get_driver;
    (if decide (error_count driver >= max_error_count driver) then
       util_exit "Maximum number of submit errors exceeded - giving up"
     else
       (if debug_output driver then mret ()
        else store debug_output_on (set_debug_output true));;
       usleep (submit_error_sleep driver));;
    mret None.

Definition MAX_ERROR_COUNT : Z := 100.
Definition SUBMIT_ERROR_SLEEP : Z := 2.
Definition BJOBS_REFRESH_TIME : Z := 10.

(** The driver [lsf_driver_alloc] returns, once its defaults are set
    through the option interface: the submit method is the local shell
    ([lsf_driver_init_submit_method]), the server is left NULL.
    [DEFAULT_SUBMIT_SLEEP] comes from a header that is not at hand, and is
    taken here in microseconds. *)
Definition lsf_driver_alloc (DEFAULT_SUBMIT_SLEEP : Z) : M lsf_driver :=
  now ← time;
  let lsf_driver :=
    {| queue_name := None; resource_request := None; exclude_hosts := [];
       login_shell := None; project_code := None;
       submit_method := LSF_SUBMIT_LOCAL_SHELL;
       submit_sleep := DEFAULT_SUBMIT_SLEEP;
       error_count := 0; max_error_count := MAX_ERROR_COUNT;
       submit_error_sleep := SUBMIT_ERROR_SLEEP * 1000000;
       debug_output := false;
       bjobs_refresh_interval := BJOBS_REFRESH_TIME;
       last_bjobs_update := now;
       my_jobs := ∅; bjobs_cache := ∅; remote_lsf_server := None;
       rsh_cmd := Some "ssh"; bsub_cmd := Some "bsub";
       bjobs_cmd := Some "bjobs"; bkill_cmd := Some "bkill";
       bhist_cmd := Some "bhist" |} in
  set_driver lsf_driver;;
  mret lsf_driver.

End Driver.

(** ** Fixtures: a driver, a job handle and a batch system to run them on *)

Module Fixture.
Import CStr.

Definition driver : lsf_driver :=
  {| queue_name := None; resource_request := None; exclude_hosts := [];
     login_shell := None; project_code := None;
     submit_method := LSF_SUBMIT_LOCAL_SHELL;
     submit_sleep := 0;
     error_count := 0; max_error_count := 100;
     submit_error_sleep := 2000000;
     debug_output := false;
     bjobs_refresh_interval := 10;
     last_bjobs_update := 0;
     my_jobs := ∅; bjobs_cache := ∅; remote_lsf_server := None;
     rsh_cmd := Some "ssh"; bsub_cmd := Some "bsub";
     bjobs_cmd := Some "bjobs"; bkill_cmd := Some "bkill";
     bhist_cmd := Some "bhist" |}.

(** The same driver, submitting through ssh to [be-grid01]. *)
Definition remote_driver : lsf_driver :=
  {| queue_name := None; resource_request := None; exclude_hosts := [];
     login_shell := None; project_code := None;
     submit_method := LSF_SUBMIT_REMOTE_SHELL;
     submit_sleep := 0;
     error_count := 0; max_error_count := 100;
     submit_error_sleep := 2000000;
     debug_output := false;
     bjobs_refresh_interval := 10;
     last_bjobs_update := 0;
     my_jobs := ∅; bjobs_cache := ∅; remote_lsf_server := Some "be-grid01";
     rsh_cmd := Some "ssh"; bsub_cmd := Some "bsub";
     bjobs_cmd := Some "bjobs"; bkill_cmd := Some "bkill";
     bhist_cmd := Some "bhist" |}.

Definition job42 : lsf_job :=
  {| lsf_jobnr := 42; num_exec_host := 0; exec_host := [];
     lsf_jobnr_char := "42"; job_name := "job" |}.

Definition nl : string := String Scan.newline "".

(** A batch system whose [n]-th command prints [out n] and takes a second. *)
Definition batch (out : nat → string) (now : Z) : world :=
  {| clock := now; spawned := 0; respond := λ n _ _, (out n, 1000000);
     files := ∅; trace := [] |}.

(** bhist reports, with pending time 5 and running time [run]. *)
Definition bhist_report (pend run : Z) : string :=
  "Summary of time in seconds spent in various states:" +:+ nl +:+
  "JOBID USER JOB_NAME PEND PSUSP RUN USUSP SSUSP UNKWN TOTAL" +:+ nl +:+
  "42 alice job " +:+ fmt_d pend +:+ " 0 " +:+ fmt_d run +:+ " 0 0 0 15" +:+ nl.

Definition bjobs_report (rows : list string) : string :=
  "JOBID USER STAT QUEUE FROM_HOST EXEC_HOST JOB_NAME SUBMIT_TIME" +:+ nl +:+
  join nl rows +:+ nl.

Definition with_driver (d : lsf_driver) (w : world) : state :=
  {| drv := d; env := w |}.

End Fixture.


(** Two bhist samples with the running time growing from 10 to 14. *)
Definition probe_running : state :=
  Fixture.with_driver Fixture.driver
    (Fixture.batch
       (λ n, Fixture.bhist_report 5 (match n with O => 10 | _ => 14 end)) 0).

(** The same two samples, for the driver that goes through ssh. *)
Definition probe_running_remote : state :=
  Fixture.with_driver Fixture.remote_driver
    (Fixture.batch
       (λ n, Fixture.bhist_report 5 (match n with O => 10 | _ => 14 end)) 0).

(** A driver with a resource request and two excluded hosts. *)
Definition driver_with_resources (method : lsf_submit_method_enum) : lsf_driver :=
  {| queue_name := Some "normal";
     resource_request := Some "span[hosts=1] select[mem>100] rusage[mem=50]";
     exclude_hosts := ["node1"; "node2"];
     login_shell := None; project_code := None;
     submit_method := method;
     submit_sleep := 0;
     error_count := 0; max_error_count := 100;
     submit_error_sleep := 2000000;
     debug_output := false;
     bjobs_refresh_interval := 10;
     last_bjobs_update := 0;
     my_jobs := ∅; bjobs_cache := ∅; remote_lsf_server := Some "be-grid01";
     rsh_cmd := Some "ssh"; bsub_cmd := Some "bsub";
     bjobs_cmd := Some "bjobs"; bkill_cmd := Some "bkill";
     bhist_cmd := Some "bhist" |}.

(** ** What the properties observe *)

(** The events a call has added to the trace. *)
Definition events_since (st st' : state) : list event :=
  drop (length (trace (env st))) (trace (env st')).

(** [guarded m w held tr]: every write [w] of the trace [tr] happens while
    the mutex [m] is held, [held] telling whether it is at the start. *)
Fixpoint guarded (m : mutex) (w : shared_write) (held : bool) (tr : list event) : bool :=
  match tr with
  | [] => true
  | EvLock m' :: tr' => guarded m w (if decide (m' = m) then true else held) tr'
  | EvUnlock m' :: tr' => guarded m w (if decide (m' = m) then false else held) tr'
  | EvWrite w' :: tr' => (if decide (w' = w) then held else true) && guarded m w held tr'
  | _ :: tr' => guarded m w held tr'
  end.

(** The commands a trace has run. *)
Definition commands_run (tr : list event) : list (option string) :=
  omap (λ e, match e with EvSpawn cmd _ _ => Some cmd | _ => None end) tr.

Definition is_exit {A} (o : outcome A) : Prop :=
  match o with Exit _ => True | _ => False end.


Section Observations.
Context `{codes : lsf_job_stat}.

(** The codes the refresher can put into the status cache... *)
Definition token_code (code : Z) : Prop :=
  ∃ token : string, status_map !! token = Some code.




(** The keys of [convert_status_map]. *)
Definition convert_keys : list Z :=
  [JOB_STAT_NULL; JOB_STAT_PEND; JOB_STAT_SSUSP; JOB_STAT_USUSP;
   JOB_STAT_PSUSP; JOB_STAT_RUN; JOB_STAT_DONE; JOB_STAT_EXIT;
   JOB_STAT_UNKWN; JOB_STAT_DONE + JOB_STAT_PDONE].


End Observations.

(** What the command of [lsf_driver_run_bhist] prints when it is run in
    [st]: the answer of the batch system to that command. *)
Definition bhist_output (job : lsf_job) (st : state) : option string :=
  let d := drv st in
  let w := env st in
  match submit_method d with
  | LSF_SUBMIT_REMOTE_SHELL =>
      Some (respond w (spawned w) (rsh_cmd d)
              [remote_lsf_server d;
               Some (fmt_s (bhist_cmd d) +:+ " " +:+ lsf_jobnr_char job)]).1
  | LSF_SUBMIT_LOCAL_SHELL =>
      Some (respond w (spawned w) (bjobs_cmd d) [Some (lsf_jobnr_char job)]).1
  | _ => None
  end.

(** What [fscanf] makes of such an output, the two lines before the
    counters skipped. *)
Definition bhist_sample (output : string) : Scan.scanned (Z * Z) :=
  Scan.fscanf_bhist (Scan.fskip_line (Scan.fskip_line output)).

(** The state in which the probe takes its second sample: the command has
    run once, and four seconds have passed. *)
Definition second_sample (job : lsf_job) (st : state) : state :=
  (sleep 4 (lsf_driver_run_bhist job st).2).2.

(** What bhist prints for a job it has no record of. *)
Definition bhist_no_job : string :=
  "Summary of time in seconds spent in various states:" +:+ Fixture.nl +:+
  "JOBID USER JOB_NAME PEND PSUSP RUN USUSP SSUSP UNKWN TOTAL" +:+ Fixture.nl +:+
  "No matching job found" +:+ Fixture.nl.

(** A batch system that has no record of the job. *)
Definition probe_garbled : state :=
  Fixture.with_driver Fixture.driver (Fixture.batch (λ _, bhist_no_job) 0).

(** [req] between double quotes. *)
Definition quoted (req : string) : string :=
  String CStr.dquote req +:+ String CStr.dquote "".

(** [st'] has the trace of [st], and possibly more events after it. *)
Definition extends (st st' : state) : Prop :=
  ∃ evs, trace (env st') = trace (env st) ++ evs.

(** A computation that only ever appends to the trace. *)
Definition appends {A} (c : M A) : Prop := ∀ st, extends st (c st).2.

(** The row [sscanf] reads from a line of the bjobs listing, and the rows
    of a listing, header line skipped. *)
Definition read_row (line : string) : option (Z * string * string) :=
  Scan.matched (Scan.sscanf_d_s_s line).

Definition listed (content : string) : list (Z * string * string) :=
  omap read_row (Scan.lines (Scan.fskip_line content)).

(** Every word of the listing fits the array it is read into. *)
Definition rows_fit (content : string) : Prop :=
  Forall (λ line, Scan.overruns (Scan.sscanf_d_s_s line) = false)
    (Scan.lines (Scan.fskip_line content)).

(** The cache key of a row. *)
Definition row_key (row : Z * string * string) : string := fmt_d row.1.1.

Definition row_token (row : Z * string * string) : string := row.2.

Definition listed_ids (content : string) : gset string :=
  list_to_set (row_key <$> listed content).

(** What the listing command of the next refresh prints: the answer of the
    batch system to the command [lsf_driver_update_bjobs_table] runs. *)
Definition bjobs_listing (st : state) : option string :=
  let d := drv st in
  let w := env st in
  match submit_method d with
  | LSF_SUBMIT_REMOTE_SHELL =>
      Some (respond w (spawned w) (rsh_cmd d)
              [remote_lsf_server d; Some (fmt_s (bjobs_cmd d) +:+ " -a")]).1
  | LSF_SUBMIT_LOCAL_SHELL =>
      Some (respond w (spawned w) (bjobs_cmd d) [Some "-a"]).1
  | _ => None
  end.


(** A listing with two jobs of this instance and one of somebody else. *)
Definition refresh_example : state :=
  Fixture.with_driver
    (set_bjobs_cache {["7" := 1; "41" := 4]}
       (set_my_jobs {["41"; "42"; "43"]} Fixture.driver))
    (Fixture.batch
       (λ _, Fixture.bjobs_report
               ["41 alice DONE normal"; "42 alice RUN normal"; "99 bob PEND normal"])
       0).

(** A listing in which job 42 of this instance has a token bjobs does not
    know. *)
Definition refresh_example_unknown : state :=
  Fixture.with_driver
    (set_my_jobs {["41"; "42"; "43"]} Fixture.driver)
    (Fixture.batch
       (λ _, Fixture.bjobs_report
               ["41 alice DONE normal"; "42 alice FOOBAR normal"])
       0).

(** The time a lookup reads with [time(NULL)], in seconds. *)
Definition now (st : state) : Z := clock (env st) / 1000000.

Section Lookup.
Context `{codes : lsf_job_stat}.

(** The two parts of [lsf_driver_get_job_status_shell] around its refresh:
    what follows a refresh inside the mutex, and the lookup after it. *)
Definition stamp_refresh : M unit :=
  now ← time;
  store (last_bjobs_update_set now) (set_last_bjobs_update now).

Definition lookup_after_refresh (job : lsf_job) : M Z :=
  pthread_mutex_unlock bjobs_mutex;;
  driver ← get_driver;
  match bjobs_cache driver !! lsf_jobnr_char job with
  | Some status => mret status
  | None =>
      (if debug_output driver then mret ()
       else store debug_output_on (set_debug_output true));;
      status ← lsf_driver_get_bhist_status_shell job;
      store (bjobs_cache_insert (lsf_jobnr_char job) status)
        (λ d, set_bjobs_cache (<[lsf_jobnr_char job := status]> (bjobs_cache d)) d);;
      mret status
  end.

End Lookup.


(** Job 42 is in the cache as running, refreshed 3 seconds ago. *)
Definition lookup_cached : state :=
  Fixture.with_driver
    (set_last_bjobs_update 100
       (set_bjobs_cache {["42" := 4]} (set_my_jobs {["42"]} Fixture.driver)))
    (Fixture.batch (λ _, "") 103000000).

(** Job 42 is in the cache with the code of the token PDONE. *)
Definition lookup_pdone : state :=
  Fixture.with_driver
    (set_last_bjobs_update 100
       (set_bjobs_cache {["42" := 128]} (set_my_jobs {["42"]} Fixture.driver)))
    (Fixture.batch (λ _, "") 103000000).

(** The same, 11 seconds after the refresh. *)
Definition lookup_stale : state :=
  Fixture.with_driver
    (set_last_bjobs_update 100
       (set_bjobs_cache {["42" := 4]} (set_my_jobs {["42"]} Fixture.driver)))
    (Fixture.batch
       (λ _, Fixture.bjobs_report ["42 alice DONE normal"]) 111000000).

(** ** Submission *)

(** The state in which [lsf_driver_submit_job] calls
    [lsf_driver_submit_shell_job]: after the submit sleep, the lock taken. *)
Definition locked_for_submit (st : state) : state :=
  (pthread_mutex_lock submit_lock (usleep (submit_sleep (drv st)) st).2).2.

(** The handle [lsf_driver_submit_job] builds for job id [jobnr]. *)
Definition job_handle (jobnr : Z) (jname : string) : lsf_job :=
  {| lsf_jobnr := jobnr; num_exec_host := 0; exec_host := [];
     lsf_jobnr_char := fmt_d jobnr; job_name := jname |}.

(** The text of the receipt file lsf_info.json. *)
Definition receipt (jobnr : Z) : string :=
  "{" +:+ String CStr.dquote "job_id" +:+ String CStr.dquote " : "
  +:+ fmt_d jobnr +:+ "}" +:+ String Scan.newline "".

(** A batch system that answers every command with an empty stdout file. *)
Definition silent (w : world) : Prop :=
  ∀ n cmd argv, (respond w n cmd argv).1 = "".

(** [n] calls of [lsf_driver_submit_job] in a row, as a queue that retries
    makes them. *)
Fixpoint submit_attempts (n : nat) (submit_cmd : string)
    (num_cpu : Z) (run_path jname : string) (argv : list string)
    : M (list (option lsf_job)) :=
  match n with
  | O => mret []
  | S n' =>
      job ← lsf_driver_submit_job submit_cmd num_cpu run_path jname argv;
      rest ← submit_attempts n' submit_cmd num_cpu run_path jname argv;
      mret (job :: rest)
  end.


(** bsub acknowledges job 42. *)
Definition submit_acknowledged : state :=
  Fixture.with_driver Fixture.driver
    (Fixture.batch
       (λ _, "Job <42> is submitted to default queue <normal>." +:+ Fixture.nl) 0).

(** bsub prints nothing, on a driver that gives up at the third error. *)
Definition submit_silent : state :=
  Fixture.with_driver
    {| queue_name := None; resource_request := None; exclude_hosts := [];
       login_shell := None; project_code := None;
       submit_method := LSF_SUBMIT_LOCAL_SHELL;
       submit_sleep := 0;
       error_count := 0; max_error_count := 3;
       submit_error_sleep := 2000000;
       debug_output := false;
       bjobs_refresh_interval := 10;
       last_bjobs_update := 0;
       my_jobs := ∅; bjobs_cache := ∅; remote_lsf_server := None;
       rsh_cmd := Some "ssh"; bsub_cmd := Some "bsub";
       bjobs_cmd := Some "bjobs"; bkill_cmd := Some "bkill";
       bhist_cmd := Some "bhist" |}
    (Fixture.batch (λ _, "") 0).

Definition is_spawn (e : event) : Prop :=
  match e with EvSpawn _ _ _ => True | _ => False end.

(** The conditions under which every submission fails with job id 0: a
    submit method is set, the command line can be built, and the batch
    system acknowledges nothing. *)
Definition submissions_fail (submit_cmd : string) (num_cpu : Z)
    (run_path jname : string) (argv : list string) (st : state) : Prop :=
  submit_method (drv st) ≠ LSF_SUBMIT_INVALID ∧
  (∃ remote_argv,
     lsf_driver_alloc_cmd (drv st)
       (util_alloc_filename run_path jname (Some "LSF-stdout"))
       jname submit_cmd num_cpu argv = Ret remote_argv) ∧
  silent (env st).

(** ** Texts *)

(** Every character of [s] passes the test [P]. *)
Fixpoint all_chars (P : ascii → bool) (s : string) : bool :=
  match s with
  | EmptyString => true
  | String c s' => P c && all_chars P s'
  end.

(** [s] is empty or starts with a character that is not a decimal digit. *)
Definition no_digit_ahead (s : string) : Prop :=
  match s with
  | EmptyString => True
  | String c _ => Ascii.is_nat c = None
  end.

(** [s] is empty or starts with white space. *)
Definition space_ahead (s : string) : Prop :=
  match s with
  | EmptyString => True
  | String c _ => CStr.isspace c = true
  end.

(** A word [scanf] reads with [%s]: not empty, no white space. *)
Definition is_word (s : string) : Prop :=
  s ≠ "" ∧ all_chars (λ c, negb (CStr.isspace c)) s = true.

(** The range of [int]. *)
Definition is_int (n : Z) : Prop := - 2 ^ 31 ≤ n < 2 ^ 31.

(** The predicate that keeps jobs off [host]. *)
Definition exclusion (host : string) : string := "hname!='" +:+ host +:+ "'".

(** A driver with a template without select clause and one excluded host. *)
Definition driver_without_select : lsf_driver :=
  {| queue_name := None; resource_request := Some "span[hosts=1]";
     exclude_hosts := ["node1"];
     login_shell := None; project_code := None;
     submit_method := LSF_SUBMIT_LOCAL_SHELL;
     submit_sleep := 0;
     error_count := 0; max_error_count := 100;
     submit_error_sleep := 2000000;
     debug_output := false;
     bjobs_refresh_interval := 10;
     last_bjobs_update := 0;
     my_jobs := ∅; bjobs_cache := ∅; remote_lsf_server := None;
     rsh_cmd := Some "ssh"; bsub_cmd := Some "bsub";
     bjobs_cmd := Some "bjobs"; bkill_cmd := Some "bkill";
     bhist_cmd := Some "bhist" |}.

(** ** The option interface *)

(** Updates of the fields the options set. *)
Definition set_queue_name (v : option string) (d : lsf_driver) : lsf_driver :=
  {| queue_name := v; resource_request := resource_request d;
     exclude_hosts := exclude_hosts d; login_shell := login_shell d;
     project_code := project_code d; submit_method := submit_method d;
     submit_sleep := submit_sleep d; error_count := error_count d;
     max_error_count := max_error_count d;
     submit_error_sleep := submit_error_sleep d;
     debug_output := debug_output d;
     bjobs_refresh_interval := bjobs_refresh_interval d;
     last_bjobs_update := last_bjobs_update d; my_jobs := my_jobs d;
     bjobs_cache := bjobs_cache d; remote_lsf_server := remote_lsf_server d;
     rsh_cmd := rsh_cmd d; bsub_cmd := bsub_cmd d; bjobs_cmd := bjobs_cmd d;
     bkill_cmd := bkill_cmd d; bhist_cmd := bhist_cmd d |}.

Definition set_resource_request (v : option string) (d : lsf_driver) : lsf_driver :=
  {| queue_name := queue_name d; resource_request := v;
     exclude_hosts := exclude_hosts d; login_shell := login_shell d;
     project_code := project_code d; submit_method := submit_method d;
     submit_sleep := submit_sleep d; error_count := error_count d;
     max_error_count := max_error_count d;
     submit_error_sleep := submit_error_sleep d;
     debug_output := debug_output d;
     bjobs_refresh_interval := bjobs_refresh_interval d;
     last_bjobs_update := last_bjobs_update d; my_jobs := my_jobs d;
     bjobs_cache := bjobs_cache d; remote_lsf_server := remote_lsf_server d;
     rsh_cmd := rsh_cmd d; bsub_cmd := bsub_cmd d; bjobs_cmd := bjobs_cmd d;
     bkill_cmd := bkill_cmd d; bhist_cmd := bhist_cmd d |}.

Definition set_exclude_hosts (v : list string) (d : lsf_driver) : lsf_driver :=
  {| queue_name := queue_name d; resource_request := resource_request d;
     exclude_hosts := v; login_shell := login_shell d;
     project_code := project_code d; submit_method := submit_method d;
     submit_sleep := submit_sleep d; error_count := error_count d;
     max_error_count := max_error_count d;
     submit_error_sleep := submit_error_sleep d;
     debug_output := debug_output d;
     bjobs_refresh_interval := bjobs_refresh_interval d;
     last_bjobs_update := last_bjobs_update d; my_jobs := my_jobs d;
     bjobs_cache := bjobs_cache d; remote_lsf_server := remote_lsf_server d;
     rsh_cmd := rsh_cmd d; bsub_cmd := bsub_cmd d; bjobs_cmd := bjobs_cmd d;
     bkill_cmd := bkill_cmd d; bhist_cmd := bhist_cmd d |}.

Definition set_login_shell (v : option string) (d : lsf_driver) : lsf_driver :=
  {| queue_name := queue_name d; resource_request := resource_request d;
     exclude_hosts := exclude_hosts d; login_shell := v;
     project_code := project_code d; submit_method := submit_method d;
     submit_sleep := submit_sleep d; error_count := error_count d;
     max_error_count := max_error_count d;
     submit_error_sleep := submit_error_sleep d;
     debug_output := debug_output d;
     bjobs_refresh_interval := bjobs_refresh_interval d;
     last_bjobs_update := last_bjobs_update d; my_jobs := my_jobs d;
     bjobs_cache := bjobs_cache d; remote_lsf_server := remote_lsf_server d;
     rsh_cmd := rsh_cmd d; bsub_cmd := bsub_cmd d; bjobs_cmd := bjobs_cmd d;
     bkill_cmd := bkill_cmd d; bhist_cmd := bhist_cmd d |}.

Definition set_project_code (v : option string) (d : lsf_driver) : lsf_driver :=
  {| queue_name := queue_name d; resource_request := resource_request d;
     exclude_hosts := exclude_hosts d; login_shell := login_shell d;
     project_code := v; submit_method := submit_method d;
     submit_sleep := submit_sleep d; error_count := error_count d;
     max_error_count := max_error_count d;
     submit_error_sleep := submit_error_sleep d;
     debug_output := debug_output d;
     bjobs_refresh_interval := bjobs_refresh_interval d;
     last_bjobs_update := last_bjobs_update d; my_jobs := my_jobs d;
     bjobs_cache := bjobs_cache d; remote_lsf_server := remote_lsf_server d;
     rsh_cmd := rsh_cmd d; bsub_cmd := bsub_cmd d; bjobs_cmd := bjobs_cmd d;
     bkill_cmd := bkill_cmd d; bhist_cmd := bhist_cmd d |}.

Definition set_submit_method (v : lsf_submit_method_enum) (d : lsf_driver) : lsf_driver :=
  {| queue_name := queue_name d; resource_request := resource_request d;
     exclude_hosts := exclude_hosts d; login_shell := login_shell d;
     project_code := project_code d; submit_method := v;
     submit_sleep := submit_sleep d; error_count := error_count d;
     max_error_count := max_error_count d;
     submit_error_sleep := submit_error_sleep d;
     debug_output := debug_output d;
     bjobs_refresh_interval := bjobs_refresh_interval d;
     last_bjobs_update := last_bjobs_update d; my_jobs := my_jobs d;
     bjobs_cache := bjobs_cache d; remote_lsf_server := remote_lsf_server d;
     rsh_cmd := rsh_cmd d; bsub_cmd := bsub_cmd d; bjobs_cmd := bjobs_cmd d;
     bkill_cmd := bkill_cmd d; bhist_cmd := bhist_cmd d |}.

Definition set_submit_sleep (v : Z) (d : lsf_driver) : lsf_driver :=
  {| queue_name := queue_name d; resource_request := resource_request d;
     exclude_hosts := exclude_hosts d; login_shell := login_shell d;
     project_code := project_code d; submit_method := submit_method d;
     submit_sleep := v; error_count := error_count d;
     max_error_count := max_error_count d;
     submit_error_sleep := submit_error_sleep d;
     debug_output := debug_output d;
     bjobs_refresh_interval := bjobs_refresh_interval d;
     last_bjobs_update := last_bjobs_update d; my_jobs := my_jobs d;
     bjobs_cache := bjobs_cache d; remote_lsf_server := remote_lsf_server d;
     rsh_cmd := rsh_cmd d; bsub_cmd := bsub_cmd d; bjobs_cmd := bjobs_cmd d;
     bkill_cmd := bkill_cmd d; bhist_cmd := bhist_cmd d |}.

Definition set_bjobs_refresh_interval (v : Z) (d : lsf_driver) : lsf_driver :=
  {| queue_name := queue_name d; resource_request := resource_request d;
     exclude_hosts := exclude_hosts d; login_shell := login_shell d;
     project_code := project_code d; submit_method := submit_method d;
     submit_sleep := submit_sleep d; error_count := error_count d;
     max_error_count := max_error_count d;
     submit_error_sleep := submit_error_sleep d;
     debug_output := debug_output d; bjobs_refresh_interval := v;
     last_bjobs_update := last_bjobs_update d; my_jobs := my_jobs d;
     bjobs_cache := bjobs_cache d; remote_lsf_server := remote_lsf_server d;
     rsh_cmd := rsh_cmd d; bsub_cmd := bsub_cmd d; bjobs_cmd := bjobs_cmd d;
     bkill_cmd := bkill_cmd d; bhist_cmd := bhist_cmd d |}.

Definition set_remote_lsf_server (v : option string) (d : lsf_driver) : lsf_driver :=
  {| queue_name := queue_name d; resource_request := resource_request d;
     exclude_hosts := exclude_hosts d; login_shell := login_shell d;
     project_code := project_code d; submit_method := submit_method d;
     submit_sleep := submit_sleep d; error_count := error_count d;
     max_error_count := max_error_count d;
     submit_error_sleep := submit_error_sleep d;
     debug_output := debug_output d;
     bjobs_refresh_interval := bjobs_refresh_interval d;
     last_bjobs_update := last_bjobs_update d; my_jobs := my_jobs d;
     bjobs_cache := bjobs_cache d; remote_lsf_server := v;
     rsh_cmd := rsh_cmd d; bsub_cmd := bsub_cmd d; bjobs_cmd := bjobs_cmd d;
     bkill_cmd := bkill_cmd d; bhist_cmd := bhist_cmd d |}.

Definition set_rsh_cmd (v : option string) (d : lsf_driver) : lsf_driver :=
  {| queue_name := queue_name d; resource_request := resource_request d;
     exclude_hosts := exclude_hosts d; login_shell := login_shell d;
     project_code := project_code d; submit_method := submit_method d;
     submit_sleep := submit_sleep d; error_count := error_count d;
     max_error_count := max_error_count d;
     submit_error_sleep := submit_error_sleep d;
     debug_output := debug_output d;
     bjobs_refresh_interval := bjobs_refresh_interval d;
     last_bjobs_update := last_bjobs_update d; my_jobs := my_jobs d;
     bjobs_cache := bjobs_cache d; remote_lsf_server := remote_lsf_server d;
     rsh_cmd := v; bsub_cmd := bsub_cmd d; bjobs_cmd := bjobs_cmd d;
     bkill_cmd := bkill_cmd d; bhist_cmd := bhist_cmd d |}.

Definition set_bsub_cmd (v : option string) (d : lsf_driver) : lsf_driver :=
  {| queue_name := queue_name d; resource_request := resource_request d;
     exclude_hosts := exclude_hosts d; login_shell := login_shell d;
     project_code := project_code d; submit_method := submit_method d;
     submit_sleep := submit_sleep d; error_count := error_count d;
     max_error_count := max_error_count d;
     submit_error_sleep := submit_error_sleep d;
     debug_output := debug_output d;
     bjobs_refresh_interval := bjobs_refresh_interval d;
     last_bjobs_update := last_bjobs_update d; my_jobs := my_jobs d;
     bjobs_cache := bjobs_cache d; remote_lsf_server := remote_lsf_server d;
     rsh_cmd := rsh_cmd d; bsub_cmd := v; bjobs_cmd := bjobs_cmd d;
     bkill_cmd := bkill_cmd d; bhist_cmd := bhist_cmd d |}.

Definition set_bjobs_cmd (v : option string) (d : lsf_driver) : lsf_driver :=
  {| queue_name := queue_name d; resource_request := resource_request d;
     exclude_hosts := exclude_hosts d; login_shell := login_shell d;
     project_code := project_code d; submit_method := submit_method d;
     submit_sleep := submit_sleep d; error_count := error_count d;
     max_error_count := max_error_count d;
     submit_error_sleep := submit_error_sleep d;
     debug_output := debug_output d;
     bjobs_refresh_interval := bjobs_refresh_interval d;
     last_bjobs_update := last_bjobs_update d; my_jobs := my_jobs d;
     bjobs_cache := bjobs_cache d; remote_lsf_server := remote_lsf_server d;
     rsh_cmd := rsh_cmd d; bsub_cmd := bsub_cmd d; bjobs_cmd := v;
     bkill_cmd := bkill_cmd d; bhist_cmd := bhist_cmd d |}.

Definition set_bkill_cmd (v : option string) (d : lsf_driver) : lsf_driver :=
  {| queue_name := queue_name d; resource_request := resource_request d;
     exclude_hosts := exclude_hosts d; login_shell := login_shell d;
     project_code := project_code d; submit_method := submit_method d;
     submit_sleep := submit_sleep d; error_count := error_count d;
     max_error_count := max_error_count d;
     submit_error_sleep := submit_error_sleep d;
     debug_output := debug_output d;
     bjobs_refresh_interval := bjobs_refresh_interval d;
     last_bjobs_update := last_bjobs_update d; my_jobs := my_jobs d;
     bjobs_cache := bjobs_cache d; remote_lsf_server := remote_lsf_server d;
     rsh_cmd := rsh_cmd d; bsub_cmd := bsub_cmd d; bjobs_cmd := bjobs_cmd d;
     bkill_cmd := v; bhist_cmd := bhist_cmd d |}.

Definition set_bhist_cmd (v : option string) (d : lsf_driver) : lsf_driver :=
  {| queue_name := queue_name d; resource_request := resource_request d;
     exclude_hosts := exclude_hosts d; login_shell := login_shell d;
     project_code := project_code d; submit_method := submit_method d;
     submit_sleep := submit_sleep d; error_count := error_count d;
     max_error_count := max_error_count d;
     submit_error_sleep := submit_error_sleep d;
     debug_output := debug_output d;
     bjobs_refresh_interval := bjobs_refresh_interval d;
     last_bjobs_update := last_bjobs_update d; my_jobs := my_jobs d;
     bjobs_cache := bjobs_cache d; remote_lsf_server := remote_lsf_server d;
     rsh_cmd := rsh_cmd d; bsub_cmd := bsub_cmd d; bjobs_cmd := bjobs_cmd d;
     bkill_cmd := bkill_cmd d; bhist_cmd := v |}.

(** The option keys and the two special server names of
    [ert/job_queue/lsf_driver.hpp], a header that is not part of the sources
    at hand: they are parameters. *)
Class lsf_driver_header := {
  LSF_QUEUE : string;
  LSF_RESOURCE : string;
  LSF_SERVER : string;
  LSF_RSH_CMD : string;
  LSF_LOGIN_SHELL : string;
  LSF_BSUB_CMD : string;
  LSF_BJOBS_CMD : string;
  LSF_BKILL_CMD : string;
  LSF_BHIST_CMD : string;
  LSF_DEBUG_OUTPUT : string;
  LSF_SUBMIT_SLEEP : string;
  LSF_EXCLUDE_HOST : string;
  LSF_BJOBS_TIMEOUT : string;
  LSF_PROJECT_CODE : string;
  LOCAL_LSF_SERVER : string;
  NULL_LSF_SERVER : string;
}.

(** The functions of the utility library that read an option value and are
    not part of the sources at hand: [util_sscanf_bool], [util_sscanf_double]
    followed by the conversion of the seconds to microseconds
    ([(int)(1000000 * submit_sleep)], a floating point computation),
    [stringlist_alloc_from_split] with the separators [", "], and what
    [util_sscanf_int] reads at the NULL pointer. *)
Class util_library := {
  util_sscanf_bool : option string → option bool;
  sscanf_submit_sleep : option string → option Z;
  stringlist_alloc_from_split : option string → list string;
  util_sscanf_int_null : option Z;
}.

Definition keys_distinct `{lsf_driver_header} : Prop :=
  NoDup [LSF_RESOURCE; LSF_SERVER; LSF_QUEUE; LSF_LOGIN_SHELL; LSF_RSH_CMD;
         LSF_BSUB_CMD; LSF_BJOBS_CMD; LSF_BKILL_CMD; LSF_BHIST_CMD;
         LSF_DEBUG_OUTPUT; LSF_SUBMIT_SLEEP; LSF_EXCLUDE_HOST;
         LSF_BJOBS_TIMEOUT; LSF_PROJECT_CODE].

(** Names for the examples below. *)
Definition ert_header : lsf_driver_header := {|
  LSF_QUEUE := "LSF_QUEUE";
  LSF_RESOURCE := "LSF_RESOURCE";
  LSF_SERVER := "LSF_SERVER";
  LSF_RSH_CMD := "LSF_RSH_CMD";
  LSF_LOGIN_SHELL := "LSF_LOGIN_SHELL";
  LSF_BSUB_CMD := "BSUB_CMD";
  LSF_BJOBS_CMD := "BJOBS_CMD";
  LSF_BKILL_CMD := "BKILL_CMD";
  LSF_BHIST_CMD := "BHIST_CMD";
  LSF_DEBUG_OUTPUT := "DEBUG_OUTPUT";
  LSF_SUBMIT_SLEEP := "SUBMIT_SLEEP";
  LSF_EXCLUDE_HOST := "EXCLUDE_HOST";
  LSF_BJOBS_TIMEOUT := "BJOBS_TIMEOUT";
  LSF_PROJECT_CODE := "PROJECT_CODE";
  LOCAL_LSF_SERVER := "LOCAL";
  NULL_LSF_SERVER := "NULL";
|}.

(** [toupper] in the C locale, and [util_alloc_strupr_copy]. *)
Definition toupper (c : ascii) : ascii :=
  let n := nat_of_ascii c in
  if bool_decide (97 ≤ n ≤ 122)%nat then ascii_of_nat (n - 32) else c.

Fixpoint util_alloc_strupr_copy (s : string) : string :=
  match s with
  | EmptyString => EmptyString
  | String c s' => String (toupper c) (util_alloc_strupr_copy s')
  end.

Section Options.
Context `{header : lsf_driver_header} `{util : util_library}.

Definition lsf_driver_set_project_code (project_code : option string)
    (driver : lsf_driver) : lsf_driver :=
  set_project_code project_code driver.

Definition lsf_driver_set_queue (queue : option string) (driver : lsf_driver)
    : lsf_driver :=
  set_queue_name queue driver.

Definition lsf_driver_set_login_shell (login_shell : option string)
    (driver : lsf_driver) : lsf_driver :=
  set_login_shell login_shell driver.

Definition lsf_driver_set_rsh_cmd (rsh_cmd : option string) (driver : lsf_driver)
    : lsf_driver :=
  set_rsh_cmd rsh_cmd driver.

Definition lsf_driver_set_bsub_cmd (bsub_cmd : option string) (driver : lsf_driver)
    : lsf_driver :=
  set_bsub_cmd bsub_cmd driver.

Definition lsf_driver_set_bjobs_cmd (bjobs_cmd : option string)
    (driver : lsf_driver) : lsf_driver :=
  set_bjobs_cmd bjobs_cmd driver.

Definition lsf_driver_set_bkill_cmd (bkill_cmd : option string)
    (driver : lsf_driver) : lsf_driver :=
  set_bkill_cmd bkill_cmd driver.

Definition lsf_driver_set_bhist_cmd (bhist_cmd : option string)
    (driver : lsf_driver) : lsf_driver :=
  set_bhist_cmd bhist_cmd driver.

(** The call of itself that the function makes for the name NULL, with the
    NULL pointer, returns at once: it is the driver as it is.  The
    [unsetenv("BSUB_QUIET")] of the source acts on the environment of the
    process, which the driver never reads. *)
Definition lsf_driver_set_remote_server (remote_server : option string)
    (driver : lsf_driver) : lsf_driver :=
  match remote_server with
  | None => driver
  | Some server =>
      let driver := set_remote_lsf_server (Some server) driver in
      let tmp_server := util_alloc_strupr_copy server in
      if decide (tmp_server = LOCAL_LSF_SERVER) then
        set_submit_method LSF_SUBMIT_LOCAL_SHELL driver
      else if decide (tmp_server = NULL_LSF_SERVER) then driver
      else set_submit_method LSF_SUBMIT_REMOTE_SHELL driver
  end.

(** One round of the loop of [lsf_driver_add_exclude_hosts]. *)
Definition add_exclude_host (driver : lsf_driver) (excluded : string)
    : lsf_driver :=
  if decide (excluded ∈ exclude_hosts driver) then driver
  else set_exclude_hosts (exclude_hosts driver ++ [excluded]) driver.

Definition lsf_driver_add_exclude_hosts (excluded : option string)
    (driver : lsf_driver) : lsf_driver :=
  let host_list := stringlist_alloc_from_split excluded in
  foldl add_exclude_host driver host_list.

Definition lsf_driver_get_submit_method (driver : lsf_driver)
    : lsf_submit_method_enum :=
  submit_method driver.

Definition lsf_driver_set_debug_output (arg : option string)
    (driver : lsf_driver) : bool * lsf_driver :=
  match util_sscanf_bool arg with
  | Some debug_output => (true, set_debug_output debug_output driver)
  | None => (false, driver)
  end.

Definition lsf_driver_set_submit_sleep (arg : option string)
    (driver : lsf_driver) : bool * lsf_driver :=
  match sscanf_submit_sleep arg with
  | Some submit_sleep => (true, set_submit_sleep submit_sleep driver)
  | None => (false, driver)
  end.

Definition lsf_driver_set_bjobs_refresh_interval (refresh_interval : Z)
    (driver : lsf_driver) : lsf_driver :=
  set_bjobs_refresh_interval refresh_interval driver.

Definition lsf_driver_set_bjobs_refresh_interval_option
    (option_value : option string) (driver : lsf_driver) : lsf_driver :=
  match from_option Scan.util_sscanf_int util_sscanf_int_null option_value with
  | Some refresh_interval =>
      lsf_driver_set_bjobs_refresh_interval refresh_interval driver
  | None => driver
  end.

(** Returns [has_option] and the driver as the call leaves it. *)
Definition lsf_driver_set_option (option_key : string) (value : option string)
    (driver : lsf_driver) : bool * lsf_driver :=
  if decide (LSF_RESOURCE = option_key) then
    (true, set_resource_request value driver)
  else if decide (LSF_SERVER = option_key) then
    (true, lsf_driver_set_remote_server value driver)
  else if decide (LSF_QUEUE = option_key) then
    (true, lsf_driver_set_queue value driver)
  else if decide (LSF_LOGIN_SHELL = option_key) then
    (true, lsf_driver_set_login_shell value driver)
  else if decide (LSF_RSH_CMD = option_key) then
    (true, lsf_driver_set_rsh_cmd value driver)
  else if decide (LSF_BSUB_CMD = option_key) then
    (true, lsf_driver_set_bsub_cmd value driver)
  else if decide (LSF_BJOBS_CMD = option_key) then
    (true, lsf_driver_set_bjobs_cmd value driver)
  else if decide (LSF_BKILL_CMD = option_key) then
    (true, lsf_driver_set_bkill_cmd value driver)
  else if decide (LSF_BHIST_CMD = option_key) then
    (true, lsf_driver_set_bhist_cmd value driver)
  else if decide (LSF_DEBUG_OUTPUT = option_key) then
    (true, (lsf_driver_set_debug_output value driver).2)
  else if decide (LSF_SUBMIT_SLEEP = option_key) then
    (true, (lsf_driver_set_submit_sleep value driver).2)
  else if decide (LSF_EXCLUDE_HOST = option_key) then
    (true, lsf_driver_add_exclude_hosts value driver)
  else if decide (LSF_BJOBS_TIMEOUT = option_key) then
    (true, lsf_driver_set_bjobs_refresh_interval_option value driver)
  else if decide (LSF_PROJECT_CODE = option_key) then
    (true, lsf_driver_set_project_code value driver)
  else (false, driver).

Definition lsf_driver_get_option (driver : lsf_driver) (option_key : string)
    : outcome (option string) :=
  if decide (LSF_RESOURCE = option_key) then Ret (resource_request driver)
  else if decide (LSF_SERVER = option_key) then Ret (remote_lsf_server driver)
  else if decide (LSF_QUEUE = option_key) then Ret (queue_name driver)
  else if decide (LSF_LOGIN_SHELL = option_key) then Ret (login_shell driver)
  else if decide (LSF_RSH_CMD = option_key) then Ret (rsh_cmd driver)
  else if decide (LSF_BJOBS_CMD = option_key) then Ret (bjobs_cmd driver)
  else if decide (LSF_BSUB_CMD = option_key) then Ret (bsub_cmd driver)
  else if decide (LSF_BKILL_CMD = option_key) then Ret (bkill_cmd driver)
  else if decide (LSF_BHIST_CMD = option_key) then Ret (bhist_cmd driver)
  else if decide (LSF_PROJECT_CODE = option_key) then Ret (project_code driver)
  else if decide (LSF_BJOBS_TIMEOUT = option_key) then
    Ret (Some (fmt_d (bjobs_refresh_interval driver)))
  else Exit "lsf_driver_get_option: option_id not recognized for LSF driver".

Definition lsf_driver_has_project_code (driver : lsf_driver) : bool :=
  match project_code driver with Some _ => true | None => false end.

End Options.

(** [lsf_driver_kill_job]; on the local shell the one argument is the key
    of the job. *)
Definition lsf_driver_kill_job (job : lsf_job) : M unit :=
  driver ← get_driver;
  if decide (submit_method driver = LSF_SUBMIT_REMOTE_SHELL) then
    let argv := [remote_lsf_server driver;
                 Some (fmt_s (bkill_cmd driver) +:+ " " +:+ lsf_jobnr_char job)] in
    spawn_blocking (rsh_cmd driver) 2 argv;; mret ()
  else if decide (submit_method driver = LSF_SUBMIT_LOCAL_SHELL) then
    spawn_blocking (bkill_cmd driver) 1 [Some (lsf_jobnr_char job)];; mret ()
  else mret ().

(** A utility library for the fixtures: booleans written TRUE and FALSE,
    whole seconds, host names separated by commas and blanks. *)
Fixpoint split_hosts (cur : string) (s : string) : list string :=
  match s with
  | EmptyString => if decide (cur = "") then [] else [String.rev cur]
  | String c s' =>
      if bool_decide (c = ","%char) || bool_decide (c = " "%char) then
        (if decide (cur = "") then [] else [String.rev cur]) ++ split_hosts "" s'
      else split_hosts (String c cur) s'
  end.

Definition fixture_util : util_library := {|
  util_sscanf_bool := λ arg,
    match arg with
    | Some "TRUE" => Some true
    | Some "FALSE" => Some false
    | _ => None
    end;
  sscanf_submit_sleep := λ arg,
    s ← arg; n ← Scan.util_sscanf_int s; Some (1000000 * n);
  stringlist_alloc_from_split := λ arg,
    match arg with Some s => split_hosts "" s | None => [] end;
  util_sscanf_int_null := None;
|}.

Section OptionCalls.
Context `{header : lsf_driver_header} `{util : util_library}.

(** A series of option calls, first to last. *)
Definition set_options (options : list (string * option string))
    (driver : lsf_driver) : lsf_driver :=
  foldl (λ d kv, (lsf_driver_set_option kv.1 kv.2 d).2) driver options.

(** The driver can submit: its method is one of the two shell methods, and
    the remote shell has a server to go to. *)
Definition can_submit (driver : lsf_driver) : Prop :=
  (submit_method driver = LSF_SUBMIT_LOCAL_SHELL ∨
   submit_method driver = LSF_SUBMIT_REMOTE_SHELL) ∧
  (submit_method driver = LSF_SUBMIT_REMOTE_SHELL →
   is_Some (remote_lsf_server driver)).

(** The keys [lsf_driver_set_option] knows, and those [lsf_driver_get_option]
    answers. *)
Definition set_keys : list string :=
  [LSF_RESOURCE; LSF_SERVER; LSF_QUEUE; LSF_LOGIN_SHELL; LSF_RSH_CMD;
   LSF_BSUB_CMD; LSF_BJOBS_CMD; LSF_BKILL_CMD; LSF_BHIST_CMD;
   LSF_DEBUG_OUTPUT; LSF_SUBMIT_SLEEP; LSF_EXCLUDE_HOST; LSF_BJOBS_TIMEOUT;
   LSF_PROJECT_CODE].

Definition get_keys : list string :=
  [LSF_RESOURCE; LSF_SERVER; LSF_QUEUE; LSF_LOGIN_SHELL; LSF_RSH_CMD;
   LSF_BJOBS_CMD; LSF_BSUB_CMD; LSF_BKILL_CMD; LSF_BHIST_CMD;
   LSF_PROJECT_CODE; LSF_BJOBS_TIMEOUT].

(** The options whose value is kept as the string it is. *)
Definition string_keys : list string :=
  [LSF_RESOURCE; LSF_QUEUE; LSF_LOGIN_SHELL; LSF_RSH_CMD; LSF_BSUB_CMD;
   LSF_BJOBS_CMD; LSF_BKILL_CMD; LSF_BHIST_CMD; LSF_PROJECT_CODE].

(** [new lsf_driver_type()]: the members are zeroed, the list of hosts is
    empty; the two tables are allocated by [lsf_driver_shell_init]. *)
Definition lsf_driver_new : lsf_driver :=
  {| queue_name := None; resource_request := None; exclude_hosts := [];
     login_shell := None; project_code := None;
     submit_method := LSF_SUBMIT_INVALID;
     submit_sleep := 0;
     error_count := 0; max_error_count := 0;
     submit_error_sleep := 0;
     debug_output := false;
     bjobs_refresh_interval := 0;
     last_bjobs_update := 0;
     my_jobs := ∅; bjobs_cache := ∅; remote_lsf_server := None;
     rsh_cmd := None; bsub_cmd := None;
     bjobs_cmd := None; bkill_cmd := None;
     bhist_cmd := None |}.

Definition set_max_error_count (v : Z) (d : lsf_driver) : lsf_driver :=
  {| queue_name := queue_name d; resource_request := resource_request d;
     exclude_hosts := exclude_hosts d; login_shell := login_shell d;
     project_code := project_code d; submit_method := submit_method d;
     submit_sleep := submit_sleep d; error_count := error_count d;
     max_error_count := v;
     submit_error_sleep := submit_error_sleep d;
     debug_output := debug_output d;
     bjobs_refresh_interval := bjobs_refresh_interval d;
     last_bjobs_update := last_bjobs_update d; my_jobs := my_jobs d;
     bjobs_cache := bjobs_cache d; remote_lsf_server := remote_lsf_server d;
     rsh_cmd := rsh_cmd d; bsub_cmd := bsub_cmd d; bjobs_cmd := bjobs_cmd d;
     bkill_cmd := bkill_cmd d; bhist_cmd := bhist_cmd d |}.

Definition set_submit_error_sleep (v : Z) (d : lsf_driver) : lsf_driver :=
  {| queue_name := queue_name d; resource_request := resource_request d;
     exclude_hosts := exclude_hosts d; login_shell := login_shell d;
     project_code := project_code d; submit_method := submit_method d;
     submit_sleep := submit_sleep d; error_count := error_count d;
     max_error_count := max_error_count d;
     submit_error_sleep := v;
     debug_output := debug_output d;
     bjobs_refresh_interval := bjobs_refresh_interval d;
     last_bjobs_update := last_bjobs_update d; my_jobs := my_jobs d;
     bjobs_cache := bjobs_cache d; remote_lsf_server := remote_lsf_server d;
     rsh_cmd := rsh_cmd d; bsub_cmd := bsub_cmd d; bjobs_cmd := bjobs_cmd d;
     bkill_cmd := bkill_cmd d; bhist_cmd := bhist_cmd d |}.

Definition lsf_driver_shell_init (now : Z) (driver : lsf_driver)
    : lsf_driver :=
  set_bhist_cmd None (set_bkill_cmd None (set_bjobs_cmd None (set_bsub_cmd None
    (set_my_jobs ∅ (set_bjobs_cache ∅
      (set_last_bjobs_update now driver)))))).

Definition lsf_driver_init_submit_method (driver : lsf_driver) : lsf_driver :=
  set_submit_method LSF_SUBMIT_LOCAL_SHELL driver.

(** [lsf_driver_alloc], call by call; [DEFAULT_SUBMIT_SLEEP] is the text
    of a header that is not at hand. *)
Definition lsf_driver_alloc_calls (DEFAULT_SUBMIT_SLEEP : string)
    : M lsf_driver :=
  now ← time;
  let lsf_driver := lsf_driver_new in
  let lsf_driver := set_submit_method LSF_SUBMIT_INVALID lsf_driver in
  let lsf_driver := set_login_shell None lsf_driver in
  let lsf_driver := set_queue_name None lsf_driver in
  let lsf_driver := set_remote_lsf_server None lsf_driver in
  let lsf_driver := set_rsh_cmd None lsf_driver in
  let lsf_driver := set_resource_request None lsf_driver in
  let lsf_driver := set_project_code None lsf_driver in
  let lsf_driver := set_error_count 0 lsf_driver in
  let lsf_driver := set_max_error_count MAX_ERROR_COUNT lsf_driver in
  let lsf_driver :=
    set_submit_error_sleep (SUBMIT_ERROR_SLEEP * 1000000) lsf_driver in
  let lsf_driver := lsf_driver_shell_init now lsf_driver in
  let lsf_driver := lsf_driver_init_submit_method lsf_driver in
  let lsf_driver :=
    set_options
      [(LSF_SERVER, None);
       (LSF_RSH_CMD, Some "ssh");
       (LSF_BSUB_CMD, Some "bsub");
       (LSF_BJOBS_CMD, Some "bjobs");
       (LSF_BKILL_CMD, Some "bkill");
       (LSF_BHIST_CMD, Some "bhist");
       (LSF_DEBUG_OUTPUT, Some "FALSE");
       (LSF_SUBMIT_SLEEP, Some DEFAULT_SUBMIT_SLEEP);
       (LSF_BJOBS_TIMEOUT, Some "10")]
      lsf_driver in
  set_driver lsf_driver;;
  mret lsf_driver.

End OptionCalls.

(** * Properties *)

Set Warnings "-clear-no-such-hyp".

(** ** Facts on C strings *)

Module CStrFacts.
Import CStr.

Lemma app_cons (c : ascii) (s t : string) :
  String c s +:+ t = String c (s +:+ t).
Proof. reflexivity. Qed.

Lemma app_nil_l' (s : string) : "" +:+ s = s.
Proof. reflexivity. Qed.

Lemma app_nil_r (s : string) : s +:+ "" = s.
Proof. induction s as [|c s IH]; [done|]. by rewrite app_cons, IH. Qed.

Lemma app_assoc (s t u : string) : (s +:+ t) +:+ u = s +:+ t +:+ u.
Proof. induction s as [|c s IH]; [done|]. by rewrite !app_cons, IH. Qed.

Lemma app_length (s t : string) :
  String.length (s +:+ t) = (String.length s + String.length t)%nat.
Proof.
  induction s as [|c s IH]; [done|]. rewrite app_cons. simpl. by rewrite IH.
Qed.

End CStrFacts.

(** ** Status conversion *)

Section Conversion.
Context `{codes : lsf_job_stat}.


Lemma convert_status_map_None (code : Z) :
  code ∉ convert_keys → convert_status_map !! code = None.
Proof.
  intros Hin. apply not_elem_of_dom. unfold convert_status_map.
  rewrite dom_list_to_map_L, elem_of_list_to_set. cbn [fmap list_fmap fst].
  unfold convert_keys in Hin. rewrite !elem_of_cons in *.
  rewrite elem_of_nil in *. tauto.
Qed.

Lemma convert_null : lsf_driver_convert_status JOB_STAT_NULL = Ret JOB_QUEUE_NOT_ACTIVE.
Proof.
  unfold lsf_driver_convert_status, convert_status_map. simpl.
  by rewrite lookup_insert_eq.
Qed.



Ltac split_distinct H :=
  unfold codes_distinct in H;
  repeat (apply NoDup_cons in H as [? H]);
  repeat match goal with
         | Hn : _ ∉ _ |- _ => rewrite !not_elem_of_cons in Hn
         end;
  destruct_and?.

(** One entry of a table that lists a key more than once, always with the
    same value. *)
Ltac table_entry :=
  match goal with
  | |- match list_to_map ?l !! ?k with _ => _ end = Ret ?v =>
      rewrite (elem_of_list_to_map_1' l k v); [reflexivity| |]
  end;
  [ intros y Hy;
    repeat (apply elem_of_cons in Hy as [Hy|Hy];
            [inversion Hy; first [by subst | congruence]|]);
    by apply elem_of_nil in Hy
  | repeat first [apply list_elem_of_here | apply list_elem_of_further] ].

Lemma convert_table :
  codes_distinct →
  lsf_driver_convert_status <$> convert_keys =
  Ret <$> [JOB_QUEUE_NOT_ACTIVE; JOB_QUEUE_PENDING; JOB_QUEUE_RUNNING;
           JOB_QUEUE_RUNNING; JOB_QUEUE_RUNNING; JOB_QUEUE_RUNNING;
           JOB_QUEUE_DONE; JOB_QUEUE_EXIT; JOB_QUEUE_UNKNOWN; JOB_QUEUE_DONE].
Proof.
  intros Hd. split_distinct Hd.
  unfold convert_keys, lsf_driver_convert_status, convert_status_map.
  cbn [fmap list_fmap].
  repeat (apply (f_equal2 cons); [table_entry|]). reflexivity.
Qed.




End Conversion.


Lemma lsbatch_codes_distinct : @codes_distinct lsbatch_codes.
Proof. unfold codes_distinct. apply (bool_decide_unpack _). vm_compute. exact I. Qed.



(** The token PDONE is in the token table, its code is not a key of the
    conversion table: a job that bjobs lists as PDONE makes the conversion
    throw. *)
Lemma pdone_not_converted :
  @status_map lsbatch_codes !! "PDONE" = Some (@JOB_STAT_PDONE lsbatch_codes) ∧
  @lsf_driver_convert_status lsbatch_codes (@JOB_STAT_PDONE lsbatch_codes) =
    Throw "lsf_driver_convert_status: unrecognized lsf status code".
Proof. split; vm_compute; reflexivity. Qed.


(** ** The null job handle *)

(** C10.  A status lookup with the NULL job handle returns
    [JOB_STAT_NULL], which converts to [JOB_QUEUE_NOT_ACTIVE]; the state
    after the call is the state before it: the driver is unchanged, and the
    trace has neither a cache refresh nor an external command. *)
Theorem null_job_not_active `{codes : lsf_job_stat} (st : state) :
  lsf_driver_get_job_status_shell None st = (Ret JOB_STAT_NULL, st) ∧
  lsf_driver_convert_status JOB_STAT_NULL = Ret JOB_QUEUE_NOT_ACTIVE ∧
  lsf_driver_get_job_status None st = (Ret JOB_QUEUE_NOT_ACTIVE, st) ∧
  events_since st (lsf_driver_get_job_status None st).2 = [].
Proof.
  assert (Hst : lsf_driver_get_job_status None st = (Ret JOB_QUEUE_NOT_ACTIVE, st)).
  { unfold lsf_driver_get_job_status, lsf_driver_get_job_status_lsf,
      lsf_driver_get_job_status_shell, mbind, M_bind, mret, M_ret, lift.
    by rewrite convert_null. }
  split; [done|]. split; [apply convert_null|]. split; [done|].
  rewrite Hst. unfold events_since. simpl. apply drop_all.
Qed.

(** ** The bhist fallback *)

Section Bhist.
Context `{codes : lsf_job_stat}.

Lemma bhist_status_unchanged (pend_time run_time : Z) :
  bhist_status pend_time run_time pend_time run_time = JOB_STAT_DONE.
Proof.
  unfold bhist_status. repeat case_bool_decide; simpl; (done || lia).
Qed.

Lemma bhist_status_running (pend_time1 run_time1 pend_time2 run_time2 : Z) :
  run_time2 > run_time1 →
  bhist_status pend_time1 run_time1 pend_time2 run_time2 = JOB_STAT_RUN.
Proof. intros Hr. unfold bhist_status. by rewrite (bool_decide_eq_true_2 _ Hr). Qed.

Lemma bhist_status_pending (pend_time1 run_time1 pend_time2 run_time2 : Z) :
  pend_time2 > pend_time1 → ¬ run_time2 > run_time1 →
  bhist_status pend_time1 run_time1 pend_time2 run_time2 = JOB_STAT_PEND.
Proof.
  intros Hp Hr. unfold bhist_status.
  by rewrite (bool_decide_eq_true_2 _ Hp), (bool_decide_eq_false_2 _ Hr).
Qed.

(** The probe in terms of its two samples. *)
Lemma bhist_probe_first_fails (job : lsf_job) (st st1 : state) :
  lsf_driver_run_bhist job st = (Ret None, st1) →
  lsf_driver_get_bhist_status_shell job st = (Ret JOB_STAT_UNKWN, st1).
Proof.
  intros H1. unfold lsf_driver_get_bhist_status_shell, mbind, M_bind.
  by rewrite H1.
Qed.

Lemma bhist_probe_second (job : lsf_job) (st st1 : state) (pend_time1 run_time1 : Z) :
  lsf_driver_run_bhist job st = (Ret (Some (pend_time1, run_time1)), st1) →
  lsf_driver_get_bhist_status_shell job st =
    match lsf_driver_run_bhist job (sleep 4 st1).2 with
    | (Ret (Some (pend_time2, run_time2)), st2) =>
        (Ret (bhist_status pend_time1 run_time1 pend_time2 run_time2), st2)
    | (Ret None, st2) => (Ret JOB_STAT_UNKWN, st2)
    | (Exit msg, st2) => (Exit msg, st2)
    | (Throw msg, st2) => (Throw msg, st2)
    end.
Proof.
  intros H1. unfold lsf_driver_get_bhist_status_shell, mbind, M_bind.
  rewrite H1. clear H1. simpl.
  destruct (lsf_driver_run_bhist job _) as [[[[p2 r2]|]|msg|msg] st2];
    reflexivity.
Qed.

End Bhist.

Section BhistSamples.
Context `{codes : lsf_job_stat}.

(** One sample: what [lsf_driver_run_bhist] returns is what [fscanf] makes
    of the output of the command. *)
Lemma run_bhist_sample (job : lsf_job) (st : state) (output : string) :
  bhist_output job st = Some output →
  (lsf_driver_run_bhist job st).1 =
    match bhist_sample output with
    | Scan.Matched sample => Ret (Some sample)
    | Scan.Unmatched => Ret None
    | Scan.Overrun => Exit "SIGSEGV"
    end.
Proof.
  unfold bhist_output, bhist_sample, lsf_driver_run_bhist, mbind, M_bind,
    get_driver, fmap, M_fmap, spawn_blocking, mret, M_ret, util_abort,
    stack_overrun.
  destruct st as [d w]. simpl.
  destruct (submit_method d); simpl; try (intros; discriminate).
  - destruct (respond w _ _ _) as [out us]. simpl.
    intros [= ->]. by destruct (Scan.fscanf_bhist _).
  - destruct (respond w _ _ _) as [out us]. simpl.
    intros [= ->]. by destruct (Scan.fscanf_bhist _).
Qed.

Lemma run_bhist_unmatched (job : lsf_job) (st : state) (output : string) :
  bhist_output job st = Some output →
  bhist_sample output = Scan.Unmatched →
  lsf_driver_run_bhist job st = (Ret None, (lsf_driver_run_bhist job st).2).
Proof.
  intros Hout Hs. pose proof (run_bhist_sample job st output Hout) as H.
  rewrite Hs in H. destruct (lsf_driver_run_bhist job st). cbn in *. by subst.
Qed.

Lemma run_bhist_matched (job : lsf_job) (st : state) (output : string)
    (sample : Z * Z) :
  bhist_output job st = Some output →
  bhist_sample output = Scan.Matched sample →
  lsf_driver_run_bhist job st =
    (Ret (Some sample), (lsf_driver_run_bhist job st).2).
Proof.
  intros Hout Hs. pose proof (run_bhist_sample job st output Hout) as H.
  rewrite Hs in H. destruct (lsf_driver_run_bhist job st). cbn in *. by subst.
Qed.

Lemma bhist_status_neither (pend_time1 run_time1 pend_time2 run_time2 : Z) :
  ¬ (pend_time1 = pend_time2 ∧ run_time1 = run_time2) →
  ¬ pend_time2 > pend_time1 → ¬ run_time2 > run_time1 →
  bhist_status pend_time1 run_time1 pend_time2 run_time2 = JOB_STAT_UNKWN.
Proof.
  intros Hsame Hp Hr. unfold bhist_status.
  rewrite (bool_decide_eq_false_2 _ Hp), (bool_decide_eq_false_2 _ Hr).
  repeat case_bool_decide; simpl; try done. exfalso. apply Hsame. by split.
Qed.

End BhistSamples.

(** C1.  The inference of the bhist probe from the outputs of its two
    commands.  When [fscanf] does not find the six fields in the first
    output, or finds them there and not in the second, the probe answers
    UNKWN.  When it reads both samples, the probe answers DONE if both
    counters are unchanged, RUN if the running counter has increased
    (whatever the pending counter did, that test coming last), PEND if the
    pending counter has increased and the running counter has not, and
    UNKWN in the case that is left. *)
Theorem bhist_probe_priority `{codes : lsf_job_stat} (job : lsf_job) (st : state)
    (output1 : string) :
  bhist_output job st = Some output1 →
  (bhist_sample output1 = Scan.Unmatched →
   lsf_driver_get_bhist_status_shell job st =
     (Ret JOB_STAT_UNKWN, (lsf_driver_run_bhist job st).2)) ∧
  (∀ pend_time1 run_time1 output2,
     bhist_sample output1 = Scan.Matched (pend_time1, run_time1) →
     bhist_output job (second_sample job st) = Some output2 →
     (bhist_sample output2 = Scan.Unmatched →
      lsf_driver_get_bhist_status_shell job st =
        (Ret JOB_STAT_UNKWN, (lsf_driver_run_bhist job (second_sample job st)).2)) ∧
     (∀ pend_time2 run_time2,
        bhist_sample output2 = Scan.Matched (pend_time2, run_time2) →
        ∃ status,
          lsf_driver_get_bhist_status_shell job st =
            (Ret status, (lsf_driver_run_bhist job (second_sample job st)).2) ∧
          (pend_time1 = pend_time2 → run_time1 = run_time2 →
           status = JOB_STAT_DONE) ∧
          (pend_time2 > pend_time1 →
           status = if decide (run_time2 > run_time1)
                    then JOB_STAT_RUN else JOB_STAT_PEND) ∧
          (run_time2 > run_time1 → status = JOB_STAT_RUN) ∧
          (¬ (pend_time1 = pend_time2 ∧ run_time1 = run_time2) →
           ¬ pend_time2 > pend_time1 → ¬ run_time2 > run_time1 →
           status = JOB_STAT_UNKWN))).
Proof.
  intros Hout1. split.
  - intros Hs1. apply bhist_probe_first_fails.
    by apply (run_bhist_unmatched job st output1).
  - intros p1 r1 output2 Hs1 Hout2.
    pose proof (run_bhist_matched job st output1 (p1, r1) Hout1 Hs1) as H1.
    pose proof (bhist_probe_second job st _ p1 r1 H1) as Hp.
    fold (second_sample job st) in Hp.
    split.
    + intros Hs2.
      by rewrite Hp, (run_bhist_unmatched job _ output2 Hout2 Hs2).
    + intros p2 r2 Hs2.
      rewrite (run_bhist_matched job _ output2 (p2, r2) Hout2 Hs2) in Hp.
      exists (bhist_status p1 r1 p2 r2). split; [done|].
      split; [|split; [|split]].
      * intros -> ->. apply bhist_status_unchanged.
      * intros Hpend. case_decide.
        -- by apply bhist_status_running.
        -- by apply bhist_status_pending.
      * apply bhist_status_running.
      * apply bhist_status_neither.
Qed.

Lemma bhist_probe_priority_witness :
  @lsf_driver_get_bhist_status_shell lsbatch_codes Fixture.job42 probe_garbled =
    (Ret (@JOB_STAT_UNKWN lsbatch_codes),
     (lsf_driver_run_bhist Fixture.job42 probe_garbled).2) ∧
  ∃ status,
    @lsf_driver_get_bhist_status_shell lsbatch_codes Fixture.job42 probe_running =
      (Ret status,
       (lsf_driver_run_bhist Fixture.job42
          (second_sample Fixture.job42 probe_running)).2) ∧
    status = @JOB_STAT_RUN lsbatch_codes.
Proof.
  split.
  - destruct (@bhist_probe_priority lsbatch_codes Fixture.job42 probe_garbled
                bhist_no_job) as [Hfirst _].
    + vm_compute. reflexivity.
    + apply Hfirst. vm_compute. reflexivity.
  - destruct (@bhist_probe_priority lsbatch_codes Fixture.job42 probe_running
                (Fixture.bhist_report 5 10)) as [_ Hsecond].
    + vm_compute. reflexivity.
    + destruct (Hsecond 5 10 (Fixture.bhist_report 5 14)) as [_ Hboth].
      * vm_compute. reflexivity.
      * vm_compute. reflexivity.
      * destruct (Hboth 5 14) as (status & Hstatus & _ & _ & Hrun & _).
        { vm_compute. reflexivity. }
        exists status. split; [exact Hstatus|]. apply Hrun. lia.
Defined.

Lemma events_since_app (st st' : state) (evs : list event) :
  trace (env st') = trace (env st) ++ evs → events_since st st' = evs.
Proof. intros H. unfold events_since. rewrite H. apply drop_app_length. Qed.

(** X2.  What one bhist sample runs.  Through ssh it is the history command
    of the driver ([bhist_cmd]) with the job id; on the local shell it is
    the listing command ([bjobs_cmd]) with the job id, announced with an
    argument count of 2 for the one argument; with any other submit method
    no command is run at all. *)
Theorem run_bhist_command (job : lsf_job) (st : state) :
  events_since st (lsf_driver_run_bhist job st).2 =
    match submit_method (drv st) with
    | LSF_SUBMIT_REMOTE_SHELL =>
        [EvSpawn (rsh_cmd (drv st)) 2
           [remote_lsf_server (drv st);
            Some (fmt_s (bhist_cmd (drv st)) +:+ " " +:+ lsf_jobnr_char job)]]
    | LSF_SUBMIT_LOCAL_SHELL =>
        [EvSpawn (bjobs_cmd (drv st)) 2 [Some (lsf_jobnr_char job)]]
    | _ => []
    end.
Proof.
  unfold lsf_driver_run_bhist, mbind, M_bind, get_driver, fmap, M_fmap,
    spawn_blocking, mret, M_ret, util_abort, stack_overrun.
  destruct st as [d w]. simpl.
  destruct (submit_method d); simpl.
  - apply (events_since_app _ _ []). simpl. by rewrite app_nil_r.
  - apply (events_since_app _ _ []). simpl. by rewrite app_nil_r.
  - destruct (respond w _ _ _) as [out us]. simpl.
    destruct (Scan.fscanf_bhist _); by apply events_since_app.
  - destruct (respond w _ _ _) as [out us]. simpl.
    destruct (Scan.fscanf_bhist _); by apply events_since_app.
Qed.

(** C9, where the code departs from it.  The probe of a driver on the local
    shell, whose history command is bhist: both samples are taken by running
    the listing command bjobs with the job id, and bhist is never run.
    Through ssh both samples are taken with bhist, as the design document
    has it for both methods. *)
Example bhist_probe_commands :
  submit_method (drv probe_running) = LSF_SUBMIT_LOCAL_SHELL ∧
  bhist_cmd (drv probe_running) = Some "bhist" ∧
  events_since probe_running
    (@lsf_driver_get_bhist_status_shell lsbatch_codes Fixture.job42 probe_running).2
    = [EvSpawn (Some "bjobs") 2 [Some "42"]; EvSleep 4;
       EvSpawn (Some "bjobs") 2 [Some "42"]] ∧
  events_since probe_running_remote
    (@lsf_driver_get_bhist_status_shell lsbatch_codes Fixture.job42
       probe_running_remote).2
    = [EvSpawn (Some "ssh") 2 [Some "be-grid01"; Some "bhist 42"]; EvSleep 4;
       EvSpawn (Some "ssh") 2 [Some "be-grid01"; Some "bhist 42"]].
Proof. repeat split; vm_compute; reflexivity. Qed.

(** ** Quoting of the resource request *)

Lemma quoted_differs (req : string) : quoted req ≠ req.
Proof.
  intros Heq. apply (f_equal String.length) in Heq.
  unfold quoted in Heq. rewrite CStrFacts.app_length in Heq. simpl in Heq. lia.
Qed.

(** The quoting of a composed request, by submit method. *)
Lemma alloc_quoted_iff_remote (driver : lsf_driver) (req : string) :
  alloc_resource_string driver = Ret (Some req) →
  (alloc_quoted_resource_string driver = Ret (Some (quoted req))
     ↔ submit_method driver = LSF_SUBMIT_REMOTE_SHELL) ∧
  (alloc_quoted_resource_string driver = Ret (Some req)
     ↔ submit_method driver ≠ LSF_SUBMIT_REMOTE_SHELL) ∧
  ∀ lsf_stdout job_name submit_cmd num_cpu job_argv,
    ∃ before after,
      lsf_driver_alloc_cmd driver lsf_stdout job_name submit_cmd num_cpu job_argv
        = Ret (before ++
               [Some "-R";
                Some (if decide (submit_method driver = LSF_SUBMIT_REMOTE_SHELL)
                      then quoted req else req)] ++ after).
Proof.
  intros Hreq.
  assert (Hq : alloc_quoted_resource_string driver =
               Ret (Some (if decide (submit_method driver = LSF_SUBMIT_REMOTE_SHELL)
                          then quoted req else req))).
  { unfold alloc_quoted_resource_string, mbind, outcome_bind.
    rewrite Hreq. by case_decide. }
  split; [|split].
  - rewrite Hq. case_decide; split; try done.
    intros [= Heq]. symmetry in Heq. by apply quoted_differs in Heq.
  - rewrite Hq. case_decide; split; try done.
    intros [= Heq]. by apply quoted_differs in Heq.
  - intros lsf_stdout jname submit_cmd num_cpu job_argv.
    unfold lsf_driver_alloc_cmd, mbind, outcome_bind. rewrite Hq.
    exists ((if decide (submit_method driver = LSF_SUBMIT_REMOTE_SHELL)
             then [bsub_cmd driver] else [])
            ++ [Some "-o"; Some lsf_stdout]
            ++ match queue_name driver with
               | Some q => [Some "-q"; Some q]
               | None => []
               end
            ++ [Some "-J"; Some jname; Some "-n"; Some (fmt_d num_cpu)]).
    eexists. f_equal. rewrite <- !(assoc_L (++)). reflexivity.
Qed.

(** X1.  When the driver composes a resource request [req], the string that
    [alloc_quoted_resource_string] returns, and that follows -R on the submit
    command line, is [req] between double quotes exactly when the submit
    method is the remote shell, and [req] itself exactly when it is not. *)
Theorem resource_request_quoted_iff_remote (driver : lsf_driver) (req : string) :
  alloc_resource_string driver = Ret (Some req) →
  (alloc_quoted_resource_string driver = Ret (Some (quoted req))
     ↔ submit_method driver = LSF_SUBMIT_REMOTE_SHELL) ∧
  (alloc_quoted_resource_string driver = Ret (Some req)
     ↔ submit_method driver ≠ LSF_SUBMIT_REMOTE_SHELL) ∧
  ∀ lsf_stdout job_name submit_cmd num_cpu job_argv,
    ∃ before after,
      lsf_driver_alloc_cmd driver lsf_stdout job_name submit_cmd num_cpu job_argv
        = Ret (before ++
               [Some "-R";
                Some (if decide (submit_method driver = LSF_SUBMIT_REMOTE_SHELL)
                      then quoted req else req)] ++ after).
Proof. exact (alloc_quoted_iff_remote driver req). Qed.

Lemma resource_request_quoted_iff_remote_witness :
  alloc_quoted_resource_string (driver_with_resources LSF_SUBMIT_REMOTE_SHELL)
    = Ret (Some (quoted
        "span[hosts=1] select[mem>100 && hname!='node1' && hname!='node2']  rusage[mem=50]")).
Proof.
  apply (resource_request_quoted_iff_remote
           (driver_with_resources LSF_SUBMIT_REMOTE_SHELL)
           "span[hosts=1] select[mem>100 && hname!='node1' && hname!='node2']  rusage[mem=50]");
    vm_compute; reflexivity.
Defined.

(** C8.  When the driver composes a resource request [req], the submit
    command line holds it after -R, between double quotes exactly when the
    submit method is the remote shell, and as it is exactly when the method
    is another one. *)
Theorem resource_string_quoted_on_command_line (driver : lsf_driver)
    (req lsf_stdout jname submit_cmd : string) (num_cpu : Z)
    (job_argv : list string) :
  alloc_resource_string driver = Ret (Some req) →
  ∃ before after r,
    lsf_driver_alloc_cmd driver lsf_stdout jname submit_cmd num_cpu job_argv
      = Ret (before ++ [Some "-R"; Some r] ++ after) ∧
    alloc_quoted_resource_string driver = Ret (Some r) ∧
    (r = quoted req ↔ submit_method driver = LSF_SUBMIT_REMOTE_SHELL) ∧
    (r = req ↔ submit_method driver ≠ LSF_SUBMIT_REMOTE_SHELL).
Proof.
  intros Hreq.
  destruct (alloc_quoted_iff_remote driver req Hreq) as (Hremote & Hother & Hcmd).
  destruct (Hcmd lsf_stdout jname submit_cmd num_cpu job_argv)
    as (before & after & Hargv).
  exists before, after,
    (if decide (submit_method driver = LSF_SUBMIT_REMOTE_SHELL)
     then quoted req else req).
  split; [exact Hargv|].
  case_decide as Hm.
  - split; [by apply Hremote|]. split; [done|].
    split; [|done]. intros Heq. by apply quoted_differs in Heq.
  - split; [by apply Hother|]. split; [|done].
    split; [|done]. intros Heq. symmetry in Heq. by apply quoted_differs in Heq.
Qed.

Lemma resource_string_quoted_on_command_line_witness :
  ∃ before after r,
    lsf_driver_alloc_cmd (driver_with_resources LSF_SUBMIT_REMOTE_SHELL)
      "job.LSF-stdout" "job" "run.sh" 1 []
      = Ret (before ++ [Some "-R"; Some r] ++ after) ∧
    r = quoted
          "span[hosts=1] select[mem>100 && hname!='node1' && hname!='node2']  rusage[mem=50]".
Proof.
  destruct (resource_string_quoted_on_command_line
              (driver_with_resources LSF_SUBMIT_REMOTE_SHELL)
              "span[hosts=1] select[mem>100 && hname!='node1' && hname!='node2']  rusage[mem=50]"
              "job.LSF-stdout" "job" "run.sh" 1 [])
    as (before & after & r & Hargv & _ & Hremote & _).
  - vm_compute. reflexivity.
  - exists before, after, r. split; [exact Hargv|]. by apply Hremote.
Defined.


(** ** The trace only grows *)

Lemma extends_refl (st : state) : extends st st.
Proof. exists []. by rewrite app_nil_r. Qed.

Lemma extends_trans (st1 st2 st3 : state) :
  extends st1 st2 → extends st2 st3 → extends st1 st3.
Proof.
  intros [e1 H1] [e2 H2]. exists (e1 ++ e2). by rewrite H2, H1, (assoc_L (++)).
Qed.

Lemma extends_elem (st st' : state) (e : event) :
  extends st st' → e ∈ trace (env st) → e ∈ trace (env st').
Proof. intros [evs ->] He. apply elem_of_app. by left. Qed.


Lemma appends_ret {A} (a : A) : appends (mret a).
Proof. intros st. apply extends_refl. Qed.

Lemma appends_bind {A B} (c : M A) (k : A → M B) :
  appends c → (∀ a, appends (k a)) → appends (c ≫= k).
Proof.
  intros Hc Hk st. unfold mbind, M_bind.
  specialize (Hc st). destruct (c st) as [[a|msg|msg] st1]; simpl in *; try done.
  eapply extends_trans; [exact Hc|apply Hk].
Qed.

Lemma appends_fmap {A B} (f : A → B) (c : M A) : appends c → appends (f <$> c).
Proof.
  intros Hc st. unfold fmap, M_fmap.
  specialize (Hc st). by destruct (c st) as [[a|msg|msg] st1].
Qed.

Lemma appends_lift {A} (c : outcome A) : appends (lift c).
Proof. intros st. apply extends_refl. Qed.

Lemma appends_util_exit {A} (msg : string) : appends (@util_exit A msg).
Proof. intros st. apply extends_refl. Qed.

Lemma appends_util_abort {A} (msg : string) : appends (@util_abort A msg).
Proof. intros st. apply extends_refl. Qed.

Lemma appends_get_driver : appends get_driver.
Proof. intros st. apply extends_refl. Qed.

Lemma appends_time : appends time.
Proof. intros st. apply extends_refl. Qed.

Lemma appends_emit (e : event) : appends (emit e).
Proof. intros st. by exists [e]. Qed.

Lemma appends_store (w : shared_write) (f : lsf_driver → lsf_driver) :
  appends (store w f).
Proof. intros st. by exists [EvWrite w]. Qed.

Lemma appends_sleep (n : Z) : appends (sleep n).
Proof. intros st. by exists [EvSleep n]. Qed.

Lemma appends_usleep (n : Z) : appends (usleep n).
Proof. intros st. by exists [EvUsleep n]. Qed.

Lemma appends_write_file (path content : string) : appends (write_file path content).
Proof. intros st. by exists [EvFile path content]. Qed.

Lemma appends_spawn_blocking (cmd : option string) (argc : Z) (argv : list (option string)) :
  appends (spawn_blocking cmd argc argv).
Proof.
  intros st. unfold spawn_blocking.
  destruct (respond _ _ _ _) as [out us]. by exists [EvSpawn cmd argc argv].
Qed.

(** Decomposes a computation into the steps above. *)
Ltac appends_steps :=
  repeat first
    [ apply appends_ret | apply appends_lift | apply appends_util_exit
    | apply appends_util_abort | apply appends_get_driver | apply appends_time
    | apply appends_emit | apply appends_store | apply appends_sleep
    | apply appends_usleep | apply appends_write_file
    | apply appends_spawn_blocking
    | apply appends_fmap
    | apply appends_bind; [|intros ?]
    | progress unfold pthread_mutex_lock, pthread_mutex_unlock
    | case_decide
    | match goal with
      | |- appends (match ?x with _ => _ end) => destruct x
      | |- appends (if ?x then _ else _) => destruct x
      | |- appends (let '(_, _) := ?x in _) => destruct x
      end ].

Section Appends.
Context `{codes : lsf_job_stat}.






Lemma appends_submit_shell_job (lsf_stdout jname submit_cmd : string)
    (num_cpu : Z) (job_argv : list string) :
  appends (lsf_driver_submit_shell_job lsf_stdout jname submit_cmd num_cpu job_argv).
Proof. unfold lsf_driver_submit_shell_job. appends_steps. Qed.

End Appends.


(** ** The refresh of the status cache *)

Section Refresh.
Context `{codes : lsf_job_stat}.

Lemma update_bjobs_line_unfold (line : string) (st : state) :
  update_bjobs_line line st =
    match Scan.sscanf_d_s_s line with
    | Scan.Matched row =>
        if decide (row_key row ∈ my_jobs (drv st)) then
          match status_map !! row_token row with
          | Some code =>
              (Ret (),
               {| drv := set_bjobs_cache
                           (<[row_key row := code]> (bjobs_cache (drv st))) (drv st);
                  env := log_event (EvWrite (bjobs_cache_insert (row_key row) code))
                           (env st) |})
          | None =>
              (Exit "The lsf_status for job is not recognized; call your LSF administrator",
               st)
          end
        else (Ret (), st)
    | Scan.Unmatched => (Ret (), st)
    | Scan.Overrun => (Exit "SIGSEGV", st)
    end.
Proof.
  unfold update_bjobs_line.
  destruct (Scan.sscanf_d_s_s line) as [[[id user] token]| |]; [|done..].
  unfold mbind, M_bind, get_driver, row_key, row_token. simpl.
  case_decide; [|done]. by destruct (status_map !! token).
Qed.

(** The loop over the lines: it ends the process at the first row of this
    instance with an unknown token, and otherwise inserts the rows of this
    instance, the later row of a key replacing the earlier one. *)
Lemma update_bjobs_lines_ret (ls : list string) (st st' : state) :
  update_bjobs_lines ls st = (Ret (), st') →
  ∃ cache',
    drv st' = set_bjobs_cache cache' (drv st) ∧
    dom cache' =
      dom (bjobs_cache (drv st)) ∪
      (list_to_set (row_key <$> omap read_row ls) ∩ my_jobs (drv st)) ∧
    (∀ key code,
       cache' !! key = Some code →
       bjobs_cache (drv st) !! key = Some code ∨ token_code code) ∧
    Forall (λ row, row_key row ∈ my_jobs (drv st) →
                   is_Some (status_map !! row_token row))
      (omap read_row ls).
Proof.
  revert st. induction ls as [|line ls IH]; intros st.
  - intros [= <-]. exists (bjobs_cache (drv st)).
    split; [by destruct (drv st)|]. split; [set_solver|].
    split; [by left|constructor].
  - cbn [update_bjobs_lines]. unfold mbind, M_bind.
    rewrite update_bjobs_line_unfold. cbn [omap list_omap].
    change (read_row line) with (Scan.matched (Scan.sscanf_d_s_s line)).
    destruct (Scan.sscanf_d_s_s line) as [row| |]; [|by apply IH|done].
    cbn [Scan.matched].
    case_decide as Hmine.
    + destruct (status_map !! row_token row) as [code|] eqn:Htok; [|done].
      intros Hrest. apply IH in Hrest as (cache' & Hdrv & Hdom & Hcodes & Hall).
      cbn [drv] in *. exists cache'. split; [|split; [|split]].
      * rewrite Hdrv. reflexivity.
      * rewrite Hdom. cbn [bjobs_cache my_jobs set_bjobs_cache].
        rewrite dom_insert_L, fmap_cons, list_to_set_cons. set_solver.
      * intros key code' Hl. destruct (Hcodes key code' Hl) as [Hold|Hnew]; [|by right].
        cbn [bjobs_cache set_bjobs_cache] in Hold.
        destruct (decide (key = row_key row)) as [->|Hne].
        -- rewrite lookup_insert_eq in Hold. injection Hold as <-.
           right. by exists (row_token row).
        -- rewrite lookup_insert_ne in Hold by done. by left.
      * constructor; [|done]. intros _. by rewrite Htok.
    + intros Hrest. apply IH in Hrest as (cache' & Hdrv & Hdom & Hcodes & Hall).
      exists cache'. split; [done|]. split; [|split; [done|]].
      * rewrite Hdom. rewrite fmap_cons, list_to_set_cons. set_solver.
      * by constructor.
Qed.

Lemma update_bjobs_lines_known (ls : list string) (st : state) :
  Forall (λ line, Scan.overruns (Scan.sscanf_d_s_s line) = false) ls →
  Forall (λ row, row_key row ∈ my_jobs (drv st) →
                 is_Some (status_map !! row_token row))
    (omap read_row ls) →
  ∃ st', update_bjobs_lines ls st = (Ret (), st').
Proof.
  revert st. induction ls as [|line ls IH]; intros st Hfit Hall; [by eexists|].
  apply Forall_cons in Hfit as [Hline Hfit].
  cbn [update_bjobs_lines]. unfold mbind, M_bind.
  rewrite update_bjobs_line_unfold. cbn [omap list_omap] in Hall.
  change (read_row line) with (Scan.matched (Scan.sscanf_d_s_s line)) in Hall.
  destruct (Scan.sscanf_d_s_s line) as [row| |]; [|by apply IH|done].
  cbn [Scan.matched] in Hall.
  apply Forall_cons in Hall as [Hrow Hall].
  case_decide as Hmine; [|by apply IH].
  destruct (Hrow Hmine) as [code ->]. by apply IH.
Qed.

Lemma update_bjobs_lines_unknown (ls : list string) (st : state) :
  Forall (λ line, Scan.overruns (Scan.sscanf_d_s_s line) = false) ls →
  Exists (λ row, row_key row ∈ my_jobs (drv st) ∧ status_map !! row_token row = None)
    (omap read_row ls) →
  ∃ st',
    update_bjobs_lines ls st =
      (Exit "The lsf_status for job is not recognized; call your LSF administrator", st').
Proof.
  revert st. induction ls as [|line ls IH]; intros st Hfit Hbad.
  { by apply Exists_nil in Hbad. }
  apply Forall_cons in Hfit as [Hline Hfit].
  cbn [update_bjobs_lines]. unfold mbind, M_bind.
  rewrite update_bjobs_line_unfold. cbn [omap list_omap] in Hbad.
  change (read_row line) with (Scan.matched (Scan.sscanf_d_s_s line)) in Hbad.
  destruct (Scan.sscanf_d_s_s line) as [row| |]; [|by apply IH|done].
  cbn [Scan.matched] in Hbad.
  case_decide as Hmine.
  - destruct (status_map !! row_token row) as [code|] eqn:Htok; [|by eexists].
    apply IH; [done|].
    apply Exists_cons in Hbad as [[_ Hnone]|Hbad]; [congruence|done].
  - apply IH; [done|]. apply Exists_cons in Hbad as [[Hin _]|Hbad]; done.
Qed.

Lemma update_bjobs_table_unfold (st : state) :
  match bjobs_listing st with
  | None =>
      lsf_driver_update_bjobs_table st = (Exit "util_fopen: failed to open", st)
  | Some content =>
      ∃ st1,
        drv st1 = set_bjobs_cache ∅ (drv st) ∧
        lsf_driver_update_bjobs_table st =
          update_bjobs_lines (Scan.lines (Scan.fskip_line content)) st1
  end.
Proof.
  unfold bjobs_listing, lsf_driver_update_bjobs_table, mbind, M_bind, get_driver,
    fmap, M_fmap, spawn_blocking, mret, M_ret, util_abort, store.
  destruct st as [d w]. cbn [drv env].
  destruct (submit_method d); repeat (case_decide; try congruence);
    cbn; try done.
  - destruct (respond w _ _ _) as [out us]. cbn.
    eexists. split; [|reflexivity]. reflexivity.
  - destruct (respond w _ _ _) as [out us]. cbn.
    eexists. split; [|reflexivity]. reflexivity.
Qed.

End Refresh.

(** X3.  A refresh that returns has read the listing the batch system
    printed, and has changed nothing of the driver but the status cache,
    whose keys are then exactly the ids of the listed rows that are in
    my_jobs, whatever the cache held before; every code in it comes from the
    token table. *)
Theorem refresh_cache_contents `{codes : lsf_job_stat} (st st' : state) :
  lsf_driver_update_bjobs_table st = (Ret (), st') →
  ∃ content cache',
    bjobs_listing st = Some content ∧
    drv st' = set_bjobs_cache cache' (drv st) ∧
    dom cache' = listed_ids content ∩ my_jobs (drv st) ∧
    ∀ key code, cache' !! key = Some code → token_code code.
Proof.
  intros Hret. pose proof (update_bjobs_table_unfold st) as Hun.
  destruct (bjobs_listing st) as [content|]; [|congruence].
  destruct Hun as (st1 & Hdrv & Hun). rewrite Hun in Hret.
  apply update_bjobs_lines_ret in Hret as (cache' & Hdrv' & Hdom & Hcodes & _).
  exists content, cache'. split; [done|]. rewrite Hdrv in *.
  cbn [bjobs_cache my_jobs set_bjobs_cache] in *.
  split; [done|]. split.
  - rewrite Hdom, dom_empty_L. unfold listed_ids, listed. set_solver.
  - intros key code Hl. destruct (Hcodes key code Hl) as [Hold|Hnew]; [|done].
    by rewrite lookup_empty in Hold.
Qed.

Lemma refresh_cache_contents_witness :
  ∃ st',
    @lsf_driver_update_bjobs_table lsbatch_codes refresh_example = (Ret (), st') ∧
    dom (bjobs_cache (drv st')) = {["41"; "42"]}.
Proof.
  eexists. split; [vm_compute; reflexivity|].
  destruct (@refresh_cache_contents lsbatch_codes refresh_example
              (@lsf_driver_update_bjobs_table lsbatch_codes refresh_example).2)
    as (content & cache' & Hlist & Hdrv & Hdom & _).
  { vm_compute. reflexivity. }
  injection Hlist as <-.
  transitivity (dom cache').
  { f_equal. apply (f_equal bjobs_cache) in Hdrv. exact Hdrv. }
  rewrite Hdom. vm_compute. reflexivity.
Defined.

Section RefreshOutcome.
Context `{codes : lsf_job_stat}.

Lemma rows_known_or_not (st : state) (rows : list (Z * string * string)) :
  Forall (λ row, row_key row ∈ my_jobs (drv st) →
                 is_Some (status_map !! row_token row)) rows ∨
  Exists (λ row, row_key row ∈ my_jobs (drv st) ∧
                 status_map !! row_token row = None) rows.
Proof.
  destruct (Forall_Exists_dec
              (λ row, row_key row ∈ my_jobs (drv st) →
                      is_Some (status_map !! row_token row))
              (λ row, row_key row ∈ my_jobs (drv st) ∧
                      status_map !! row_token row = None)
              (λ row,
                 match decide (row_key row ∈ my_jobs (drv st)) with
                 | left Hin =>
                     match status_map !! row_token row as o
                       return {row_key row ∈ my_jobs (drv st) → is_Some o} +
                              {row_key row ∈ my_jobs (drv st) ∧ o = None}
                     with
                     | Some code => left (λ _, mk_is_Some _ _ eq_refl)
                     | None => right (conj Hin eq_refl)
                     end
                 | right Hnin => left (λ Hin, False_ind _ (Hnin Hin))
                 end) rows); auto.
Qed.

End RefreshOutcome.

(** X4.  Given the listing the batch system prints, with every user of
    fewer than 32 and every status word of fewer than 16 characters, the
    sizes of the arrays they are read into, a refresh returns exactly when
    every listed row whose id is in my_jobs has a token of the token table,
    and it ends the process with the message on the status exactly when some
    such row has not; the tokens of the rows of other jobs do not matter. *)
Theorem refresh_unknown_token_fatal `{codes : lsf_job_stat} (st : state)
    (content : string) :
  bjobs_listing st = Some content → rows_fit content →
  ((∃ st', lsf_driver_update_bjobs_table st = (Ret (), st')) ↔
   ∀ row, row ∈ listed content → row_key row ∈ my_jobs (drv st) →
          is_Some (status_map !! row_token row)) ∧
  ((∃ st', lsf_driver_update_bjobs_table st =
             (Exit "The lsf_status for job is not recognized; call your LSF administrator",
              st')) ↔
   ∃ row, row ∈ listed content ∧ row_key row ∈ my_jobs (drv st) ∧
          status_map !! row_token row = None).
Proof.
  intros Hlist Hfit. pose proof (update_bjobs_table_unfold st) as Hun.
  rewrite Hlist in Hun. destruct Hun as (st1 & Hdrv & Hun). rewrite Hun.
  assert (Hmine : my_jobs (drv st1) = my_jobs (drv st)) by by rewrite Hdrv.
  unfold listed. unfold rows_fit in Hfit.
  set (ls := Scan.lines (Scan.fskip_line content)) in *.
  split; split.
  - intros [st' Hret]. apply update_bjobs_lines_ret in Hret as (_ & _ & _ & _ & Hall).
    rewrite Forall_forall in Hall. intros row Hrow Hin. apply Hall; [done|].
    by rewrite Hmine.
  - intros Hall. apply update_bjobs_lines_known; [done|]. apply Forall_forall.
    intros row Hrow Hin. apply Hall; [done|]. by rewrite <- Hmine.
  - intros [st' Hexit].
    destruct (rows_known_or_not st1 (omap read_row ls)) as [Hall|Hbad].
    + apply update_bjobs_lines_known in Hall as [st'' Hret]; [congruence|done].
    + apply Exists_exists in Hbad as (row & Hrow & Hin & Hnone).
      exists row. by rewrite <- Hmine.
  - intros (row & Hrow & Hin & Hnone). apply update_bjobs_lines_unknown; [done|].
    apply Exists_exists. exists row. by rewrite Hmine.
Qed.

Lemma refresh_unknown_token_fatal_witness :
  ∃ st',
    @lsf_driver_update_bjobs_table lsbatch_codes refresh_example_unknown =
      (Exit "The lsf_status for job is not recognized; call your LSF administrator",
       st').
Proof.
  eapply (@refresh_unknown_token_fatal lsbatch_codes refresh_example_unknown).
  - vm_compute. reflexivity.
  - apply (bool_decide_unpack _). vm_compute. exact I.
  - exists (42, "alice", "FOOBAR"). split; [|split].
    + apply (bool_decide_unpack _). vm_compute. exact I.
    + apply (bool_decide_unpack _). vm_compute. exact I.
    + vm_compute. reflexivity.
Defined.

Section RefreshTrace.
Context `{codes : lsf_job_stat}.

Lemma update_bjobs_lines_my_jobs (ls : list string) (st : state) :
  my_jobs (drv (update_bjobs_lines ls st).2) = my_jobs (drv st).
Proof.
  revert st. induction ls as [|line ls IH]; intros st; [done|].
  cbn [update_bjobs_lines]. unfold mbind, M_bind.
  rewrite update_bjobs_line_unfold.
  destruct (Scan.sscanf_d_s_s line) as [row| |]; [|apply IH|done].
  case_decide; [|apply IH].
  destruct (status_map !! row_token row); [|done].
  rewrite IH. done.
Qed.



End RefreshTrace.




(** ** Status lookups *)

Section LookupFacts.
Context `{codes : lsf_job_stat}.




(** The lookup, with the test of the refresh made once. *)
Lemma get_job_status_shell_unfold (job : lsf_job) (st : state) :
  lsf_driver_get_job_status_shell (Some job) st =
    let st_l := {| drv := drv st; env := log_event (EvLock bjobs_mutex) (env st) |} in
    if bool_decide (now st - last_bjobs_update (drv st) > bjobs_refresh_interval (drv st))
       || negb (bool_decide (is_Some (bjobs_cache (drv st) !! lsf_jobnr_char job)))
    then ((lsf_driver_update_bjobs_table ≫= λ _, stamp_refresh)
            ≫= λ _, lookup_after_refresh job) st_l
    else lookup_after_refresh job st_l.
Proof.
  unfold lsf_driver_get_job_status_shell, now.
  destruct (_ || _) eqn:Hdue.
  - cbv zeta. unfold mbind at 1 2 3, M_bind at 1 2 3.
    unfold pthread_mutex_lock, emit, with_env, time, get_driver.
    cbn [drv env log_event clock]. rewrite Hdue. reflexivity.
  - cbv zeta. unfold mbind at 1 2 3, M_bind at 1 2 3.
    unfold pthread_mutex_lock, emit, with_env, time, get_driver.
    cbn [drv env log_event clock]. rewrite Hdue. reflexivity.
Qed.

Lemma bind_ret_inv {A B} (c : M A) (k : A → M B) (st st' : state) (b : B) :
  (c ≫= k) st = (Ret b, st') →
  ∃ a st1, c st = (Ret a, st1) ∧ k a st1 = (Ret b, st').
Proof.
  unfold mbind, M_bind. destruct (c st) as [[a|msg|msg] st1]; try done.
  intros Hk. by exists a, st1.
Qed.

Lemma lookup_hit (job : lsf_job) (st : state) (status : Z) :
  bjobs_cache (drv st) !! lsf_jobnr_char job = Some status →
  now st - last_bjobs_update (drv st) ≤ bjobs_refresh_interval (drv st) →
  lsf_driver_get_job_status_shell (Some job) st =
    (Ret status,
     {| drv := drv st;
        env := log_event (EvUnlock bjobs_mutex)
                 (log_event (EvLock bjobs_mutex) (env st)) |}).
Proof.
  intros Hin Hfresh. rewrite get_job_status_shell_unfold. cbv zeta.
  rewrite bool_decide_eq_false_2 by lia.
  rewrite (bool_decide_eq_true_2 _ (mk_is_Some _ _ Hin)). cbn [orb negb].
  unfold lookup_after_refresh, mbind, M_bind, pthread_mutex_unlock, emit,
    with_env, get_driver. cbn [drv env]. by rewrite Hin.
Qed.

Lemma lookup_after_refresh_caches (job : lsf_job) (st st' : state) (status : Z) :
  lookup_after_refresh job st = (Ret status, st') →
  bjobs_cache (drv st') !! lsf_jobnr_char job = Some status.
Proof.
  unfold lookup_after_refresh. intros Hrun.
  apply bind_ret_inv in Hrun as ([] & st1 & Hunlock & Hrun).
  apply bind_ret_inv in Hrun as (d & st2 & Hget & Hrun).
  injection Hunlock as <-. injection Hget as <- <-. cbn [drv] in Hrun.
  destruct (bjobs_cache (drv st) !! lsf_jobnr_char job) as [cached|] eqn:Hc.
  - injection Hrun as <- <-. done.
  - apply bind_ret_inv in Hrun as ([] & st3 & _ & Hrun).
    apply bind_ret_inv in Hrun as (status' & st4 & _ & Hrun).
    apply bind_ret_inv in Hrun as ([] & st5 & Hstore & Hrun).
    injection Hrun as <- <-. injection Hstore as <-. cbn.
    apply lookup_insert_eq.
Qed.

Lemma lookup_caches (job : lsf_job) (st st' : state) (status : Z) :
  lsf_driver_get_job_status_shell (Some job) st = (Ret status, st') →
  bjobs_cache (drv st') !! lsf_jobnr_char job = Some status.
Proof.
  rewrite get_job_status_shell_unfold. cbv zeta.
  destruct (_ || _).
  - intros Hrun. apply bind_ret_inv in Hrun as (? & st1 & _ & Hrun).
    by apply lookup_after_refresh_caches in Hrun.
  - apply lookup_after_refresh_caches.
Qed.




End LookupFacts.

(** X5.  A lookup of a job whose key is in the cache, made no later than
    the refresh interval after the last refresh, is answered from the cache:
    it returns the cached code, takes and releases the bjobs mutex, and does
    nothing else; no command is run and the driver is unchanged. *)
Theorem lookup_served_from_cache `{codes : lsf_job_stat} (job : lsf_job)
    (st : state) (status : Z) :
  bjobs_cache (drv st) !! lsf_jobnr_char job = Some status →
  now st - last_bjobs_update (drv st) ≤ bjobs_refresh_interval (drv st) →
  lsf_driver_get_job_status_shell (Some job) st =
    (Ret status,
     {| drv := drv st;
        env := {| clock := clock (env st); spawned := spawned (env st);
                  respond := respond (env st); files := files (env st);
                  trace := trace (env st)
                           ++ [EvLock bjobs_mutex; EvUnlock bjobs_mutex] |} |}).
Proof.
  intros Hin Hfresh. rewrite (lookup_hit job st status Hin Hfresh).
  unfold log_event. cbn. by rewrite <- (assoc_L (++)).
Qed.

Lemma lookup_served_from_cache_witness :
  (@lsf_driver_get_job_status_shell lsbatch_codes (Some Fixture.job42) lookup_cached).1
    = Ret 4.
Proof.
  rewrite (@lookup_served_from_cache lsbatch_codes Fixture.job42 lookup_cached 4).
  - reflexivity.
  - vm_compute. reflexivity.
  - vm_compute. discriminate.
Defined.

(** X6.  Whatever a lookup returns for a job, it leaves in the cache under
    the key of the job, the answer of the bhist fallback included; a second
    lookup of the job by the driver it leaves, made within the refresh
    interval of the last refresh, returns the same code without running a
    command. *)
Theorem lookup_answer_is_cached `{codes : lsf_job_stat} (job : lsf_job)
    (st st' : state) (status : Z) :
  lsf_driver_get_job_status_shell (Some job) st = (Ret status, st') →
  bjobs_cache (drv st') !! lsf_jobnr_char job = Some status ∧
  ∀ w : world,
    clock w / 1000000 - last_bjobs_update (drv st') ≤ bjobs_refresh_interval (drv st') →
    ∃ w',
      lsf_driver_get_job_status_shell (Some job) {| drv := drv st'; env := w |}
        = (Ret status, {| drv := drv st'; env := w' |}) ∧
      spawned w' = spawned w.
Proof.
  intros Hrun. pose proof (lookup_caches job st st' status Hrun) as Hc.
  split; [done|]. intros w Hfresh.
  exists (log_event (EvUnlock bjobs_mutex) (log_event (EvLock bjobs_mutex) w)).
  split; [|reflexivity].
  apply (lookup_hit job {| drv := drv st'; env := w |} status); [exact Hc|exact Hfresh].
Qed.

Lemma lookup_answer_is_cached_witness :
  bjobs_cache
    (drv (@lsf_driver_get_job_status_shell lsbatch_codes (Some Fixture.job42)
            lookup_stale).2) !! "42" = Some 64.
Proof.
  apply (@lookup_answer_is_cached lsbatch_codes Fixture.job42 lookup_stale).
  vm_compute. reflexivity.
Defined.




Section RefreshStamp.
Context `{codes : lsf_job_stat}.





End RefreshStamp.



(** X28.  The token PDONE has a code in the token table, and that code has
    no entry in the conversion table: the status of a job that the cache
    holds as PDONE cannot be converted, and the lookup throws. *)
Theorem pdone_lookup_throws `{codes : lsf_job_stat} (job : lsf_job) (st : state) :
  codes_distinct →
  bjobs_cache (drv st) !! lsf_jobnr_char job = Some JOB_STAT_PDONE →
  now st - last_bjobs_update (drv st) ≤ bjobs_refresh_interval (drv st) →
  status_map !! "PDONE" = Some JOB_STAT_PDONE ∧
  (lsf_driver_get_job_status (Some job) st).1 =
    Throw "lsf_driver_convert_status: unrecognized lsf status code".
Proof.
  intros Hd Hin Hfresh. split.
  - apply elem_of_list_to_map_1;
      [ apply (bool_decide_unpack _); vm_compute; exact I
      | rewrite !elem_of_cons; tauto ].
  - unfold lsf_driver_get_job_status, lsf_driver_get_job_status_lsf,
      mbind, M_bind, lift.
    rewrite (lookup_hit job st _ Hin Hfresh). cbn [fst].
    unfold lsf_driver_convert_status.
    rewrite convert_status_map_None; [done|].
    unfold codes_distinct in Hd.
    repeat (apply NoDup_cons in Hd as [? Hd]).
    repeat match goal with
           | Hn : _ ∉ _ |- _ => rewrite !not_elem_of_cons in Hn
           end.
    destruct_and?.
    unfold convert_keys. rewrite !not_elem_of_cons.
    repeat split; first [congruence | apply not_elem_of_nil].
Qed.

Lemma pdone_lookup_throws_witness :
  (@lsf_driver_get_job_status lsbatch_codes (Some Fixture.job42) lookup_pdone).1 =
    Throw "lsf_driver_convert_status: unrecognized lsf status code".
Proof.
  apply (@pdone_lookup_throws lsbatch_codes Fixture.job42 lookup_pdone).
  - unfold codes_distinct. apply (bool_decide_unpack _). vm_compute. exact I.
  - vm_compute. reflexivity.
  - vm_compute. discriminate.
Defined.



(** ** Submission *)

Section Submit.

(** [lsf_driver_submit_job] after its call of [lsf_driver_submit_shell_job]. *)
Lemma submit_job_unfold (submit_cmd : string) (num_cpu : Z)
    (run_path jname : string) (argv : list string) (st : state) :
  submit_method (drv st) ≠ LSF_SUBMIT_INVALID →
  lsf_driver_submit_job submit_cmd num_cpu run_path jname argv st =
    match lsf_driver_submit_shell_job
            (util_alloc_filename run_path jname (Some "LSF-stdout"))
            jname submit_cmd num_cpu argv (locked_for_submit st) with
    | (Ret jobnr, st2) =>
        let d3 := set_my_jobs ({[fmt_d jobnr]} ∪ my_jobs (drv st2)) (drv st2) in
        let w3 := log_event (EvUnlock submit_lock)
                    (log_event (EvWrite (my_jobs_insert (fmt_d jobnr))) (env st2)) in
        if decide (jobnr > 0) then
          (Ret (Some (job_handle jobnr jname)),
           {| drv := d3;
              env := {| clock := clock w3; spawned := spawned w3;
                        respond := respond w3;
                        files := <[util_alloc_filename run_path LSF_JSON None
                                   := receipt jobnr]> (files w3);
                        trace := trace w3
                                 ++ [EvFile (util_alloc_filename run_path LSF_JSON None)
                                       (receipt jobnr)] |} |})
        else
          let d4 := set_error_count (error_count d3 + 1) d3 in
          let w4 := log_event (EvWrite error_count_incr) w3 in
          if decide (error_count d4 >= max_error_count d4) then
            (Exit "Maximum number of submit errors exceeded - giving up",
             {| drv := d4; env := w4 |})
          else
            (Ret None,
             {| drv := set_debug_output true d4;
                env := advance (useconds (submit_error_sleep d4))
                         (log_event (EvUsleep (submit_error_sleep d4))
                            (if debug_output d4 then w4
                             else log_event (EvWrite debug_output_on) w4)) |})
    | (Exit msg, st2) => (Exit msg, st2)
    | (Throw msg, st2) => (Throw msg, st2)
    end.
Proof.
  intros Hvalid.
  unfold lsf_driver_submit_job, lsf_driver_assert_submit_method, locked_for_submit.
  unfold mbind, M_bind, get_driver, usleep, pthread_mutex_lock, pthread_mutex_unlock,
    store, write_file, util_exit, mret, M_ret.
  unfold emit, with_env.
  cbn [drv env fst snd].
  destruct (decide (submit_method (drv st) = LSF_SUBMIT_INVALID)) as [|_]; [done|].
  destruct (lsf_driver_submit_shell_job _ _ _ _ _ _) as [[jobnr|msg|msg] st2];
    [|done..].
  cbn [drv env lsf_jobnr lsf_jobnr_char lsf_job_alloc num_exec_host exec_host].
  destruct (decide (jobnr > 0)) as [Hpos|Hpos]; [reflexivity|].
  cbn [drv env].
  destruct (decide (_ >= _)) as [Hmax|Hmax]; [reflexivity|].
  cbn [debug_output set_error_count set_my_jobs].
  destruct (debug_output (drv st2)) eqn:Hdbg; cbn [drv env].
  - f_equal. f_equal. destruct (drv st2); cbn in *; by subst.
  - reflexivity.
Qed.

(** [lsf_driver_submit_shell_job] leaves the driver alone, and adds nothing
    to the trace but the command it runs. *)
Lemma submit_shell_job_effects (lsf_stdout jname submit_cmd : string)
    (num_cpu : Z) (job_argv : list string) (st : state) :
  let r := lsf_driver_submit_shell_job lsf_stdout jname submit_cmd num_cpu job_argv st in
  drv r.2 = drv st ∧ respond (env r.2) = respond (env st) ∧
  files (env r.2) = files (env st) ∧
  ∃ evs, trace (env r.2) = trace (env st) ++ evs ∧ Forall is_spawn evs.
Proof.
  unfold lsf_driver_submit_shell_job, mbind, M_bind, get_driver, lift, fmap, M_fmap,
    spawn_blocking, mret, M_ret.
  destruct st as [d w]. cbn [drv env].
  destruct (lsf_driver_alloc_cmd d _ _ _ _ _) as [remote_argv|msg|msg];
    cbn -[lsf_job_parse_bsub_stdout];
    try (repeat split; exists []; by rewrite app_nil_r).
  repeat case_decide; cbn -[lsf_job_parse_bsub_stdout].
  - destruct (respond w _ _ _) as [out us]. cbn -[lsf_job_parse_bsub_stdout].
    repeat split. eexists [_]. split; [done|by repeat constructor].
  - destruct (respond w _ _ _) as [out us]. cbn -[lsf_job_parse_bsub_stdout].
    repeat split. eexists [_]. split; [done|by repeat constructor].
  - repeat split. exists []. by rewrite app_nil_r.
Qed.

Lemma guarded_spawns (m : mutex) (w : shared_write) (held : bool)
    (evs rest : list event) :
  Forall is_spawn evs → guarded m w held (evs ++ rest) = guarded m w held rest.
Proof.
  induction 1 as [|e evs He _ IH]; [done|]. by destruct e.
Qed.

Lemma locked_for_submit_trace (st : state) :
  drv (locked_for_submit st) = drv st ∧
  respond (env (locked_for_submit st)) = respond (env st) ∧
  files (env (locked_for_submit st)) = files (env st) ∧
  trace (env (locked_for_submit st)) =
    trace (env st) ++ [EvUsleep (submit_sleep (drv st)); EvLock submit_lock].
Proof. repeat split. cbn. by rewrite <- (assoc_L (++)). Qed.

End Submit.

(** A submission that the batch system acknowledges. *)
Lemma submit_job_success (submit_cmd : string)
    (num_cpu : Z) (run_path jname : string) (argv : list string)
    (st st2 : state) (jobnr : Z) :
  submit_method (drv st) ≠ LSF_SUBMIT_INVALID →
  lsf_driver_submit_shell_job
    (util_alloc_filename run_path jname (Some "LSF-stdout"))
    jname submit_cmd num_cpu argv (locked_for_submit st) = (Ret jobnr, st2) →
  jobnr > 0 →
  ∃ st3,
    lsf_driver_submit_job submit_cmd num_cpu run_path jname argv st
      = (Ret (Some (job_handle jobnr jname)), st3) ∧
    drv st3 = set_my_jobs ({[fmt_d jobnr]} ∪ my_jobs (drv st)) (drv st) ∧
    files (env st3) =
      <[util_alloc_filename run_path LSF_JSON None := receipt jobnr]> (files (env st)) ∧
    guarded submit_lock (my_jobs_insert (fmt_d jobnr)) false (events_since st st3) = true.
Proof.
  intros Hvalid Hshell Hpos.
  rewrite (submit_job_unfold _ _ _ _ _ _ Hvalid), Hshell. cbv zeta.
  rewrite decide_True by done. eexists. split; [reflexivity|].
  pose proof (submit_shell_job_effects
                (util_alloc_filename run_path jname (Some "LSF-stdout"))
                jname submit_cmd num_cpu argv (locked_for_submit st)) as Heff.
  rewrite Hshell in Heff. cbn [snd] in Heff.
  destruct Heff as (Hdrv & _ & Hfiles & evs & Htrace & Hspawn).
  destruct (locked_for_submit_trace st) as (Hdrv0 & _ & Hfiles0 & Htrace0).
  cbn [drv env]. unfold log_event. cbn [files clock spawned respond trace].
  rewrite Hdrv, Hdrv0, Hfiles, Hfiles0.
  split; [done|]. split; [done|].
  erewrite events_since_app.
  2: { cbn [env trace]. rewrite Htrace, Htrace0, <- !(assoc_L (++)). reflexivity. }
  cbn [app guarded]. rewrite decide_True by done.
  rewrite guarded_spawns by done. cbn [app guarded].
  rewrite !decide_True by done. done.
Qed.

(** X8.  When the submit command yields a job id above 0, the submission
    returns a handle with that id, its decimal string as the key and the job
    name; the key has been added to my_jobs while the submit lock was held,
    the error counter is as it was, and lsf_info.json in the run path holds
    the receipt with the id. *)
Theorem submit_registers_job (submit_cmd : string)
    (num_cpu : Z) (run_path jname : string) (argv : list string)
    (st st2 : state) (jobnr : Z) :
  submit_method (drv st) ≠ LSF_SUBMIT_INVALID →
  lsf_driver_submit_shell_job
    (util_alloc_filename run_path jname (Some "LSF-stdout"))
    jname submit_cmd num_cpu argv (locked_for_submit st) = (Ret jobnr, st2) →
  jobnr > 0 →
  ∃ st3,
    lsf_driver_submit_job submit_cmd num_cpu run_path jname argv st
      = (Ret (Some (job_handle jobnr jname)), st3) ∧
    drv st3 = set_my_jobs ({[fmt_d jobnr]} ∪ my_jobs (drv st)) (drv st) ∧
    files (env st3) =
      <[util_alloc_filename run_path LSF_JSON None := receipt jobnr]> (files (env st)) ∧
    guarded submit_lock (my_jobs_insert (fmt_d jobnr)) false (events_since st st3) = true.
Proof. exact (submit_job_success submit_cmd num_cpu run_path jname argv st st2 jobnr). Qed.

Lemma submit_registers_job_witness :
  ∃ st3,
    lsf_driver_submit_job "run.sh" 1 "/scratch/real-0" "job"
      [] submit_acknowledged
      = (Ret (Some (job_handle 42 "job")), st3) ∧
    my_jobs (drv st3) = {["42"]}.
Proof.
  destruct (submit_registers_job "run.sh" 1 "/scratch/real-0" "job"
              [] submit_acknowledged
              (lsf_driver_submit_shell_job "/scratch/real-0/job.LSF-stdout" "job"
                 "run.sh" 1 [] (locked_for_submit submit_acknowledged)).2 42)
    as (st3 & Hrun & Hdrv & _).
  - vm_compute. discriminate.
  - vm_compute. reflexivity.
  - lia.
  - exists st3. split; [exact Hrun|]. rewrite Hdrv. vm_compute. reflexivity.
Defined.

(** The events of a submission that succeeds: the sleep, the lock, the
    commands, the registration, the unlock and the receipt. *)
Lemma submit_job_success_trace (submit_cmd : string) (num_cpu : Z)
    (run_path jname : string) (argv : list string) (st st2 : state) (jobnr : Z) :
  submit_method (drv st) ≠ LSF_SUBMIT_INVALID →
  lsf_driver_submit_shell_job
    (util_alloc_filename run_path jname (Some "LSF-stdout"))
    jname submit_cmd num_cpu argv (locked_for_submit st) = (Ret jobnr, st2) →
  jobnr > 0 →
  ∃ commands,
    Forall is_spawn commands ∧
    events_since st
      (lsf_driver_submit_job submit_cmd num_cpu run_path jname argv st).2 =
      [EvUsleep (submit_sleep (drv st)); EvLock submit_lock] ++ commands ++
      [EvWrite (my_jobs_insert (fmt_d jobnr)); EvUnlock submit_lock;
       EvFile (util_alloc_filename run_path LSF_JSON None) (receipt jobnr)].
Proof.
  intros Hvalid Hshell Hpos.
  rewrite (submit_job_unfold _ _ _ _ _ _ Hvalid), Hshell. cbv zeta.
  rewrite decide_True by done.
  pose proof (submit_shell_job_effects
                (util_alloc_filename run_path jname (Some "LSF-stdout"))
                jname submit_cmd num_cpu argv (locked_for_submit st)) as Heff.
  rewrite Hshell in Heff. cbn [snd] in Heff.
  destruct Heff as (_ & _ & _ & evs & Htrace & Hspawn).
  destruct (locked_for_submit_trace st) as (_ & _ & _ & Htrace0).
  exists evs. split; [done|].
  apply events_since_app. cbn [snd env trace]. unfold log_event. cbn [trace].
  rewrite Htrace, Htrace0, <- !(assoc_L (++)). reflexivity.
Qed.

(** C5.  When the submit command yields a job id above 0, the submission
    returns a job handle whose number is that id; the decimal string of the
    id is in my_jobs, registered while the submit lock was held; and the file
    lsf_info.json of the run path holds the receipt, the JSON object with the
    one member job_id and the id as its value. *)
Theorem submit_success_receipt (submit_cmd : string) (num_cpu : Z)
    (run_path jname : string) (argv : list string) (st st2 : state) (jobnr : Z) :
  submit_method (drv st) ≠ LSF_SUBMIT_INVALID →
  lsf_driver_submit_shell_job
    (util_alloc_filename run_path jname (Some "LSF-stdout"))
    jname submit_cmd num_cpu argv (locked_for_submit st) = (Ret jobnr, st2) →
  jobnr > 0 →
  ∃ job st3,
    lsf_driver_submit_job submit_cmd num_cpu run_path jname argv st
      = (Ret (Some job), st3) ∧
    lsf_jobnr job = jobnr ∧
    lsf_jobnr_char job = fmt_d jobnr ∧
    fmt_d jobnr ∈ my_jobs (drv st3) ∧
    EvWrite (my_jobs_insert (fmt_d jobnr)) ∈ events_since st st3 ∧
    guarded submit_lock (my_jobs_insert (fmt_d jobnr)) false (events_since st st3)
      = true ∧
    files (env st3) !! (run_path +:+ "/" +:+ "lsf_info.json") =
      Some ("{" +:+ String CStr.dquote "job_id" +:+ String CStr.dquote " : "
            +:+ fmt_d jobnr +:+ "}" +:+ String Scan.newline "").
Proof.
  intros Hvalid Hshell Hpos.
  destruct (submit_job_success submit_cmd num_cpu run_path jname argv st st2 jobnr
              Hvalid Hshell Hpos) as (st3 & Hrun & Hdrv & Hfiles & Hguard).
  destruct (submit_job_success_trace submit_cmd num_cpu run_path jname argv
              st st2 jobnr Hvalid Hshell Hpos) as (commands & Hspawn & Hevents).
  rewrite Hrun in Hevents. cbn [snd] in Hevents.
  exists (job_handle jobnr jname), st3.
  split; [done|]. split; [done|]. split; [done|]. split.
  { rewrite Hdrv. cbn [my_jobs set_my_jobs]. set_solver. }
  split.
  { rewrite Hevents, !elem_of_app, !elem_of_cons. tauto. }
  split; [done|].
  rewrite Hfiles.
  change (util_alloc_filename run_path LSF_JSON None)
    with (run_path +:+ "/" +:+ "lsf_info.json" +:+ "").
  rewrite CStrFacts.app_nil_r. apply lookup_insert_eq.
Qed.

Lemma submit_success_receipt_witness :
  ∃ job st3,
    lsf_driver_submit_job "run.sh" 1 "/scratch/real-0" "job" [] submit_acknowledged
      = (Ret (Some job), st3) ∧
    lsf_jobnr job = 42 ∧
    files (env st3) !! "/scratch/real-0/lsf_info.json" =
      Some ("{" +:+ String CStr.dquote "job_id" +:+ String CStr.dquote " : 42}"
            +:+ String Scan.newline "").
Proof.
  destruct (submit_success_receipt "run.sh" 1 "/scratch/real-0" "job"
              [] submit_acknowledged
              (lsf_driver_submit_shell_job "/scratch/real-0/job.LSF-stdout" "job"
                 "run.sh" 1 [] (locked_for_submit submit_acknowledged)).2 42)
    as (job & st3 & Hrun & Hnr & _ & _ & _ & _ & Hfile).
  - vm_compute. discriminate.
  - vm_compute. reflexivity.
  - lia.
  - exists job, st3. split; [exact Hrun|]. split; [exact Hnr|]. exact Hfile.
Defined.





Section Retry.
Variables (submit_cmd : string) (num_cpu : Z) (run_path jname : string)
  (argv : list string).

Lemma submit_shell_job_silent (st : state) :
  submissions_fail submit_cmd num_cpu run_path jname argv st →
  ∃ st2,
    lsf_driver_submit_shell_job
      (util_alloc_filename run_path jname (Some "LSF-stdout"))
      jname submit_cmd num_cpu argv (locked_for_submit st) = (Ret 0, st2).
Proof.
  intros (Hvalid & [remote_argv Hcmd] & Hsilent).
  unfold lsf_driver_submit_shell_job, mbind, M_bind, get_driver, lift, fmap,
    M_fmap, spawn_blocking, mret, M_ret.
  unfold locked_for_submit, pthread_mutex_lock, usleep, emit, with_env.
  cbn [drv env snd]. rewrite Hcmd.
  repeat case_decide; try by eexists.
  all: cbn -[lsf_job_parse_bsub_stdout].
  all: match goal with
       | |- context [respond ?w ?n ?c ?a] =>
           destruct (respond w n c a) as [out us] eqn:Hresp;
           pose proof (Hsilent n c a) as Hout;
           rewrite Hresp in Hout
       end.
  all: simpl in Hout; subst out; cbn -[lsf_job_parse_bsub_stdout]; by eexists.
Qed.

(** One failing submission, below the maximum and at it. *)
Lemma submit_job_silent (st : state) :
  submissions_fail submit_cmd num_cpu run_path jname argv st →
  let r := lsf_driver_submit_job submit_cmd num_cpu run_path jname argv st in
  error_count (drv r.2) = error_count (drv st) + 1 ∧
  max_error_count (drv r.2) = max_error_count (drv st) ∧
  r.1 = (if decide (error_count (drv st) + 1 >= max_error_count (drv st))
         then Exit "Maximum number of submit errors exceeded - giving up"
         else Ret None) ∧
  submissions_fail submit_cmd num_cpu run_path jname argv r.2.
Proof.
  intros Hfail. pose proof Hfail as (Hvalid & [remote_argv Hcmd] & Hsilent).
  destruct (submit_shell_job_silent st Hfail) as [st2 Hshell].
  cbv zeta. rewrite (submit_job_unfold _ _ _ _ _ _ Hvalid), Hshell. cbv zeta.
  rewrite (decide_False (P := 0 > 0)) by lia.
  pose proof (submit_shell_job_effects
                (util_alloc_filename run_path jname (Some "LSF-stdout"))
                jname submit_cmd num_cpu argv (locked_for_submit st)) as Heff.
  rewrite Hshell in Heff. cbn [snd] in Heff.
  destruct Heff as (Hdrv & Hresp & _).
  destruct (locked_for_submit_trace st) as (Hdrv0 & Hresp0 & _).
  rewrite Hdrv0 in Hdrv. rewrite Hresp0 in Hresp.
  cbn [error_count max_error_count set_error_count set_my_jobs].
  rewrite Hdrv.
  case_decide as Hmax; cbn [fst snd drv env].
  - repeat split; try done.
    + exists remote_argv. rewrite <- Hcmd. reflexivity.
    + intros n cmd args. cbn. rewrite Hresp. apply Hsilent.
  - repeat split; try done.
    + exists remote_argv. rewrite <- Hcmd. reflexivity.
    + intros n cmd args. destruct (debug_output _); cbn; rewrite Hresp; apply Hsilent.
Qed.

Lemma submit_attempts_below_maximum (n : nat) (st : state) :
  submissions_fail submit_cmd num_cpu run_path jname argv st →
  error_count (drv st) + Z.of_nat n < max_error_count (drv st) →
  ∃ st',
    submit_attempts n submit_cmd num_cpu run_path jname argv st
      = (Ret (replicate n None), st') ∧
    error_count (drv st') = error_count (drv st) + Z.of_nat n ∧
    max_error_count (drv st') = max_error_count (drv st) ∧
    submissions_fail submit_cmd num_cpu run_path jname argv st'.
Proof.
  revert st. induction n as [|n IH]; intros st Hfail Hbelow.
  - exists st. split; [done|]. split; [lia|]. by split.
  - destruct (submit_job_silent st Hfail) as (Hcount & Hmaxeq & Hout & Hfail').
    rewrite decide_False in Hout by lia.
    destruct (lsf_driver_submit_job _ _ _ _ _ st) as [o st1] eqn:Hrun.
    cbn [fst snd] in *. subst o.
    destruct (IH st1 Hfail') as (st' & Hrest & Hcount' & Hmaxeq' & Hfail'');
      [lia|].
    exists st'. cbn [submit_attempts]. unfold mbind, M_bind.
    rewrite Hrun, Hrest. split; [done|]. split; [lia|]. split; [congruence|done].
Qed.

End Retry.

(** Submissions in a row, up to the maximum of errors. *)
Lemma submit_attempts_budget (submit_cmd : string) (num_cpu : Z)
    (run_path jname : string) (argv : list string) (st : state) (n : nat) :
  submissions_fail submit_cmd num_cpu run_path jname argv st →
  error_count (drv st) + Z.of_nat n = max_error_count (drv st) - 1 →
  (∃ st',
     submit_attempts n submit_cmd num_cpu run_path jname argv st
       = (Ret (replicate n None), st') ∧
     error_count (drv st') = max_error_count (drv st) - 1) ∧
  ∃ st'',
    submit_attempts (S n) submit_cmd num_cpu run_path jname argv st
      = (Exit "Maximum number of submit errors exceeded - giving up", st'').
Proof.
  intros Hfail Hbudget.
  destruct (submit_attempts_below_maximum submit_cmd num_cpu run_path jname argv
              n st Hfail) as (st' & Hrun & Hcount & Hmaxeq & Hfail'); [lia|].
  split; [exists st'; split; [done|lia]|].
  destruct (submit_job_silent submit_cmd num_cpu run_path jname argv st' Hfail')
    as (_ & _ & Hout & _).
  rewrite decide_True in Hout by lia.
  destruct (lsf_driver_submit_job _ _ _ _ _ st') as [o st''] eqn:Hlast.
  cbn [fst] in Hout. subst o. exists st''.
  clear Hcount Hmaxeq Hbudget Hfail Hfail'.
  revert st Hrun. induction n as [|n IH]; intros st Hrun.
  - injection Hrun as <-. cbn [submit_attempts]. unfold mbind, M_bind.
    by rewrite Hlast.
  - cbn [submit_attempts] in Hrun. apply bind_ret_inv in Hrun as (j & st1 & Hfirst & Hrun).
    apply bind_ret_inv in Hrun as (rest & st2 & Hrest & Hret).
    injection Hret as -> -> <-.
    change (submit_attempts (S (S n)) submit_cmd num_cpu run_path jname argv st)
      with ((lsf_driver_submit_job submit_cmd num_cpu run_path jname argv ≫= λ job,
               submit_attempts (S n) submit_cmd num_cpu run_path jname argv ≫= λ rest,
               mret (job :: rest)) st).
    unfold mbind at 1, M_bind at 1. rewrite Hfirst.
    unfold mbind at 1, M_bind at 1. by rewrite (IH st1 Hrest).
Qed.

(** X10.  The retry budget.  While the batch system acknowledges nothing,
    [n] submissions in a row all return NULL and leave the error counter [n]
    higher, as long as the counter stays below the maximum; the submission
    that brings the counter to the maximum ends the process. *)
Theorem submit_gives_up_at_maximum (submit_cmd : string) (num_cpu : Z)
    (run_path jname : string) (argv : list string) (st : state) (n : nat) :
  submissions_fail submit_cmd num_cpu run_path jname argv st →
  error_count (drv st) + Z.of_nat n = max_error_count (drv st) - 1 →
  (∃ st',
     submit_attempts n submit_cmd num_cpu run_path jname argv st
       = (Ret (replicate n None), st') ∧
     error_count (drv st') = max_error_count (drv st) - 1) ∧
  ∃ st'',
    submit_attempts (S n) submit_cmd num_cpu run_path jname argv st
      = (Exit "Maximum number of submit errors exceeded - giving up", st'').
Proof. exact (submit_attempts_budget submit_cmd num_cpu run_path jname argv st n). Qed.

Lemma submit_gives_up_at_maximum_witness :
  ∃ st'',
    submit_attempts 3 "run.sh" 1 "/scratch/real-0" "job" [] submit_silent
      = (Exit "Maximum number of submit errors exceeded - giving up", st'').
Proof.
  apply (submit_gives_up_at_maximum "run.sh" 1 "/scratch/real-0" "job" []
           submit_silent 2).
  - split; [vm_compute; discriminate|]. split.
    + eexists. vm_compute. reflexivity.
    + intros n cmd args. reflexivity.
  - vm_compute. reflexivity.
Defined.





(** ** Printing and reading integers *)

Module ScanFacts.
Import CStr Scan CStrFacts.

Lemma pretty_N_go_app (x : N) (s t : string) :
  pretty_N_go x s +:+ t = pretty_N_go x (s +:+ t).
Proof.
  revert s. induction (N.lt_wf_0 x) as [x _ IH]; intros s.
  destruct (decide (0 < x)%N) as [Hpos|Hzero].
  - rewrite (pretty_N_go_step x s), (pretty_N_go_step x (s +:+ t)) by done.
    rewrite IH by (apply N.div_lt; [done|lia]). reflexivity.
  - assert (x = 0%N) as -> by lia. by rewrite !pretty_N_go_0.
Qed.

Lemma pretty_N_char_digit (d : N) :
  (d < 10)%N →
  Ascii.is_nat (pretty_N_char d) = Some (N.to_nat d) ∧
  isspace (pretty_N_char d) = false ∧
  pretty_N_char d ≠ "-"%char ∧ pretty_N_char d ≠ "+"%char.
Proof.
  intros Hd.
  assert (d = 0 ∨ d = 1 ∨ d = 2 ∨ d = 3 ∨ d = 4 ∨ d = 5 ∨ d = 6 ∨ d = 7
          ∨ d = 8 ∨ d = 9)%N as Hcases by lia.
  destruct_or!; subst d; by repeat split.
Qed.

Lemma pretty_N_go_head (x : N) (s : string) :
  (0 < x)%N →
  ∃ d t, (d < 10)%N ∧ pretty_N_go x s = String (pretty_N_char d) t.
Proof.
  revert s. induction (N.lt_wf_0 x) as [x _ IH]; intros s Hpos.
  rewrite pretty_N_go_step by done.
  destruct (decide (0 < x `div` 10)%N) as [Hdiv|Hdiv].
  - apply IH; first [done | by apply N.div_lt].
  - apply N.nlt_ge, N.le_0_r in Hdiv. rewrite Hdiv, pretty_N_go_0.
    exists (x `mod` 10)%N, s. split; [|done]. by apply N.mod_lt.
Qed.

(** Reading back what [pretty_N_go] has printed in front of [s]. *)
Lemma span_digits_pretty (x : N) (s : string) (acc : Z) (k : nat) :
  ∃ j : nat,
    span_digits acc k (pretty_N_go x s) =
      span_digits (acc * 10 ^ Z.of_nat j + Z.of_N x) (k + j) s ∧
    ((0 < x)%N → (0 < j)%nat).
Proof.
  revert s acc k. induction (N.lt_wf_0 x) as [x _ IH]; intros s acc k.
  destruct (decide (0 < x)%N) as [Hpos|Hzero].
  - rewrite pretty_N_go_step by done.
    destruct (IH (x `div` 10)%N) with
      (s := String (pretty_N_char (x `mod` 10)) s) (acc := acc) (k := k)
      as (j & Hspan & _); [apply N.div_lt; [done|lia]|].
    exists (S j). split; [|lia]. rewrite Hspan. cbn [span_digits].
    destruct (pretty_N_char_digit (x `mod` 10)) as (-> & _);
      [by apply N.mod_lt|].
    f_equal; [|lia].
    rewrite Nat2Z.inj_succ, Z.pow_succ_r by lia.
    rewrite N_nat_Z.
    pose proof (N.div_mod x 10 ltac:(done)) as Hx.
    apply (f_equal Z.of_N) in Hx. rewrite N2Z.inj_add, N2Z.inj_mul in Hx.
    change (Z.of_N 10) with 10 in Hx. lia.
  - assert (x = 0%N) as -> by lia. exists 0%nat. rewrite pretty_N_go_0.
    split; [|lia]. f_equal; [cbn; lia|lia].
Qed.

Lemma span_digits_stop (acc : Z) (k : nat) (s : string) :
  no_digit_ahead s → span_digits acc k s = (acc, k, s).
Proof. destruct s as [|c s]; [done|]. cbn. by intros ->. Qed.

Lemma int_cast_small (n : Z) : is_int n → int_cast (long_clamp n) = n.
Proof.
  unfold is_int, int_cast, long_clamp. intros Hn.
  rewrite Z.min_r, Z.max_r by lia.
  rewrite Z.mod_small by lia. lia.
Qed.

(** [%d] reads back what [%d] has printed. *)
Lemma scan_d_fmt_d (n : Z) (rest : string) :
  is_int n → no_digit_ahead rest →
  scan_d (fmt_d n +:+ rest) = Some (n, rest).
Proof.
  intros Hint Hrest. unfold fmt_d, pretty, pretty_Z.
  destruct n as [|p|p].
  - unfold scan_d. rewrite app_cons, app_nil_l'.
    destruct rest as [|c rest]; cbn in *; [done|]. by rewrite Hrest.
  - unfold pretty, pretty_positive, pretty, pretty_N.
    rewrite decide_False by done. rewrite pretty_N_go_app, app_nil_l'.
    destruct (pretty_N_go_head (N.pos p) rest) as (d & t & Hd & Hhead); [done|].
    destruct (pretty_N_char_digit d Hd) as (_ & Hsp & Hminus & Hplus).
    unfold scan_d.
    assert (Hskip : skip_ws (pretty_N_go (N.pos p) rest) = pretty_N_go (N.pos p) rest).
    { rewrite Hhead. cbn. by rewrite Hsp. }
    rewrite Hskip.
    assert (Hsign :
      match pretty_N_go (N.pos p) rest with
      | String "-" s' => (true, s')
      | String "+" s' => (false, s')
      | _ => (false, pretty_N_go (N.pos p) rest)
      end = (false, pretty_N_go (N.pos p) rest)).
    { rewrite Hhead.
      destruct (pretty_N_char d) as [[] [] [] [] [] [] [] []]; done. }
    rewrite Hsign.
    destruct (span_digits_pretty (N.pos p) rest 0 0) as (j & Hspan & Hj).
    rewrite Hspan, span_digits_stop by done.
    rewrite decide_False by (specialize (Hj ltac:(done)); lia).
    rewrite Z.mul_0_l, Z.add_0_l. change (Z.of_N (N.pos p)) with (Z.pos p).
    by rewrite int_cast_small.
  - unfold pretty, pretty_positive, pretty, pretty_N.
    rewrite decide_False by done.
    rewrite app_assoc, pretty_N_go_app, app_nil_l'.
    unfold scan_d. cbn [skip_ws String.app append]. 
    change ("-" +:+ pretty_N_go (N.pos p) rest)
      with (String "-" (pretty_N_go (N.pos p) rest)).
    cbn [skip_ws isspace Ascii.is_space].
    destruct (span_digits_pretty (N.pos p) rest 0 0) as (j & Hspan & Hj).
    rewrite Hspan, span_digits_stop by done.
    rewrite decide_False by (specialize (Hj ltac:(done)); lia).
    rewrite Z.mul_0_l, Z.add_0_l. change (Z.of_N (N.pos p)) with (Z.pos p).
    change (- Z.pos p) with (Z.neg p).
    by rewrite int_cast_small.
Qed.

End ScanFacts.

Module TextFacts.
Import CStr Scan CStrFacts ScanFacts.

Lemma take_app_length (s t : string) : take (String.length s) (s +:+ t) = s.
Proof. induction s as [|c s IH]; [by destruct t|]. cbn. by rewrite app_cons, IH. Qed.

Lemma drop_app_length (s t : string) : drop (String.length s) (s +:+ t) = t.
Proof. induction s as [|c s IH]; [by destruct t|]. cbn. by rewrite app_cons. Qed.

Lemma app_cons_ne_nil (s : string) (c : ascii) (t : string) : s +:+ String c t ≠ "".
Proof. by destruct s. Qed.

(** The first occurrence of a character that the text before it lacks. *)
Lemma strstr_char (a : ascii) (pre rest : string) :
  all_chars (λ c, negb (bool_decide (c = a))) pre = true →
  strstr (pre +:+ String a rest) (String a "") = Some (String.length pre).
Proof.
  induction pre as [|c pre IH]; intros Hpre.
  - rewrite app_nil_l'. cbn. by rewrite decide_True.
  - cbn in Hpre. apply andb_true_iff in Hpre as [Hc Hpre].
    apply negb_true_iff, bool_decide_eq_false in Hc.
    rewrite app_cons. cbn [strstr is_prefix].
    rewrite decide_False by congruence. rewrite IH by done. done.
Qed.

Lemma strstr_char_none (a : ascii) (s : string) :
  all_chars (λ c, negb (bool_decide (c = a))) s = true →
  strstr s (String a "") = None.
Proof.
  induction s as [|c s IH]; intros Hs; [done|].
  cbn in Hs. apply andb_true_iff in Hs as [Hc Hs].
  apply negb_true_iff, bool_decide_eq_false in Hc.
  cbn [strstr is_prefix]. rewrite decide_False by congruence.
  by rewrite IH.
Qed.

Lemma all_chars_pretty_N_go (P : ascii → bool) (x : N) (s : string) :
  (∀ d, (d < 10)%N → P (pretty_N_char d) = true) →
  all_chars P s = true → all_chars P (pretty_N_go x s) = true.
Proof.
  intros HP. revert s. induction (N.lt_wf_0 x) as [x _ IH]; intros s Hs.
  destruct (decide (0 < x)%N) as [Hpos|Hzero].
  - rewrite pretty_N_go_step by done. apply IH; [by apply N.div_lt|].
    cbn. rewrite Hs, HP; [done|]. by apply N.mod_lt.
  - apply N.nlt_ge, N.le_0_r in Hzero. by rewrite Hzero, pretty_N_go_0.
Qed.

(** The characters [%d] prints: digits and the minus sign. *)
Lemma all_chars_fmt_d (P : ascii → bool) (n : Z) :
  (∀ d, (d < 10)%N → P (pretty_N_char d) = true) → P "-"%char = true →
  all_chars P (fmt_d n) = true.
Proof.
  intros HP Hminus. unfold fmt_d, pretty, pretty_Z. destruct n as [|p|p].
  - specialize (HP 0%N ltac:(lia)). cbn in HP |- *. by rewrite HP.
  - unfold pretty, pretty_positive, pretty, pretty_N.
    rewrite decide_False by done. by apply all_chars_pretty_N_go.
  - unfold pretty, pretty_positive, pretty, pretty_N.
    rewrite decide_False by done. rewrite app_cons, app_nil_l'. cbn.
    rewrite Hminus. by apply all_chars_pretty_N_go.
Qed.

Lemma digit_char_is_not (a : ascii) (d : N) :
  Ascii.is_nat a = None → (d < 10)%N →
  negb (bool_decide (pretty_N_char d = a)) = true.
Proof.
  intros Ha Hd. apply negb_true_iff, bool_decide_eq_false. intros <-.
  destruct (pretty_N_char_digit d Hd) as (Hnat & _). congruence.
Qed.

Lemma util_sscanf_int_fmt_d (n : Z) : is_int n → util_sscanf_int (fmt_d n) = Some n.
Proof.
  intros Hn. unfold util_sscanf_int.
  rewrite <- (app_nil_r (fmt_d n)), scan_d_fmt_d by done. done.
Qed.

Lemma skip_ws_word (w r : string) : is_word w → skip_ws (w +:+ r) = w +:+ r.
Proof.
  intros [Hne Hw]. destruct w as [|c w]; [done|].
  cbn in Hw. apply andb_true_iff in Hw as [Hc _]. apply negb_true_iff in Hc.
  rewrite app_cons. cbn. by rewrite Hc.
Qed.

Lemma span_token_word (w r : string) :
  all_chars (λ c, negb (isspace c)) w = true → space_ahead r →
  span_token (w +:+ r) = (w, r).
Proof.
  intros Hw Hr. induction w as [|c w IH].
  - rewrite app_nil_l'. destruct r as [|c r]; [done|]. cbn in *. by rewrite Hr.
  - cbn in Hw. apply andb_true_iff in Hw as [Hc Hw]. apply negb_true_iff in Hc.
    rewrite app_cons. cbn [span_token]. rewrite Hc, IH by done. done.
Qed.

(** [%s] after a blank reads the word that follows it, when the word fits
    the array. *)
Lemma scan_s_word (size : nat) (w r : string) :
  is_word w → (String.length w < size)%nat → space_ahead r →
  scan_s size (" " +:+ w +:+ r) = Matched (w, r).
Proof.
  intros Hw Hsize Hr. unfold scan_s. rewrite app_cons, app_nil_l'.
  cbn [skip_ws isspace Ascii.is_space].
  rewrite skip_ws_word by done.
  rewrite span_token_word by (done || apply Hw).
  rewrite decide_False by apply Hw.
  rewrite decide_False by lia. done.
Qed.

End TextFacts.

(** X11.  The acknowledgment of bsub is read back: from a stdout file with
    the decimal print of a job id other than 0 between the first [<] and the
    [>] after it, [lsf_job_parse_bsub_stdout] returns that id, whatever
    comes before and after. *)
Theorem parse_bsub_reads_job_id (bsub_cmd : option string) (before after : string)
    (jobid : Z) :
  all_chars (λ c, negb (bool_decide (c = "<"%char))) before = true →
  is_int jobid → jobid ≠ 0 →
  lsf_job_parse_bsub_stdout bsub_cmd
    (Some (before +:+ "<" +:+ fmt_d jobid +:+ ">" +:+ after)) = Ret jobid.
Proof.
  intros Hbefore Hint Hnz. unfold lsf_job_parse_bsub_stdout.
  rewrite (CStrFacts.app_cons "<" "" _), CStrFacts.app_nil_l'.
  rewrite decide_False by apply TextFacts.app_cons_ne_nil.
  rewrite TextFacts.strstr_char by done.
  cbv zeta.
  assert (Hdrop : CStr.drop (S (String.length before))
                    (before +:+ String "<" (fmt_d jobid +:+ ">" +:+ after))
                  = fmt_d jobid +:+ ">" +:+ after).
  { clear. induction before as [|c before IH]; [done|].
    rewrite CStrFacts.app_cons. exact IH. }
  rewrite Hdrop.
  rewrite (CStrFacts.app_cons ">" "" _), CStrFacts.app_nil_l'.
  rewrite TextFacts.strstr_char.
  2: { apply TextFacts.all_chars_fmt_d; [|done].
       intros d Hd. by apply TextFacts.digit_char_is_not. }
  rewrite TextFacts.take_app_length, TextFacts.util_sscanf_int_fmt_d by done.
  cbn [default from_option]. by rewrite decide_False.
Qed.

Lemma parse_bsub_reads_job_id_witness :
  lsf_job_parse_bsub_stdout (Some "bsub")
    (Some ("Job " +:+ "<" +:+ fmt_d 42 +:+ ">" +:+
           " is submitted to default queue <normal>.")) = Ret 42.
Proof.
  apply (parse_bsub_reads_job_id (Some "bsub") "Job " 
           " is submitted to default queue <normal>." 42).
  - reflexivity.
  - unfold is_int. lia.
  - discriminate.
Defined.

(** X12.  [lsf_job_parse_bsub_stdout] returns 0 only when there is nothing
    to read, the stdout file missing or empty; given any text without an id
    it aborts the process instead of returning. *)
Theorem parse_bsub_zero_iff_nothing (bsub_cmd : option string)
    (stdout_file : option string) :
  (lsf_job_parse_bsub_stdout bsub_cmd stdout_file = Ret 0
     ↔ stdout_file = None ∨ stdout_file = Some "") ∧
  (∀ content,
     stdout_file = Some content → content ≠ "" →
     all_chars (λ c, negb (bool_decide (c = "<"%char))) content = true →
     lsf_job_parse_bsub_stdout bsub_cmd stdout_file
       = Exit "lsf_job_parse_bsub_stdout: ").
Proof.
  split; [split|].
  - unfold lsf_job_parse_bsub_stdout. destruct stdout_file as [content|]; [|by left].
    case_decide as Hempty; [intros _; right; by subst|].
    cbv zeta. case_decide as Hz; [done|]. intros [= Hj]. done.
  - by intros [->| ->].
  - intros content -> Hne Hno. unfold lsf_job_parse_bsub_stdout.
    rewrite decide_False by done.
    by rewrite TextFacts.strstr_char_none.
Qed.

(** X13.  A row of the bjobs listing that starts with the decimal print of a
    job id, followed by a user of fewer than 32 characters and a status
    token of fewer than 16, the sizes of the two arrays, is read by the
    refresher as that id, user and token; the cache key it computes is the
    key under which [lsf_driver_submit_job] has registered the job. *)
Theorem listed_row_read_back (id : Z) (user token rest jname : string) :
  is_int id →
  is_word user → (String.length user < 32)%nat →
  is_word token → (String.length token < 16)%nat →
  space_ahead rest →
  Scan.sscanf_d_s_s (fmt_d id +:+ " " +:+ user +:+ " " +:+ token +:+ rest)
    = Scan.Matched (id, user, token) ∧
  row_key <$> read_row (fmt_d id +:+ " " +:+ user +:+ " " +:+ token +:+ rest)
    = Some (lsf_jobnr_char (job_handle id jname)).
Proof.
  intros Hid Huser Hulen Htoken Htlen Hrest.
  assert (Hscan : Scan.sscanf_d_s_s
                    (fmt_d id +:+ " " +:+ user +:+ " " +:+ token +:+ rest)
                  = Scan.Matched (id, user, token)).
  { unfold Scan.sscanf_d_s_s.
    rewrite ScanFacts.scan_d_fmt_d by done.
    cbn [mbind Scan.scanned_bind Scan.of_option].
    rewrite TextFacts.scan_s_word by done. cbn [mbind Scan.scanned_bind].
    rewrite TextFacts.scan_s_word by done. done. }
  split; [done|]. unfold read_row. by rewrite Hscan.
Qed.

Lemma listed_row_read_back_witness :
  Scan.sscanf_d_s_s (fmt_d 42 +:+ " " +:+ "alice" +:+ " " +:+ "RUN" +:+ " normal")
    = Scan.Matched (42, "alice", "RUN").
Proof.
  apply (listed_row_read_back 42 "alice" "RUN" " normal" "job").
  - unfold is_int. lia.
  - by split.
  - simpl. lia.
  - by split.
  - simpl. lia.
  - reflexivity.
Defined.

Module SampleFacts.
Import CStr Scan CStrFacts.





End SampleFacts.




(** ** Composition of the resource request *)

Module ComposeFacts.
Import CStr CStrFacts TextFacts.

Lemma is_prefix_self_app (p t : string) : is_prefix p (p +:+ t) = true.
Proof.
  induction p as [|a p IH]; [done|]. rewrite app_cons. cbn.
  by rewrite decide_True.
Qed.

(** No occurrence of "select[" starts in a text that lacks one and ends in a
    "select[" put after it: the bracket would have to meet a letter. *)
Lemma is_prefix_select_straddle (p r : string) :
  p ≠ "" → is_prefix "select[" p = false →
  is_prefix "select[" (p +:+ "select[" +:+ r) = false.
Proof.
  intros Hne Hp.
  destruct p as [|c1 [|c2 [|c3 [|c4 [|c5 [|c6 [|c7 p]]]]]]]; [done|..];
    rewrite ?app_cons, ?app_nil_l'; cbn in *; repeat (case_decide; try done).
Qed.

Lemma strstr_select (pre r : string) :
  strstr pre "select[" = None →
  strstr (pre +:+ "select[" +:+ r) "select[" = Some (String.length pre).
Proof.
  induction pre as [|c pre IH]; intros Hpre.
  - rewrite app_nil_l', !app_cons, app_nil_l'. reflexivity.
  - cbn [strstr] in Hpre.
    destruct (is_prefix "select[" (String c pre)) eqn:Hp; [done|].
    destruct (strstr pre "select[") eqn:Hs; [done|].
    change (strstr (String c pre +:+ "select[" +:+ r) "select[")
      with (if is_prefix "select[" (String c pre +:+ "select[" +:+ r)
            then Some 0%nat
            else S <$> strstr (pre +:+ "select[" +:+ r) "select[").
    rewrite is_prefix_select_straddle by done. by rewrite IH.
Qed.

Lemma set_char_app_length (s t : string) (a c : ascii) :
  set_char (String.length s) c (s +:+ String a t) = s +:+ String c t.
Proof. induction s as [|b s IH]; [done|]. rewrite !app_cons. cbn. by rewrite IH. Qed.

Lemma join_cons (sep x : string) (l : list string) :
  l ≠ [] → join sep (x :: l) = x +:+ sep +:+ join sep l.
Proof. by destruct l. Qed.

End ComposeFacts.

(** The composed request for a template with a select clause. *)
Lemma compose_spliced (driver : lsf_driver) (before body after : string) :
  resource_request driver
    = Some (before +:+ "select[" +:+ body +:+ "]" +:+ after) →
  CStr.strstr before "select[" = None →
  all_chars (λ c, negb (bool_decide (c = "]"%char))) body = true →
  exclude_hosts driver ≠ [] →
  alloc_resource_string driver
    = Ret (Some (before +:+ "select["
                 +:+ CStr.join " && " (body :: (exclusion <$> exclude_hosts driver))
                 +:+ "]" +:+ " " +:+ after)).
Proof.
  intros Hreq Hbefore Hbody Hhosts. unfold alloc_resource_string.
  destruct (exclude_hosts driver) as [|host hosts] eqn:Hex; [done|].
  rewrite Hreq. unfold alloc_composed_resource_request. rewrite Hreq.
  rewrite ComposeFacts.strstr_select by done.
  rewrite TextFacts.drop_app_length.
  rewrite <- (CStrFacts.app_assoc "select[" body).
  rewrite (CStrFacts.app_cons "]" "" after), CStrFacts.app_nil_l'.
  rewrite TextFacts.strstr_char.
  2: { change ("select[" +:+ body)
         with (String "s" (String "e" (String "l" (String "e" (String "c"
                (String "t" (String "[" body))))))).
       cbn. exact Hbody. }
  cbv zeta.
  rewrite <- (CStrFacts.app_length before ("select[" +:+ body)).
  rewrite <- (CStrFacts.app_assoc before ("select[" +:+ body)).
  rewrite ComposeFacts.set_char_app_length.
  rewrite TextFacts.take_app_length, TextFacts.drop_app_length.
  rewrite ComposeFacts.join_cons by done.
  cbn [fmap outcome_fmap]. f_equal. f_equal.
  rewrite !CStrFacts.app_assoc. reflexivity.
Qed.

(** X14.  With hosts excluded and a template that has a select clause, the
    composed request is the template with the exclusion predicates, one per
    host in the order of the hosts, joined by " && " to what the clause
    holds; the text before the clause and the text after it are kept, a
    blank being added after the clause. *)
Theorem select_clause_spliced (driver : lsf_driver) (before body after : string) :
  resource_request driver
    = Some (before +:+ "select[" +:+ body +:+ "]" +:+ after) →
  CStr.strstr before "select[" = None →
  all_chars (λ c, negb (bool_decide (c = "]"%char))) body = true →
  exclude_hosts driver ≠ [] →
  alloc_resource_string driver
    = Ret (Some (before +:+ "select["
                 +:+ CStr.join " && " (body :: (exclusion <$> exclude_hosts driver))
                 +:+ "]" +:+ " " +:+ after)).
Proof. exact (compose_spliced driver before body after). Qed.

Lemma select_clause_spliced_witness :
  alloc_resource_string (driver_with_resources LSF_SUBMIT_LOCAL_SHELL)
    = Ret (Some
        "span[hosts=1] select[mem>100 && hname!='node1' && hname!='node2']  rusage[mem=50]").
Proof.
  apply (select_clause_spliced (driver_with_resources LSF_SUBMIT_LOCAL_SHELL)
           "span[hosts=1] " "mem>100" " rusage[mem=50]"); try reflexivity.
  discriminate.
Defined.

(** The composed request for a template without one, or with one that
    is not closed. *)
Lemma compose_added_or_refused (driver : lsf_driver) :
  exclude_hosts driver ≠ [] →
  (resource_request driver = None →
   alloc_resource_string driver
     = Ret (Some ("select[" +:+ CStr.join " && " (exclusion <$> exclude_hosts driver)
                  +:+ "]"))) ∧
  (∀ resreq,
     resource_request driver = Some resreq →
     CStr.strstr resreq "select[" = None →
     alloc_resource_string driver
       = Ret (Some (resreq +:+ " select["
                    +:+ CStr.join " && " (exclusion <$> exclude_hosts driver)
                    +:+ "]"))) ∧
  (∀ before open,
     resource_request driver = Some (before +:+ "select[" +:+ open) →
     CStr.strstr before "select[" = None →
     all_chars (λ c, negb (bool_decide (c = "]"%char))) open = true →
     alloc_resource_string driver
       = Exit "alloc_composed_resource_request could not find termination of select statement").
Proof.
  intros Hhosts. unfold alloc_resource_string.
  destruct (exclude_hosts driver) as [|host hosts] eqn:Hex; [done|].
  split; [|split].
  - by intros ->.
  - intros resreq Hreq Hnone. rewrite Hreq.
    unfold alloc_composed_resource_request. by rewrite Hreq, Hnone.
  - intros before open Hreq Hbefore Hopen. rewrite Hreq.
    unfold alloc_composed_resource_request. rewrite Hreq.
    rewrite ComposeFacts.strstr_select by done.
    rewrite TextFacts.drop_app_length.
    rewrite TextFacts.strstr_char_none; [done|].
    change ("select[" +:+ open)
      with (String "s" (String "e" (String "l" (String "e" (String "c"
             (String "t" (String "[" open))))))).
    cbn. exact Hopen.
Qed.

(** X15.  With hosts excluded, a template without "select[" gets a select
    clause with the exclusion predicates appended after a blank, a missing
    template becomes that clause alone, and a template whose "select[" is
    never closed by a bracket aborts the process. *)
Theorem select_clause_added_or_refused (driver : lsf_driver) :
  exclude_hosts driver ≠ [] →
  (resource_request driver = None →
   alloc_resource_string driver
     = Ret (Some ("select[" +:+ CStr.join " && " (exclusion <$> exclude_hosts driver)
                  +:+ "]"))) ∧
  (∀ resreq,
     resource_request driver = Some resreq →
     CStr.strstr resreq "select[" = None →
     alloc_resource_string driver
       = Ret (Some (resreq +:+ " select["
                    +:+ CStr.join " && " (exclusion <$> exclude_hosts driver)
                    +:+ "]"))) ∧
  (∀ before open,
     resource_request driver = Some (before +:+ "select[" +:+ open) →
     CStr.strstr before "select[" = None →
     all_chars (λ c, negb (bool_decide (c = "]"%char))) open = true →
     alloc_resource_string driver
       = Exit "alloc_composed_resource_request could not find termination of select statement").
Proof. exact (compose_added_or_refused driver). Qed.

Lemma select_clause_added_or_refused_witness :
  alloc_resource_string driver_without_select
    = Ret (Some "span[hosts=1] select[hname!='node1']").
Proof.
  destruct (select_clause_added_or_refused driver_without_select)
    as (_ & Hadded & _); [discriminate|].
  apply (Hadded "span[hosts=1]"); reflexivity.
Defined.

(** C7.  With hosts excluded, the composed resource request has one select
    clause with one exclusion predicate per host, in the order of the hosts,
    joined by " && ".  A template with a select clause keeps what the clause
    holds, the exclusions joined to it, and keeps the text before and after
    the clause, a blank being added after the clause; a template without
    select clause is kept whole, the clause added after a blank. *)
Theorem select_clause_composed (driver : lsf_driver) :
  exclude_hosts driver ≠ [] →
  (∀ before body after,
     resource_request driver
       = Some (before +:+ "select[" +:+ body +:+ "]" +:+ after) →
     CStr.strstr before "select[" = None →
     all_chars (λ c, negb (bool_decide (c = "]"%char))) body = true →
     alloc_resource_string driver
       = Ret (Some (before +:+ "select["
                    +:+ CStr.join " && " (body :: (exclusion <$> exclude_hosts driver))
                    +:+ "]" +:+ " " +:+ after))) ∧
  (∀ resreq,
     resource_request driver = Some resreq →
     CStr.strstr resreq "select[" = None →
     alloc_resource_string driver
       = Ret (Some (resreq +:+ " select["
                    +:+ CStr.join " && " (exclusion <$> exclude_hosts driver)
                    +:+ "]"))).
Proof.
  intros Hhosts. split.
  - intros before body after Hreq Hbefore Hbody.
    by apply compose_spliced.
  - intros resreq Hreq Hnone.
    destruct (compose_added_or_refused driver Hhosts) as (_ & Hadded & _).
    by apply Hadded.
Qed.

Lemma select_clause_composed_witness :
  alloc_resource_string (driver_with_resources LSF_SUBMIT_LOCAL_SHELL)
    = Ret (Some
        "span[hosts=1] select[mem>100 && hname!='node1' && hname!='node2']  rusage[mem=50]") ∧
  alloc_resource_string driver_without_select
    = Ret (Some "span[hosts=1] select[hname!='node1']").
Proof.
  split.
  - destruct (select_clause_composed (driver_with_resources LSF_SUBMIT_LOCAL_SHELL))
      as [Hspliced _]; [discriminate|].
    apply (Hspliced "span[hosts=1] " "mem>100" " rusage[mem=50]"); reflexivity.
  - destruct (select_clause_composed driver_without_select)
      as [_ Hadded]; [discriminate|].
    apply (Hadded "span[hosts=1]"); reflexivity.
Defined.


(** ** The option interface *)

Section OptionFacts.
Context `{header : lsf_driver_header} `{util : util_library}.

Lemma add_exclude_host_frame (d : lsf_driver) (h : string) :
  add_exclude_host d h = set_exclude_hosts (exclude_hosts (add_exclude_host d h)) d.
Proof.
  unfold add_exclude_host. case_decide; [|done]. by destruct d.
Qed.

Lemma add_exclude_hosts_fold (hosts : list string) (d : lsf_driver) :
  ∃ added,
    foldl add_exclude_host d hosts = set_exclude_hosts (exclude_hosts d ++ added) d ∧
    NoDup added ∧
    ∀ h, h ∈ added ↔ h ∈ hosts ∧ h ∉ exclude_hosts d.
Proof.
  revert d. induction hosts as [|x hosts IH]; intros d.
  - exists []. split; [|split].
    + simpl. rewrite app_nil_r. by destruct d.
    + constructor.
    + intros h. split; [by intros ?%elem_of_nil|by intros [?%elem_of_nil _]].
  - simpl. unfold add_exclude_host at 2. case_decide as Hx.
    + destruct (IH d) as (added & Heq & Hnd & Hin).
      exists added. split; [done|]. split; [done|].
      intros h. rewrite Hin, elem_of_cons. split; [naive_solver|].
      intros [[->|?] ?]; done.
    + destruct (IH (set_exclude_hosts (exclude_hosts d ++ [x]) d))
        as (added & Heq & Hnd & Hin).
      exists (x :: added). split; [|split].
      * rewrite Heq. simpl. by rewrite <- (assoc_L (++)).
      * constructor; [|done]. rewrite Hin. simpl.
        intros [_ Hnot]. apply Hnot. set_solver.
      * intros h. rewrite !elem_of_cons, Hin. simpl.
        rewrite elem_of_app, list_elem_of_singleton.
        destruct (decide (h = x)) as [->|Hne]; [tauto|]. tauto.
Qed.

Lemma add_exclude_hosts_NoDup (v : option string) (d : lsf_driver) :
  NoDup (exclude_hosts d) → NoDup (exclude_hosts (lsf_driver_add_exclude_hosts v d)).
Proof.
  intros Hnd. unfold lsf_driver_add_exclude_hosts.
  destruct (add_exclude_hosts_fold (stringlist_alloc_from_split v) d)
    as (added & -> & Hnd' & Hin).
  simpl. apply NoDup_app. split; [done|]. split; [|done].
  intros h Hh Hadd. apply Hin in Hadd. tauto.
Qed.


Lemma add_exclude_host_known (hosts : list string) (d : lsf_driver) :
  (∀ h, h ∈ hosts → h ∈ exclude_hosts d) → foldl add_exclude_host d hosts = d.
Proof.
  induction hosts as [|x hosts IH]; intros Hall; [done|].
  simpl. unfold add_exclude_host at 2.
  rewrite decide_True by (apply Hall; left).
  apply IH. intros h Hh. apply Hall. by right.
Qed.

(** What one option call does to the fields that the other calls rely
    on. *)
Ltac option_cases :=
  unfold lsf_driver_set_option;
  repeat case_decide; simpl;
  unfold lsf_driver_set_remote_server, lsf_driver_set_debug_output,
    lsf_driver_set_submit_sleep, lsf_driver_set_bjobs_refresh_interval_option;
  repeat match goal with
         | |- context[match ?v with Some _ => _ | None => _ end] => destruct v
         | |- context[from_option _ _ ?v] => destruct v; simpl
         end;
  repeat case_decide; simpl.

Lemma set_option_exclude_hosts (k : string) (v : option string) (d : lsf_driver) :
  exclude_hosts (lsf_driver_set_option k v d).2 = exclude_hosts d ∨
  (lsf_driver_set_option k v d).2 = lsf_driver_add_exclude_hosts v d.
Proof. option_cases; auto. Qed.

Lemma set_option_can_submit (k : string) (v : option string) (d : lsf_driver) :
  can_submit d → can_submit (lsf_driver_set_option k v d).2.
Proof.
  intros [Hm Hs].
  assert (∀ d', submit_method d' = submit_method d →
                remote_lsf_server d' = remote_lsf_server d → can_submit d')
    as Hsame.
  { intros d' Hm' Hs'. unfold can_submit. by rewrite Hm', Hs'. }
  assert (Hadd : ∀ hosts d', can_submit d' →
                 can_submit (foldl add_exclude_host d' hosts)).
  { intros hosts d' Hd'.
    destruct (add_exclude_hosts_fold hosts d') as (added & -> & _). done. }
  option_cases;
    try (apply Hsame; reflexivity);
    try (by split; [auto|intros; simpl; eauto]);
    try (by apply Hadd).
Qed.

(** X16.  Excluding hosts appends to the list: the hosts on record stay at
    the front in their order, each name that is new is added once, and
    nothing else of the driver changes. *)
Theorem exclude_hosts_appended (excluded : option string) (d : lsf_driver) :
  ∃ added,
    lsf_driver_add_exclude_hosts excluded d =
      set_exclude_hosts (exclude_hosts d ++ added) d ∧
    NoDup added ∧
    ∀ h, h ∈ added ↔
         h ∈ stringlist_alloc_from_split excluded ∧ h ∉ exclude_hosts d.
Proof. apply add_exclude_hosts_fold. Qed.

(** X17.  No option call makes a host appear twice in the list of excluded
    hosts. *)
Theorem exclude_hosts_never_repeated (options : list (string * option string))
    (d : lsf_driver) :
  NoDup (exclude_hosts d) → NoDup (exclude_hosts (set_options options d)).
Proof.
  revert d. induction options as [|[k v] options IH]; intros d Hnd; [done|].
  simpl. apply IH. simpl.
  destruct (set_option_exclude_hosts k v d) as [-> | ->]; [done|].
  by apply add_exclude_hosts_NoDup.
Qed.

(** X18.  Excluding the same hosts a second time changes nothing. *)
Theorem exclude_hosts_idempotent (excluded : option string) (d : lsf_driver) :
  lsf_driver_add_exclude_hosts excluded
    (lsf_driver_add_exclude_hosts excluded d) =
  lsf_driver_add_exclude_hosts excluded d.
Proof.
  unfold lsf_driver_add_exclude_hosts.
  destruct (add_exclude_hosts_fold (stringlist_alloc_from_split excluded) d)
    as (added & -> & _ & Hin).
  apply add_exclude_host_known. intros h Hh. simpl.
  apply elem_of_app.
  destruct (decide (h ∈ exclude_hosts d)); [by left|].
  right. by apply Hin.
Qed.

(** X19.  A driver that can submit can still submit after any series of
    option calls: the method stays one of the two shell methods, and the
    remote shell always has a server. *)
Theorem options_keep_can_submit (options : list (string * option string))
    (d : lsf_driver) :
  can_submit d → can_submit (set_options options d).
Proof.
  revert d. induction options as [|[k v] options IH]; intros d Hd; [done|].
  simpl. apply IH. by apply set_option_can_submit.
Qed.


Ltac split_keys H :=
  unfold keys_distinct in H;
  repeat (apply NoDup_cons in H as [? H]);
  repeat match goal with
         | Hn : _ ∉ _ |- _ => rewrite !not_elem_of_cons in Hn
         end;
  destruct_and?.

Ltac pick_key H :=
  unfold string_keys, get_keys, set_keys in H;
  repeat (apply elem_of_cons in H as [-> | H]);
  [..|by apply elem_of_nil in H].

(** X20.  A string option reads back as it was set, the NULL pointer
    included. *)
Theorem string_option_round_trip (k : string) (v : option string)
    (d : lsf_driver) :
  keys_distinct → k ∈ string_keys →
  lsf_driver_get_option (lsf_driver_set_option k v d).2 k = Ret v.
Proof.
  intros Hkeys Hk. split_keys Hkeys. pick_key Hk;
    unfold lsf_driver_set_option, lsf_driver_get_option;
    repeat (case_decide; try congruence); done.
Qed.


(** X21.  Setting one option leaves the answer for every other key as it
    was. *)
Theorem option_leaves_other_keys (k k' : string) (v : option string)
    (d : lsf_driver) :
  keys_distinct → k ≠ k' →
  lsf_driver_get_option (lsf_driver_set_option k v d).2 k' =
  lsf_driver_get_option d k'.
Proof.
  intros Hkeys Hne. split_keys Hkeys.
  assert (Hadd : ∀ hosts d',
    foldl add_exclude_host d' hosts =
      set_exclude_hosts (exclude_hosts (foldl add_exclude_host d' hosts)) d').
  { intros hosts d'.
    destruct (add_exclude_hosts_fold hosts d') as (added & -> & _). done. }
  unfold lsf_driver_get_option.
  repeat (case_decide; [subst k'|]);
    try (unfold lsf_driver_set_option;
         repeat (case_decide; try congruence); simpl;
         unfold lsf_driver_set_remote_server, lsf_driver_set_debug_output,
           lsf_driver_set_submit_sleep,
           lsf_driver_set_bjobs_refresh_interval_option,
           lsf_driver_add_exclude_hosts;
         try rewrite Hadd;
         repeat match goal with
                | |- context[match ?v with Some _ => _ | None => _ end] =>
                    destruct v
                | |- context[from_option _ _ ?v] => destruct v; simpl
                end;
         repeat case_decide; done).
Qed.


(** X22.  The keys the two calls know.  Setting is accepted for exactly
    the fourteen option keys; an unknown key leaves the driver as it is.
    Reading is answered for eleven of them only: it ends the process for
    the debug output, the submit sleep and the excluded hosts, as it does
    for an unknown key. *)
Theorem option_keys_known (k : string) (v : option string) (d : lsf_driver) :
  ((lsf_driver_set_option k v d).1 = true ↔ k ∈ set_keys) ∧
  ((lsf_driver_set_option k v d).1 = false →
   (lsf_driver_set_option k v d).2 = d) ∧
  (is_exit (lsf_driver_get_option d k) ↔ k ∉ get_keys).
Proof.
  split; [|split].
  - unfold lsf_driver_set_option, set_keys.
    repeat (case_decide; [subst k; simpl; split; [intros _; set_solver|done]|]).
    simpl. split; [done|]. rewrite !elem_of_cons, elem_of_nil. naive_solver.
  - unfold lsf_driver_set_option. repeat case_decide; simpl; done.
  - unfold lsf_driver_get_option, get_keys.
    repeat (case_decide; [subst k; simpl; split; [done|intros Hn; exfalso; apply Hn; set_solver]|]).
    simpl. split; [|done]. intros _. rewrite !elem_of_cons, elem_of_nil. naive_solver.
Qed.


(** X23.  The refresh interval reads back as the decimal text it was set
    from. *)
Theorem refresh_interval_round_trip (n : Z) (d : lsf_driver) :
  keys_distinct → is_int n →
  lsf_driver_get_option
    (lsf_driver_set_option LSF_BJOBS_TIMEOUT (Some (fmt_d n)) d).2
    LSF_BJOBS_TIMEOUT = Ret (Some (fmt_d n)).
Proof.
  intros Hkeys Hn. split_keys Hkeys.
  unfold lsf_driver_set_option, lsf_driver_get_option.
  repeat (case_decide; try congruence).
  unfold lsf_driver_set_bjobs_refresh_interval_option. cbn [from_option snd].
  by rewrite TextFacts.util_sscanf_int_fmt_d.
Qed.

(** X24.  A value that cannot be read is dropped without a word: the call
    answers that it knows the option, and the driver is as before. *)
Theorem unreadable_value_dropped (k s : string) (d : lsf_driver) :
  keys_distinct →
  (k = LSF_BJOBS_TIMEOUT ∧ Scan.util_sscanf_int s = None) ∨
  (k = LSF_DEBUG_OUTPUT ∧ util_sscanf_bool (Some s) = None) ∨
  (k = LSF_SUBMIT_SLEEP ∧ sscanf_submit_sleep (Some s) = None) →
  lsf_driver_set_option k (Some s) d = (true, d).
Proof.
  intros Hkeys Hk. split_keys Hkeys.
  destruct Hk as [[-> Hv]|[[-> Hv]|[-> Hv]]];
    unfold lsf_driver_set_option;
    repeat (case_decide; try congruence);
    unfold lsf_driver_set_bjobs_refresh_interval_option,
      lsf_driver_set_debug_output, lsf_driver_set_submit_sleep;
    cbn [from_option]; by rewrite Hv.
Qed.

(** X25.  The server option.  A name reads back as it was given, whatever
    it is, and the NULL pointer leaves the driver alone.  The name that
    stands for no server is no exception: it is put on record as the server,
    and the submit method stays what it was. *)
Theorem server_option_recorded (v : option string) (d : lsf_driver) :
  keys_distinct →
  let d' := (lsf_driver_set_option LSF_SERVER v d).2 in
  match v with
  | None => d' = d
  | Some s =>
      lsf_driver_get_option d' LSF_SERVER = Ret (Some s) ∧
      (util_alloc_strupr_copy s = NULL_LSF_SERVER →
       LOCAL_LSF_SERVER ≠ NULL_LSF_SERVER →
       d' = set_remote_lsf_server (Some s) d)
  end.
Proof.
  intros Hkeys. split_keys Hkeys.
  unfold lsf_driver_set_option, lsf_driver_get_option.
  repeat (case_decide; try congruence). cbn [snd].
  destruct v as [s|]; [|done]. split.
  - unfold lsf_driver_set_remote_server. by repeat case_decide.
  - intros Hs Hne. unfold lsf_driver_set_remote_server.
    rewrite Hs, decide_False, decide_True by done. done.
Qed.

End OptionFacts.

(** X26.  What killing a job runs: through ssh the kill command of the
    driver with the key of the job, on the local shell the kill command
    itself, with any other method nothing.  No lock is taken, and the driver
    keeps the job on its books. *)
Theorem kill_job_command (job : lsf_job) (st : state) :
  events_since st (lsf_driver_kill_job job st).2 =
    match submit_method (drv st) with
    | LSF_SUBMIT_REMOTE_SHELL =>
        [EvSpawn (rsh_cmd (drv st)) 2
           [remote_lsf_server (drv st);
            Some (fmt_s (bkill_cmd (drv st)) +:+ " " +:+ lsf_jobnr_char job)]]
    | LSF_SUBMIT_LOCAL_SHELL =>
        [EvSpawn (bkill_cmd (drv st)) 1 [Some (lsf_jobnr_char job)]]
    | _ => []
    end ∧
  drv (lsf_driver_kill_job job st).2 = drv st ∧
  (lsf_driver_kill_job job st).1 = Ret ().
Proof.
  unfold lsf_driver_kill_job, mbind, M_bind, get_driver,
    spawn_blocking, mret, M_ret.
  destruct st as [d w]. simpl.
  destruct (submit_method d); repeat (case_decide; try congruence); simpl.
  - split; [|done]. apply (events_since_app _ _ []). simpl. by rewrite app_nil_r.
  - split; [|done]. apply (events_since_app _ _ []). simpl. by rewrite app_nil_r.
  - destruct (respond w _ _ _) as [out us]. simpl.
    split; [|done]. by apply events_since_app.
  - destruct (respond w _ _ _) as [out us]. simpl.
    split; [|done]. by apply events_since_app.
Qed.
Section AllocFacts.
Context `{header : lsf_driver_header} `{util : util_library}.

Lemma set_option_known (v : option string) (d : lsf_driver) :
  keys_distinct →
  (lsf_driver_set_option LSF_SERVER v d).2 = lsf_driver_set_remote_server v d ∧
  (lsf_driver_set_option LSF_RSH_CMD v d).2 = set_rsh_cmd v d ∧
  (lsf_driver_set_option LSF_BSUB_CMD v d).2 = set_bsub_cmd v d ∧
  (lsf_driver_set_option LSF_BJOBS_CMD v d).2 = set_bjobs_cmd v d ∧
  (lsf_driver_set_option LSF_BKILL_CMD v d).2 = set_bkill_cmd v d ∧
  (lsf_driver_set_option LSF_BHIST_CMD v d).2 = set_bhist_cmd v d ∧
  (lsf_driver_set_option LSF_DEBUG_OUTPUT v d).2 =
    (lsf_driver_set_debug_output v d).2 ∧
  (lsf_driver_set_option LSF_SUBMIT_SLEEP v d).2 =
    (lsf_driver_set_submit_sleep v d).2 ∧
  (lsf_driver_set_option LSF_EXCLUDE_HOST v d).2 =
    lsf_driver_add_exclude_hosts v d ∧
  (lsf_driver_set_option LSF_BJOBS_TIMEOUT v d).2 =
    lsf_driver_set_bjobs_refresh_interval_option v d.
Proof.
  intros Hkeys.
  unfold keys_distinct in Hkeys.
  repeat (apply NoDup_cons in Hkeys as [? Hkeys]).
  repeat match goal with
         | Hn : _ ∉ _ |- _ => rewrite !not_elem_of_cons in Hn
         end.
  destruct_and?.
  unfold lsf_driver_set_option.
  repeat split; repeat (case_decide; try congruence); done.
Qed.

(** X27.  The driver [lsf_driver_alloc] hands out is the one its option
    calls build from the zeroed structure: local shell, no server, the
    commands ssh, bsub, bjobs, bkill and bhist, no debug output, a refresh
    interval of ten seconds. *)
Theorem alloc_by_option_calls (DEFAULT_SUBMIT_SLEEP : string) (us : Z)
    (st : state) :
  keys_distinct →
  util_sscanf_bool (Some "FALSE") = Some false →
  sscanf_submit_sleep (Some DEFAULT_SUBMIT_SLEEP) = Some us →
  lsf_driver_alloc_calls DEFAULT_SUBMIT_SLEEP st = lsf_driver_alloc us st.
Proof.
  intros Hkeys Hbool Hsleep.
  assert (Scan.util_sscanf_int "10" = Some 10) as Hten by (vm_compute; reflexivity).
  unfold lsf_driver_alloc_calls, lsf_driver_alloc, set_options.
  cbn [foldl fst snd].
  cbv beta iota delta [mbind M_bind time set_driver mret M_ret].
  repeat match goal with
         | |- context[(lsf_driver_set_option ?k ?v ?d).2] =>
             let H := fresh in
             pose proof (set_option_known v d Hkeys) as H;
             destruct_and? H;
             match goal with
             | E : (lsf_driver_set_option k v d).2 = _ |- _ => rewrite E
             end;
             repeat match goal with
                    | E : (lsf_driver_set_option _ v d).2 = _ |- _ => clear E
                    end
         end.
  unfold lsf_driver_set_bjobs_refresh_interval_option,
    lsf_driver_set_debug_output, lsf_driver_set_submit_sleep.
  cbn [from_option]. rewrite Hten, Hbool, Hsleep.
  reflexivity.
Qed.

End AllocFacts.
Lemma ert_keys_distinct : @keys_distinct ert_header.
Proof. unfold keys_distinct. apply (bool_decide_unpack _). vm_compute. exact I. Qed.

Lemma exclude_hosts_never_repeated_witness :
  NoDup (exclude_hosts
    (@set_options ert_header fixture_util
       [("EXCLUDE_HOST", Some "be-grid01, be-grid02,be-grid01");
        ("LSF_QUEUE", Some "normal");
        ("EXCLUDE_HOST", Some "be-grid02 be-grid03")]
       Fixture.driver)).
Proof.
  apply (@exclude_hosts_never_repeated ert_header fixture_util).
  simpl. apply (bool_decide_unpack _). vm_compute. exact I.
Defined.

Lemma options_keep_can_submit_witness :
  can_submit
    (@set_options ert_header fixture_util
       [("LSF_SERVER", Some "null"); ("LSF_QUEUE", Some "normal")]
       Fixture.remote_driver).
Proof.
  apply (@options_keep_can_submit ert_header fixture_util).
  split; [by right|]. intros _. vm_compute. eauto.
Defined.

Lemma string_option_round_trip_witness :
  @lsf_driver_get_option ert_header
    (@lsf_driver_set_option ert_header fixture_util "LSF_QUEUE" (Some "normal")
       Fixture.driver).2 "LSF_QUEUE" = Ret (Some "normal").
Proof.
  apply (@string_option_round_trip ert_header fixture_util).
  - exact ert_keys_distinct.
  - apply (bool_decide_unpack _). vm_compute. exact I.
Defined.

Lemma option_leaves_other_keys_witness :
  @lsf_driver_get_option ert_header
    (@lsf_driver_set_option ert_header fixture_util "LSF_SERVER"
       (Some "be-grid01") Fixture.driver).2 "LSF_RSH_CMD" =
  @lsf_driver_get_option ert_header Fixture.driver "LSF_RSH_CMD".
Proof.
  apply (@option_leaves_other_keys ert_header fixture_util).
  - exact ert_keys_distinct.
  - discriminate.
Defined.

Lemma refresh_interval_round_trip_witness :
  @lsf_driver_get_option ert_header
    (@lsf_driver_set_option ert_header fixture_util "BJOBS_TIMEOUT"
       (Some (fmt_d 30)) Fixture.driver).2 "BJOBS_TIMEOUT" =
  Ret (Some (fmt_d 30)).
Proof.
  apply (@refresh_interval_round_trip ert_header fixture_util).
  - exact ert_keys_distinct.
  - unfold is_int. lia.
Defined.

Lemma unreadable_value_dropped_witness :
  @lsf_driver_set_option ert_header fixture_util "BJOBS_TIMEOUT" (Some "soon")
    Fixture.driver = (true, Fixture.driver).
Proof.
  apply (@unreadable_value_dropped ert_header fixture_util).
  - exact ert_keys_distinct.
  - left. split; vm_compute; reflexivity.
Defined.

Lemma server_option_recorded_witness :
  (@lsf_driver_set_option ert_header fixture_util "LSF_SERVER" (Some "null")
     Fixture.remote_driver).2 =
  set_remote_lsf_server (Some "null") Fixture.remote_driver.
Proof.
  destruct (@server_option_recorded ert_header fixture_util (Some "null")
              Fixture.remote_driver ert_keys_distinct) as [_ H].
  apply H; [vm_compute; reflexivity|discriminate].
Defined.

Lemma alloc_by_option_calls_witness :
  @lsf_driver_alloc_calls ert_header fixture_util "0"
    (Fixture.with_driver Fixture.driver (Fixture.batch (λ _, "ok") 0)) =
  lsf_driver_alloc 0 (Fixture.with_driver Fixture.driver (Fixture.batch (λ _, "ok") 0)).
Proof.
  apply (@alloc_by_option_calls ert_header fixture_util).
  - exact ert_keys_distinct.
  - vm_compute. reflexivity.
  - vm_compute. reflexivity.
Defined.
